(** * Mock-up compositing pipeline: a shallow embedding and its properties

    The development follows the JavaScript sources of the mock-up feature:

    - [src/mockup-feature/src/App.jsx]: the drag / resize handlers
      ([handleMouseDown], [handleMouseMove], [handleMouseUp]) and the
      caller of the depth provider ([initializeMockupProcessing]); the
      handlers as the JSX binds them, [handleDesignChange],
      [containerDimensions], and the rectangles of [updateOverlayCanvas],
      [renderFallbackCanvas] and [updateMockupRender];
    - [src/mockup-feature/src/utils/depthEstimation.js]: [getDepthMap],
      [getDepthMapFAL], [createFallbackDepthMap], [processDepthMap];
    - [src/mockup-feature/src/utils/pixiRenderer.js]: the fragment shader of
      [FabricWrapFilter], [MockupRenderer.generateResults],
      [captureFrame], and (appended to the same file)
      [buildLightingMasksSimple]; the sprite placement of [initialize],
      [setDisplacementStrength], [renderDesignAtPosition], [destroy],
      [convertSvgToBitmap], [renderWithCanvas2D], and [buildLightingMasks]
      with [rgbToLab].

    Modelling conventions.

    - A JavaScript [Number] (and a GLSL [float]) is an exact rational [Q]:
      IEEE rounding is not modelled.  Decimal literals denote their decimal
      value ([0.299] is [299/1000]).  The depth normalisation is also
      written on binary64 numbers ([Float64]) and stores the same bytes as
      the exact one on every input; elsewhere a byte computed exactly can
      differ from the engine's by one where the exact value is a tie.
    - A [Uint8ClampedArray] is a [list Z] of bytes; a store converts the
      number with [toUint8Clamped] (round to nearest, ties to even, clamp
      to 0..255).  Reads are stdpp's [l !! i], stores [<[i:=v]> l]; an
      out-of-range store to a typed array is ignored, as stdpp's insert.
    - [async] functions that can reject are functions into [Completion]
      (a resolved value or a thrown error); what the browser, the network
      and the GPU answer is a parameter of the section. *)

From Stdlib Require Import ZArith QArith Qminmax Qround Qabs Lia Lqa Bool.
From Stdlib Require Import Floats Uint63.
From Stdlib Require Import String Ascii DecimalString.
From stdpp Require Import base list strings.

Local Open Scope Q_scope.

(* ================================================================== *)
(** * JavaScript numbers *)
(* ================================================================== *)

Module Js.

(** [Math.max(a, b)] and [Math.min(a, b)] on finite numbers. *)
Definition Math_max (a b : Q) : Q := Qmax a b.
Definition Math_min (a b : Q) : Q := Qmin a b.

(** Conversion on a store into a [Uint8ClampedArray]: round to the
    nearest integer, ties to the even one, then clamp to 0..255. *)
Definition roundHalfEven (v : Q) : Z :=
  let f := Qfloor v in
  match Qcompare (v - inject_Z f) (1 # 2) with
  | Lt => f
  | Gt => (f + 1)%Z
  | Eq => if Z.even f then f else (f + 1)%Z
  end.

Definition toUint8Clamped (v : Q) : Z :=
  Z.max 0 (Z.min 255 (roundHalfEven v)).

(** A byte of an [ImageData] buffer. *)
Definition isByte (b : Z) : Prop := (0 <= b <= 255)%Z.

End Js.

(* ================================================================== *)
(** * App.jsx: the drag / resize state machine *)
(* ================================================================== *)

Module Interaction.
Import Js.

(** [designPosition = { x, y }], [dragOffset = { x, y }]. *)
Record Position := { x : Q; y : Q }.
(** [designSize = { width, height }]. *)
Record Size := { width : Q; height : Q }.

(** The React state the handlers read and set. *)
Record State := {
  designPosition : Position;
  designSize : Size;
  isDragging : bool;
  isResizing : bool;
  dragOffset : Position
}.

(** [containerRef.current]: its bounding rectangle's corner and its
    offset size. *)
Record Container := {
  left : Q;
  top : Q;
  offsetWidth : Q;
  offsetHeight : Q
}.

Record MouseEvent := { clientX : Q; clientY : Q }.

(** State after a design upload: position (50, 50), size 200 x 200,
    no interaction in progress. *)
Definition initialState : State :=
  {| designPosition := {| x := 50; y := 50 |};
     designSize := {| width := 200; height := 200 |};
     isDragging := false;
     isResizing := false;
     dragOffset := {| x := 0; y := 0 |} |}.

Definition handleSize : Q := 20.

Definition inRange (lo v hi : Q) : bool := Qle_bool lo v && Qle_bool v hi.

(** [handleMouseDown]: the resize handle is tested first, then the
    placement rectangle. *)
Definition handleMouseDown (st : State) (container : Container)
    (event : MouseEvent) : State :=
  let mx := clientX event - left container in
  let my := clientY event - top container in
  let pos := designPosition st in
  let size := designSize st in
  let resizeX := x pos + width size - handleSize in
  let resizeY := y pos + height size - handleSize in
  if inRange resizeX mx (resizeX + handleSize)
     && inRange resizeY my (resizeY + handleSize)
  then {| designPosition := pos; designSize := size;
          isDragging := isDragging st; isResizing := true;
          dragOffset := dragOffset st |}
  else if inRange (x pos) mx (x pos + width size)
          && inRange (y pos) my (y pos + height size)
  then {| designPosition := pos; designSize := size;
          isDragging := true; isResizing := isResizing st;
          dragOffset := {| x := mx - x pos; y := my - y pos |} |}
  else st.

(** [handleMouseMove]. *)
Definition handleMouseMove (st : State) (container : Container)
    (event : MouseEvent) : State :=
  if negb (isDragging st) && negb (isResizing st) then st
  else
    let mx := clientX event - left container in
    let my := clientY event - top container in
    if isDragging st then
      let newX :=
        Math_max 0 (Math_min (mx - x (dragOffset st))
                             (offsetWidth container - width (designSize st))) in
      let newY :=
        Math_max 0 (Math_min (my - y (dragOffset st))
                             (offsetHeight container - height (designSize st))) in
      {| designPosition := {| x := newX; y := newY |};
         designSize := designSize st;
         isDragging := isDragging st; isResizing := isResizing st;
         dragOffset := dragOffset st |}
    else if isResizing st then
      let newWidth := Math_max 50 (mx - x (designPosition st)) in
      let newHeight := Math_max 50 (my - y (designPosition st)) in
      let constrainedWidth :=
        Math_min newWidth (offsetWidth container - x (designPosition st)) in
      let constrainedHeight :=
        Math_min newHeight (offsetHeight container - y (designPosition st)) in
      {| designPosition := designPosition st;
         designSize := {| width := constrainedWidth;
                          height := constrainedHeight |};
         isDragging := isDragging st; isResizing := isResizing st;
         dragOffset := dragOffset st |}
    else st.

(** [handleMouseUp]. *)
Definition handleMouseUp (st : State) : State :=
  {| designPosition := designPosition st; designSize := designSize st;
     isDragging := false; isResizing := false;
     dragOffset := dragOffset st |}.

(** The states of the controller, read off the two flags.  Dragging is
    tested first in [handleMouseMove]. *)
Inductive Mode := Idle | Dragging | Resizing.

Definition mode (st : State) : Mode :=
  if isDragging st then Dragging
  else if isResizing st then Resizing else Idle.

End Interaction.

(* ================================================================== *)
(** * Canvas pixel buffers and the pixel loop *)
(* ================================================================== *)

Module Canvas.

(** An [ImageBitmap] together with the RGBA bytes that
    [ctx.drawImage(bitmap, 0, 0)] followed by [ctx.getImageData] reads
    back from it: [data] holds four bytes per pixel, row by row. *)
Record ImageBitmap := {
  width : nat;
  height : nat;
  data : list Z
}.

(** [new Uint8ClampedArray(n)]: [n] zero bytes. *)
Definition newUint8ClampedArray (n : nat) : list Z := replicate n 0%Z.

(** [for (let i = start; i < len; i += 4) body(i)], threading the state
    the body mutates.  [fuel] bounds the number of iterations; [len]
    iterations are always enough. *)
Fixpoint forStep4 {S : Type} (fuel : nat) (i len : nat)
    (body : nat -> S -> S) (s : S) : S :=
  match fuel with
  | O => s
  | Datatypes.S fuel' =>
      if decide (i < len)%nat
      then forStep4 fuel' (i + 4)%nat len body (body i s)
      else s
  end.

End Canvas.

(* ================================================================== *)
(** * lightingMasks: [buildLightingMasksSimple] *)
(* ================================================================== *)

Module LightingMasks.
Import Js Canvas.

(** [(0.299 * r + 0.587 * g + 0.114 * b) / 255]. *)
Definition brightness (r g b : Z) : Q :=
  (0.299 * inject_Z r + 0.587 * inject_Z g
   + 0.114 * inject_Z b) / 255.

(** [Math.max(0, Math.min(1, 0.5 - brightness)) * 255]. *)
Definition shadowValue (brightness : Q) : Q :=
  Math_max 0 (Math_min 1 (0.5 - brightness)) * 255.

(** [Math.max(0, Math.min(1, brightness - 0.5)) * 255]. *)
Definition highlightValue (brightness : Q) : Q :=
  Math_max 0 (Math_min 1 (brightness - 0.5)) * 255.

(** The four stores of one mask for the pixel at [i]. *)
Definition storePixel (i : nat) (value : Q) (a : Z) (maskData : list Z) : list Z :=
  <[(i + 3)%nat := a]>
    (<[(i + 2)%nat := toUint8Clamped value]>
       (<[(i + 1)%nat := toUint8Clamped value]>
          (<[i := toUint8Clamped value]> maskData))).

(** The body of the pixel loop, on [(shadowData, highlightData)].  A read
    past the end of [data] is [undefined] in JavaScript: the values
    computed from it are [NaN], stored as 0 into arrays that still hold 0
    there, so the body leaves both arrays as they are. *)
Definition maskBody (data : list Z) (i : nat) (masks : list Z * list Z)
    : list Z * list Z :=
  match data !! i, data !! (i + 1)%nat, data !! (i + 2)%nat, data !! (i + 3)%nat with
  | Some r, Some g, Some b, Some a =>
      let brightness := brightness r g b in
      (storePixel i (shadowValue brightness) a (fst masks),
       storePixel i (highlightValue brightness) a (snd masks))
  | _, _, _, _ => masks
  end.

(** The two masks, each with the buffer the loop wrote for it:
    [putImageData] and [createImageBitmap] are taken to keep the bytes. *)
Record Masks := { shadowMask : ImageBitmap; highlightMask : ImageBitmap }.

Definition buildLightingMasksSimple (mockupBitmap : ImageBitmap) : Masks :=
  let data := data mockupBitmap in
  let shadowData := newUint8ClampedArray (length data) in
  let highlightData := newUint8ClampedArray (length data) in
  let masks :=
    forStep4 (length data) 0 (length data) (maskBody data)
             (shadowData, highlightData) in
  {| shadowMask := {| width := width mockupBitmap;
                      height := height mockupBitmap;
                      data := fst masks |};
     highlightMask := {| width := width mockupBitmap;
                         height := height mockupBitmap;
                         data := snd masks |} |}.

End LightingMasks.

(* ================================================================== *)
(** * depthEstimation.js: [processDepthMap] *)
(* ================================================================== *)

Module DepthMap.
Import Js Canvas.

(** One iteration of the min/max scan: [gray = data[i]]. *)
Definition minMaxBody (data : list Z) (i : nat) (mm : Z * Z) : Z * Z :=
  match data !! i with
  | Some gray => (Z.min (fst mm) gray, Z.max (snd mm) gray)
  | None => mm
  end.

(** [(data[i] - min) / range * 255]. *)
Definition normalized (d min range : Z) : Q :=
  inject_Z (d - min) / inject_Z range * 255.

(** One iteration of the rescaling loop:
    [data[i] = data[i + 1] = data[i + 2] = normalized], the stores done
    right to left. *)
Definition normalizeBody (min range : Z) (i : nat) (data : list Z) : list Z :=
  match data !! i with
  | Some d =>
      let v := toUint8Clamped (normalized d min range) in
      <[i := v]> (<[(i + 1)%nat := v]> (<[(i + 2)%nat := v]> data))
  | None => data
  end.

(** The normalisation of the pixel buffer read back from the canvas. *)
Definition minMax (data : list Z) : Z * Z :=
  forStep4 (length data) 0 (length data) (minMaxBody data) (255, 0)%Z.

Definition normalize (data : list Z) : list Z :=
  let (min, max) := minMax data in
  let range := (max - min)%Z in
  if (0 <? range)%Z
  then forStep4 (length data) 0 (length data) (normalizeBody min range) data
  else data.

Section Canvas2D.

(** What the 2D canvas does, as far as [processDepthMap] uses it:
    [drawImage bitmap w h] is the pixel buffer of a fresh [w] x [h]
    canvas after [ctx.drawImage(bitmap, 0, 0, w, h)], and [blur3] the
    buffer after drawing the canvas onto itself under
    [ctx.filter = 'blur(3px)']. *)
Variable drawImage : ImageBitmap -> nat -> nat -> list Z.
Variable blur3 : list Z -> list Z.



End Canvas2D.

End DepthMap.

(* ================================================================== *)
(** * The normalisation in IEEE double precision *)
(* ================================================================== *)

(** [normalized] and the store into the [Uint8ClampedArray] as the
    engine computes them, on binary64 numbers. *)
Module Float64.

Definition ofZ (z : Z) : float := PrimFloat.of_uint63 (Uint63.of_Z z).

(** Round to the nearest integer, ties to the even one, for
    [0 <= x < 2^52]: adding [2^52] leaves no fractional bits. *)
Definition roundTiesToEven (x : float) : float :=
  PrimFloat.sub (PrimFloat.add x 0x1p52%float) 0x1p52%float.

(** The integer below 256 that an integral [x] is, found bit by bit. *)
Definition bitStep (x : float) (acc bit : Z) : Z :=
  if PrimFloat.leb (ofZ (acc + bit)) x then (acc + bit)%Z else acc.

Definition toByte (x : float) : Z :=
  fold_left (bitStep x) [128; 64; 32; 16; 8; 4; 2; 1]%Z 0%Z.

(** The store conversion: [NaN] and negative numbers give 0, numbers
    from 255 on give 255. *)
Definition toUint8Clamped (x : float) : Z :=
  if PrimFloat.leb x 0%float then 0%Z
  else if PrimFloat.leb 255%float x then 255%Z
  else if PrimFloat.ltb 0%float x then toByte (roundTiesToEven x)
  else 0%Z.

(** [(data[i] - min) / range * 255]. *)
Definition normalized (d min range : Z) : float :=
  PrimFloat.mul (PrimFloat.div (ofZ (d - min)) (ofZ range)) 255%float.

(** The double and the exact computation store the same byte for the
    difference [k] and the range [range]. *)
Definition agree (range k : Z) : bool :=
  (toUint8Clamped (normalized k 0 range)
   =? Js.toUint8Clamped (DepthMap.normalized k 0 range))%Z.

Definition upTo (n : nat) : list Z := map Z.of_nat (seq 0 n).

End Float64.

(* ================================================================== *)
(** * Promises and JavaScript values *)
(* ================================================================== *)

Module Async.
Import Canvas.

(** How an awaited promise (or a [try] block) completes: with a value, or
    with a thrown error, kept as its message. *)
Inductive Completion (A : Type) : Type :=
| Resolved (value : A)
| Rejected (error : string).

Arguments Resolved {A} value.
Arguments Rejected {A} error.

Definition bind {A B : Type} (c : Completion A) (k : A -> Completion B)
    : Completion B :=
  match c with
  | Resolved v => k v
  | Rejected e => Rejected e
  end.

Notation "x <- c ;; k" := (bind c (fun x => k))
  (at level 100, c at next level, right associativity).

(** [try { body } catch (error) { handler }]. *)
Definition tryCatch {A : Type} (body : Completion A)
    (handler : string -> Completion A) : Completion A :=
  match body with
  | Resolved v => Resolved v
  | Rejected e => handler e
  end.

(** The values the depth pipeline hands around. *)
#[warnings="-register-all"]
Inductive Value : Type :=
| VUndefined
| VNull
| VBool (b : bool)
| VNumber (n : Q)
| VString (s : string)
| VBitmap (bitmap : ImageBitmap)
| VObject (fields : list (string * Value)).

Fixpoint assoc (fields : list (string * Value)) (key : string) : Value :=
  match fields with
  | [] => VUndefined
  | (k, v) :: rest => if String.eqb k key then v else assoc rest key
  end.

(** [value.key]: a [TypeError] on [undefined] and [null], [undefined]
    for a property the value does not have.  An [ImageBitmap] has
    [width] and [height]. *)
Definition getProperty (value : Value) (key : string) : Completion Value :=
  match value with
  | VUndefined => Rejected "TypeError: Cannot read properties of undefined"
  | VNull => Rejected "TypeError: Cannot read properties of null"
  | VObject fields => Resolved (assoc fields key)
  | VBitmap bitmap =>
      if String.eqb key "width" then Resolved (VNumber (inject_Z (Z.of_nat (width bitmap))))
      else if String.eqb key "height" then Resolved (VNumber (inject_Z (Z.of_nat (height bitmap))))
      else Resolved VUndefined
  | _ => Resolved VUndefined
  end.

(** [value?.key]. *)
Definition getPropertyOptional (value : Value) (key : string) : Completion Value :=
  match value with
  | VUndefined | VNull => Resolved VUndefined
  | _ => getProperty value key
  end.

(** [!value] is [negb (truthy value)]. *)
Definition truthy (value : Value) : bool :=
  match value with
  | VUndefined | VNull => false
  | VBool b => b
  | VNumber n => negb (Qeq_bool n 0)
  | VString s => negb (String.eqb s "")
  | VBitmap _ | VObject _ => true
  end.

(** [`${status}`]. *)
Definition showZ (n : Z) : string := NilZero.string_of_int (Z.to_int n).

End Async.

(* ================================================================== *)
(** * depthEstimation.js: [getDepthMap]; App.jsx: its caller *)
(* ================================================================== *)

Module DepthProvider.
Import Canvas Async.

Section Browser.

(** [Blob] stands for files and blobs.  The browser and the network are
    parameters: reading a file as a data URL, [fetch], decoding a blob
    into a bitmap, and the bitmap of the canvas on which
    [createFallbackDepthMap] has painted its three gradients (it depends
    on the canvas size only). *)
Variable Blob : Type.

Record Response := {
  ok : bool;
  status : Z;
  text : Completion string;
  json : Completion Value;
  blob : Completion Blob
}.

Variable fileToBase64 : Blob -> Completion string.
Variable fetch : Value -> option Value -> Completion Response.
Variable createImageBitmap : Blob -> Completion ImageBitmap.
Variable fallbackGradients : nat -> nat -> ImageBitmap.

Definition falEndpoint : string := "https://fal.run/fal-ai/imageutils/depth".

Definition getDepthMapFAL (imageFile : Blob) : Completion ImageBitmap :=
  imageBase64 <- fileToBase64 imageFile ;;
  response <- fetch (VString falEndpoint)
                    (Some (VObject [("image_url"%string, VString imageBase64)])) ;;
  if negb (ok response) then
    errorText <- text response ;;
    Rejected ("FAL depth estimation failed: " +:+ showZ (status response)
              +:+ " - " +:+ errorText)
  else
    result <- json response ;;
    image <- getProperty result "image" ;;
    depthImageUrl <- getPropertyOptional image "url" ;;
    if negb (truthy depthImageUrl) then
      Rejected "No depth map URL in FAL response"
    else
      depthResponse <- fetch depthImageUrl None ;;
      if negb (ok depthResponse) then
        Rejected ("Failed to fetch depth image: " +:+ showZ (status depthResponse))
      else
        depthBlob <- blob depthResponse ;;
        depthBitmap <- createImageBitmap depthBlob ;;
        Resolved depthBitmap.

Definition createFallbackDepthMap (imageFile : Blob) : Completion ImageBitmap :=
  img <- createImageBitmap imageFile ;;
  Resolved (fallbackGradients (width img) (height img)).

Definition getDepthMap (imageFile : Blob) : Completion ImageBitmap :=
  tryCatch (getDepthMapFAL imageFile)
           (fun error => createFallbackDepthMap imageFile).

(** The first statements of [initializeMockupProcessing]:
    [const { depthMap, method } = await getDepthMap(file)], then
    [setDepthMapMethod(method)] and the preview canvas sized with
    [depthMap.width] and [depthMap.height].  The result is the method
    shown and the preview's size. *)
Definition initializeMockupProcessing (file : Blob) : Completion (Value * Value * Value) :=
  resolved <- getDepthMap file ;;
  depthMap <- getProperty (VBitmap resolved) "depthMap" ;;
  method <- getProperty (VBitmap resolved) "method" ;;
  canvasWidth <- getProperty depthMap "width" ;;
  canvasHeight <- getProperty depthMap "height" ;;
  Resolved (method, canvasWidth, canvasHeight).

End Browser.

End DepthProvider.

(* ================================================================== *)
(** * pixiRenderer.js: the fragment shader of [FabricWrapFilter] *)
(* ================================================================== *)

Module Shader.

Record vec2 := { vx : Q; vy : Q }.
Record vec3 := { r : Q; g : Q; b : Q }.
Record vec4 := { rgb : vec3; a : Q }.

(** A bound texture: [texture2D(sampler, uv)]. *)
Definition sampler2D := vec2 -> vec4.
Definition texture2D (s : sampler2D) (uv : vec2) : vec4 := s uv.

(** The uniforms of the filter; [uSampler] is the filtered sprite. *)
Record Uniforms := {
  uSampler : sampler2D;
  uDisp : sampler2D;
  uShadow : sampler2D;
  uHighlight : sampler2D;
  uDesign : sampler2D;
  uStrength : Q;
  uShadowPower : Q;
  uHighlightPower : Q
}.

(** GLSL built-ins: [clamp(x, lo, hi) = min(max(x, lo), hi)] and
    [mix(x, y, t) = x * (1 - t) + y * t], component-wise on vectors. *)
Definition clamp (v lo hi : Q) : Q := Qmin (Qmax v lo) hi.
Definition mix (v w t : Q) : Q := v * (1 - t) + w * t.

Definition map3 (f : Q -> Q) (v : vec3) : vec3 :=
  {| r := f (r v); g := f (g v); b := f (b v) |}.
Definition zip3 (f : Q -> Q -> Q) (v w : vec3) : vec3 :=
  {| r := f (r v) (r w); g := f (g v) (g w); b := f (b v) (b w) |}.

Definition clamp2 (v : vec2) (lo hi : Q) : vec2 :=
  {| vx := clamp (vx v) lo hi; vy := clamp (vy v) lo hi |}.
Definition clamp3 (v : vec3) (lo hi : Q) : vec3 := map3 (fun c => clamp c lo hi) v.
Definition mix3 (v w : vec3) (t : Q) : vec3 := zip3 (fun c d => mix c d t) v w.
Definition mul3 (v w : vec3) : vec3 := zip3 Qmult v w.
Definition scale3 (v : vec3) (k : Q) : vec3 := map3 (fun c => c * k) v.
Definition offset3 (v : vec3) (k : Q) : vec3 := map3 (fun c => c + k) v.
Definition offset2 (v : vec2) (k : Q) : vec2 :=
  {| vx := vx v + k; vy := vy v + k |}.

(** [warp]: where the design is sampled for the fragment at [vUV]. *)
Definition warp (u : Uniforms) (vUV : vec2) : vec2 :=
  let displacement := r (rgb (texture2D (uDisp u) vUV)) in
  let warp := offset2 vUV ((displacement - 0.5) * uStrength u * 0.2) in
  clamp2 warp 0 1.

(** [composite] after the [if (design.a > 0.1)] statement. *)
Definition blended (u : Uniforms) (vUV : vec2) : vec3 :=
  let base := texture2D (uSampler u) vUV in
  let composite := rgb base in
  let design := texture2D (uDesign u) (warp u vUV) in
  if Qlt_le_dec 0.1 (a design) then
    let fabricColor := mul3 (rgb base) (rgb design) in
    mix3 (rgb base) fabricColor (a design * 0.8)
  else composite.

(** [main]: the value of [gl_FragColor]. *)
Definition main (u : Uniforms) (vUV : vec2) : vec4 :=
  let composite := blended u vUV in
  let shadow := r (rgb (texture2D (uShadow u) vUV)) in
  let highlight := r (rgb (texture2D (uHighlight u) vUV)) in
  let composite := scale3 composite (1 - shadow * uShadowPower u * 0.6) in
  let composite := offset3 composite (highlight * uHighlightPower u * 0.4) in
  let composite := clamp3 composite 0 1 in
  {| rgb := composite; a := 1 |}.

(** A colour channel of a [vec3]. *)
Inductive Channel := Red | Green | Blue.

Definition channel (c : Channel) (v : vec3) : Q :=
  match c with Red => r v | Green => g v | Blue => b v end.

End Shader.

(* ================================================================== *)
(** * Reading a PNG data URL *)
(* ================================================================== *)

Module Png.
Import Canvas.
Local Open Scope Z_scope.

(** ** Base64 (RFC 4648) *)

Definition base64Value (c : ascii) : option Z :=
  let n := Z.of_nat (nat_of_ascii c) in
  if (65 <=? n) && (n <=? 90) then Some (n - 65)
  else if (97 <=? n) && (n <=? 122) then Some (n - 71)
  else if (48 <=? n) && (n <=? 57) then Some (n + 4)
  else if n =? 43 then Some 62
  else if n =? 47 then Some 63
  else None.

Definition isPad (c : ascii) : bool := Ascii.eqb c "="%char.

Fixpoint base64Decode (s : string) : option (list Z) :=
  match s with
  | EmptyString => Some []
  | String c1 (String c2 (String c3 (String c4 rest))) =>
      v1 ← base64Value c1;
      v2 ← base64Value c2;
      let byte1 := v1 * 4 + v2 / 16 in
      if isPad c3 then
        if isPad c4 && String.eqb rest "" then Some [byte1] else None
      else
        v3 ← base64Value c3;
        let byte2 := (v2 mod 16) * 16 + v3 / 4 in
        if isPad c4 then
          if String.eqb rest "" then Some [byte1; byte2] else None
        else
          v4 ← base64Value c4;
          tail ← base64Decode rest;
          Some (byte1 :: byte2 :: ((v3 mod 4) * 64 + v4) :: tail)
  | _ => None
  end.

Definition dataUrlPrefix : string := "data:image/png;base64,".

(** The bytes of a [data:image/png;base64,...] URL. *)
Definition dataUrlBytes (url : string) : option (list Z) :=
  if String.prefix dataUrlPrefix url
  then base64Decode (String.substring (String.length dataUrlPrefix)
                       (String.length url - String.length dataUrlPrefix) url)
  else None.

(** ** Checksums *)

Definition crcStep (c : Z) : Z :=
  if Z.testbit c 0 then Z.lxor 3988292384 (Z.shiftr c 1) else Z.shiftr c 1.

Definition crcByte (crc byte : Z) : Z :=
  Nat.iter 8 crcStep (Z.lxor crc byte).

Definition crc32 (bytes : list Z) : Z :=
  Z.lxor (fold_left crcByte bytes 4294967295) 4294967295.

Definition adler32 (bytes : list Z) : Z :=
  let '(a, b) :=
    fold_left (fun '(a, b) byte =>
                 let a' := (a + byte) mod 65521 in (a', (b + a') mod 65521))
              bytes (1, 0) in
  b * 65536 + a.

Definition be32 (b1 b2 b3 b4 : Z) : Z :=
  ((b1 * 256 + b2) * 256 + b3) * 256 + b4.

(** ** Inflate (RFC 1951): stored blocks and fixed Huffman codes *)

Definition bitsOfByte (byte : Z) : list bool :=
  map (fun i => Z.testbit byte (Z.of_nat i)) (seq 0 8).

Definition bitsOfBytes (bytes : list Z) : list bool :=
  concat (map bitsOfByte bytes).

Definition bitZ (b : bool) : Z := if b then 1 else 0.

(** [n] bits as a number, least significant bit first. *)
Fixpoint readBits (n : nat) (bits : list bool) : option (Z * list bool) :=
  match n with
  | O => Some (0, bits)
  | S n' =>
      match bits with
      | [] => None
      | b :: rest =>
          '(v, rest') ← readBits n' rest;
          Some (bitZ b + 2 * v, rest')
      end
  end.

(** [n] more bits of a Huffman code, most significant bit first. *)
Fixpoint readCode (n : nat) (acc : Z) (bits : list bool) : option (Z * list bool) :=
  match n with
  | O => Some (acc, bits)
  | S n' =>
      match bits with
      | [] => None
      | b :: rest => readCode n' (2 * acc + bitZ b) rest
      end
  end.

(** A symbol of the fixed literal/length code: 7 bits for 256..279,
    8 for 0..143 and 280..287, 9 for 144..255. *)
Definition decodeFixedSymbol (bits : list bool) : option (Z * list bool) :=
  '(c7, r7) ← readCode 7 0 bits;
  if c7 <=? 23 then Some (256 + c7, r7)
  else
    '(c8, r8) ← readCode 1 c7 r7;
    if (48 <=? c8) && (c8 <=? 191) then Some (c8 - 48, r8)
    else if (192 <=? c8) && (c8 <=? 199) then Some (280 + (c8 - 192), r8)
    else
      '(c9, r9) ← readCode 1 c8 r8;
      if (400 <=? c9) && (c9 <=? 511) then Some (144 + (c9 - 400), r9)
      else None.

(** The match length of the symbols 257..285. *)
Definition lengthOfSymbol (sym : Z) (bits : list bool) : option (Z * list bool) :=
  if sym <=? 264 then Some (sym - 254, bits)
  else if sym =? 285 then Some (258, bits)
  else if sym <=? 284 then
    let extra := (sym - 261) / 4 in
    '(e, rest) ← readBits (Z.to_nat extra) bits;
    Some (3 + (4 + (sym - 265) mod 4) * 2 ^ extra + e, rest)
  else None.

(** The match distance of the distance codes 0..29. *)
Definition distanceOfCode (code : Z) (bits : list bool) : option (Z * list bool) :=
  if code <=? 3 then Some (code + 1, bits)
  else if code <=? 29 then
    let extra := code / 2 - 1 in
    '(e, rest) ← readBits (Z.to_nat extra) bits;
    Some (1 + (2 + code mod 2) * 2 ^ extra + e, rest)
  else None.

(** Copy [n] bytes from [dist] bytes back in the output. *)
Fixpoint copyBack (n dist : nat) (out : list Z) : option (list Z) :=
  match n with
  | O => Some out
  | S n' =>
      if decide (dist = 0 \/ length out < dist)%nat then None
      else
        byte ← out !! (length out - dist)%nat;
        copyBack n' dist (out ++ [byte])
  end.

Fixpoint inflateFixed (fuel : nat) (bits : list bool) (out : list Z)
    : option (list Z * list bool) :=
  match fuel with
  | O => None
  | S fuel' =>
      '(sym, rest) ← decodeFixedSymbol bits;
      if sym <? 256 then inflateFixed fuel' rest (out ++ [sym])
      else if sym =? 256 then Some (out, rest)
      else
        '(len, r1) ← lengthOfSymbol sym rest;
        '(code, r2) ← readCode 5 0 r1;
        '(dist, r3) ← distanceOfCode code r2;
        out' ← copyBack (Z.to_nat len) (Z.to_nat dist) out;
        inflateFixed fuel' r3 out'
  end.

Fixpoint readBytes (n : nat) (bits : list bool) : option (list Z * list bool) :=
  match n with
  | O => Some ([], bits)
  | S n' =>
      '(byte, rest) ← readBits 8 bits;
      '(bytes, rest') ← readBytes n' rest;
      Some (byte :: bytes, rest')
  end.

(** Skip to the next byte boundary of a stream that ends on one. *)
Definition alignToByte (bits : list bool) : list bool :=
  drop (length bits mod 8)%nat bits.

Definition inflateStored (bits : list bool) (out : list Z)
    : option (list Z * list bool) :=
  '(len, r1) ← readBits 16 (alignToByte bits);
  '(nlen, r2) ← readBits 16 r1;
  if len + nlen =? 65535 then
    '(bytes, r3) ← readBytes (Z.to_nat len) r2;
    Some (out ++ bytes, r3)
  else None.

(** The blocks of a deflate stream.  A block with dynamic Huffman codes
    is not decoded (the result is [None]). *)
Fixpoint inflateBlocks (fuel : nat) (bits : list bool) (out : list Z)
    : option (list Z * list bool) :=
  match fuel with
  | O => None
  | S fuel' =>
      '(bfinal, r1) ← readBits 1 bits;
      '(btype, r2) ← readBits 2 r1;
      '(out', rest) ←
        (if btype =? 0 then inflateStored r2 out
         else if btype =? 1 then inflateFixed (S (length r2)) r2 out
         else None);
      if bfinal =? 1 then Some (out', rest)
      else inflateBlocks fuel' rest out'
  end.

(** A zlib stream (RFC 1950): header, deflate data, Adler-32. *)
Definition zlibDecompress (bytes : list Z) : option (list Z) :=
  match bytes with
  | cmf :: flg :: rest =>
      if (cmf mod 16 =? 8) && ((cmf * 256 + flg) mod 31 =? 0)
         && negb (Z.testbit flg 5)
      then
        '(out, remaining) ← inflateBlocks (S (length rest)) (bitsOfBytes rest) [];
        '(trailer, _) ← readBytes 4 (alignToByte remaining);
        match trailer with
        | [a1; a2; a3; a4] =>
            if be32 a1 a2 a3 a4 =? adler32 out then Some out else None
        | _ => None
        end
      else None
  | _ => None
  end.

(** ** PNG: chunks, header, scanline filters *)

Record Chunk := { chunkType : list Z; chunkData : list Z }.

Definition pngSignature : list Z := [137; 80; 78; 71; 13; 10; 26; 10].
Definition typeIHDR : list Z := [73; 72; 68; 82].
Definition typeIDAT : list Z := [73; 68; 65; 84].
Definition typeIEND : list Z := [73; 69; 78; 68].

Definition bytesEqb (a b : list Z) : bool := bool_decide (a = b).

Fixpoint parseChunks (fuel : nat) (bytes : list Z) : option (list Chunk) :=
  match fuel with
  | O => None
  | S fuel' =>
      match bytes with
      | [] => Some []
      | l1 :: l2 :: l3 :: l4 :: rest =>
          let len := Z.to_nat (be32 l1 l2 l3 l4) in
          let type := take 4 rest in
          let body := take len (drop 4 rest) in
          match take 4 (drop (4 + len) rest) with
          | [c1; c2; c3; c4] =>
              if (be32 c1 c2 c3 c4 =? crc32 (type ++ body))
                 && (length body =? len)%nat
              then
                chunks ← parseChunks fuel' (drop (8 + len) rest);
                Some ({| chunkType := type; chunkData := body |} :: chunks)
              else None
          | _ => None
          end
      | _ => None
      end
  end.

Definition paeth (a b c : Z) : Z :=
  let p := a + b - c in
  let pa := Z.abs (p - a) in
  let pb := Z.abs (p - b) in
  let pc := Z.abs (p - c) in
  if (pa <=? pb) && (pa <=? pc) then a
  else if pb <=? pc then b else c.

(** Undo the filter of one scanline of 4-byte pixels; [prior] is the
    scanline above, already reconstructed (zeros above the first). *)
Fixpoint unfilterLine (ftype : Z) (filt prior : list Z) (recon : list Z)
    : option (list Z) :=
  match filt with
  | [] => Some recon
  | x :: filt' =>
      let i := length recon in
      let a := if decide (i < 4)%nat then 0 else default 0 (recon !! (i - 4)%nat) in
      let b := default 0 (prior !! i) in
      let c := if decide (i < 4)%nat then 0 else default 0 (prior !! (i - 4)%nat) in
      predictor ←
        (if ftype =? 0 then Some 0
         else if ftype =? 1 then Some a
         else if ftype =? 2 then Some b
         else if ftype =? 3 then Some ((a + b) / 2)
         else if ftype =? 4 then Some (paeth a b c)
         else None);
      unfilterLine ftype filt' prior (recon ++ [(x + predictor) mod 256])
  end.

Fixpoint unfilter (rows : nat) (stride : nat) (bytes prior : list Z)
    : option (list Z) :=
  match rows with
  | O => if bool_decide (bytes = []) then Some [] else None
  | S rows' =>
      match bytes with
      | ftype :: rest =>
          if (length (take stride rest) =? stride)%nat then
            line ← unfilterLine ftype (take stride rest) prior [];
            below ← unfilter rows' stride (drop stride rest) line;
            Some (line ++ below)
          else None
      | [] => None
      end
  end.

(** A PNG with 8-bit RGBA pixels, not interlaced, as the bitmap it
    shows; [None] for anything else. *)
Definition decodePng (bytes : list Z) : option ImageBitmap :=
  if bytesEqb (take 8 bytes) pngSignature then
    chunks ← parseChunks (S (length bytes)) (drop 8 bytes);
    match chunks with
    | {| chunkType := t;
         chunkData := [w1; w2; w3; w4; h1; h2; h3; h4; depth; colour; cm; fm; il] |}
        :: others =>
        if bytesEqb t typeIHDR
           && (depth =? 8) && (colour =? 6) && (cm =? 0) && (fm =? 0) && (il =? 0)
           && bool_decide (chunkType <$> last others = Some typeIEND)
        then
          let w := Z.to_nat (be32 w1 w2 w3 w4) in
          let h := Z.to_nat (be32 h1 h2 h3 h4) in
          let idat :=
            concat (map chunkData
                      (filter (fun ch => bytesEqb (chunkType ch) typeIDAT = true) others)) in
          raw ← zlibDecompress idat;
          pixels ← unfilter h (4 * w) raw (replicate (4 * w) 0);
          Some {| width := w; height := h; data := pixels |}
        else None
    | _ => None
    end
  else None.

Definition decodeDataUrl (url : string) : option ImageBitmap :=
  bytes ← dataUrlBytes url;
  decodePng bytes.

End Png.

(* ================================================================== *)
(** * pixiRenderer.js: [MockupRenderer.generateResults] *)
(* ================================================================== *)

(** A [File] handed to [generateResults]. *)
Module File.
Record t := { name : string; type : string; size : Z; bytes : list Z }.
End File.

Module Renderer.
Import Canvas Async.

(** A named result, [{ name, image }]. *)
Record Result := { name : string; image : string }.

(** What a render draws: whether the sprite carries its filter
    ([baseSprite.filters] is the filter list or [null]) and the design
    texture of the filter ([None] is the default white texture). *)
Record Scene := { sceneFilters : bool; sceneDesign : option ImageBitmap }.

(** The fields of the renderer that [generateResults] reads and writes. *)
Record Renderer := {
  filters : bool;
  design : option ImageBitmap;
  results : list Result
}.

Definition scene (this : Renderer) : Scene :=
  {| sceneFilters := filters this; sceneDesign := design this |}.

(** A method: from the renderer's state to a completion and the state
    it leaves, also when it throws. *)
Definition Action (A : Type) : Type := Renderer -> Completion A * Renderer.

Definition ret {A : Type} (v : A) : Action A := fun this => (Resolved v, this).

Definition bindA {A B : Type} (m : Action A) (k : A -> Action B) : Action B :=
  fun this =>
    match m this with
    | (Resolved v, this') => k v this'
    | (Rejected e, this') => (Rejected e, this')
    end.

Notation "x <~ m ;; k" := (bindA m (fun x => k))
  (at level 100, m at next level, right associativity).
Notation "m ;;; k" := (bindA m (fun _ => k))
  (at level 100, right associativity).

Definition await {A : Type} (c : Completion A) : Action A := fun this => (c, this).

(** [try { body } catch (error) { handler }]: the handler runs in the
    state the body left. *)
Definition tryCatchA {A : Type} (body : Action A) (handler : string -> Action A)
    : Action A :=
  fun this =>
    match body this with
    | (Resolved v, this') => (Resolved v, this')
    | (Rejected e, this') => handler e this'
    end.

Definition getFilters : Action bool := fun this => (Resolved (filters this), this).

Definition setFilters (f : bool) : Action unit :=
  fun this => (Resolved tt, {| filters := f; design := design this; results := results this |}).

Definition setDesign (texture : ImageBitmap) : Action unit :=
  fun this => (Resolved tt, {| filters := filters this; design := Some texture;
                               results := results this |}).

Definition setResults (rs : list Result) : Action unit :=
  fun this => (Resolved tt, {| filters := filters this; design := design this; results := rs |}).

(** [this.results.push(result)]. *)
Definition push (result : Result) : Action unit :=
  fun this => (Resolved tt, {| filters := filters this; design := design this;
                               results := results this ++ [result] |}).

Definition getResults : Action (list Result) := fun this => (Resolved (results this), this).

(** The image of the failed-design entry (in the source: "1x1
    transparent PNG"). *)
Definition placeholderImage : string :=
  "data:image/png;base64,iVBORw0KGgoAAAANSUhEUgAAAAEAAAABCAYAAAAfFcSJAAAADUlEQVR42mNkYPhfDwAChwGA60e6kgAAAABJRU5ErkJggg==".

(** [`${i + 1}`]. *)
Definition showNat (n : nat) : string := NilEmpty.string_of_uint (Nat.to_uint n).

Section Gpu.

(** The browser and the GPU: decoding a file, rasterising an SVG file
    ([convertSvgToBitmap], which rejects when the file cannot be read or
    loaded), [this.app.render()] and
    [this.app.renderer.extract.base64(this.app.stage)]. *)
Variable createImageBitmap : File.t -> Completion ImageBitmap.
Variable convertSvgToBitmap : File.t -> Completion ImageBitmap.
Variable render : Scene -> Completion unit.
Variable extractBase64 : Scene -> Completion string.

Definition appRender : Action unit := fun this => (render (scene this), this).

(** [captureFrame]: a forced render, then the extraction; an error is
    logged and thrown again. *)
Definition captureFrame : Action string :=
  tryCatchA (appRender ;;; fun this => (extractBase64 (scene this), this))
            (fun error => await (Rejected error)).

(** The body of the [try] for one design file.  The wait for the
    texture to become valid and the 50 ms pause before the capture do
    not change the state and are left out. *)
Definition processDesign (i : nat) (designFile : File.t) : Action unit :=
  designBitmap <~ await (if String.prefix "image/svg" (File.type designFile)
                         then convertSvgToBitmap designFile
                         else createImageBitmap designFile) ;;
  setDesign designBitmap ;;;
  appRender ;;;
  resultImage <~ captureFrame ;;
  push {| name := "Design " +:+ showNat (i + 1) +:+ ": " +:+ File.name designFile;
          image := resultImage |}.

(** The [catch] for one design file. *)
Definition designFailed (i : nat) (designFile : File.t) (designError : string)
    : Action unit :=
  push {| name := "Design " +:+ showNat (i + 1) +:+ ": " +:+ File.name designFile
                  +:+ " (Failed)";
          image := placeholderImage |}.

(** [for (let i = ...; i < designFiles.length; i++)], on the files from
    index [i] on. *)
Fixpoint processDesigns (i : nat) (designFiles : list File.t) : Action unit :=
  match designFiles with
  | [] => ret tt
  | designFile :: rest =>
      tryCatchA (processDesign i designFile) (designFailed i designFile) ;;;
      processDesigns (S i) rest
  end.

Definition generateResults (designFiles : list File.t) : Action (list Result) :=
  setResults [] ;;;
  tryCatchA
    (originalFilters <~ getFilters ;;
     setFilters false ;;;
     appRender ;;;
     originalImage <~ captureFrame ;;
     push {| name := "Original Mockup"; image := originalImage |} ;;;
     setFilters originalFilters ;;;
     processDesigns 0 designFiles ;;;
     getResults)
    (fun error => await (Rejected error)).

(** *** What a batch is expected to hold *)

(** Decoding a design file, as the loop does it. *)
Definition decodeDesign (designFile : File.t) : Completion ImageBitmap :=
  if String.prefix "image/svg" (File.type designFile)
  then convertSvgToBitmap designFile
  else createImageBitmap designFile.

(** Rendering a scene and capturing it: the forced render, then
    [captureFrame]'s own render and extraction. *)
Definition renderAndCapture (sc : Scene) : Completion string :=
  _ <- render sc ;; _ <- render sc ;; extractBase64 sc.

(** What processing one design yields, with the filter on or off as the
    renderer had it: the captured image, or the error of the first step
    that failed. *)
Definition designOutcome (filtersOn : bool) (designFile : File.t) : Completion string :=
  designBitmap <- decodeDesign designFile ;;
  renderAndCapture {| sceneFilters := filtersOn; sceneDesign := Some designBitmap |}.

Definition designName (i : nat) (designFile : File.t) : string :=
  "Design " +:+ showNat (i + 1) +:+ ": " +:+ File.name designFile.

Definition failedName (i : nat) (designFile : File.t) : string :=
  "Design " +:+ showNat (i + 1) +:+ ": " +:+ File.name designFile +:+ " (Failed)".

(** The entry for the design at index [i]. *)
Definition designResult (filtersOn : bool) (i : nat) (designFile : File.t) : Result :=
  match designOutcome filtersOn designFile with
  | Resolved resultImage => {| name := designName i designFile; image := resultImage |}
  | Rejected _ => {| name := failedName i designFile; image := placeholderImage |}
  end.

(** The entries for the designs from index [i] on, in input order. *)
Fixpoint designResults (filtersOn : bool) (i : nat) (designFiles : list File.t)
    : list Result :=
  match designFiles with
  | [] => []
  | designFile :: rest =>
      designResult filtersOn i designFile :: designResults filtersOn (S i) rest
  end.

(** The scene of the first capture: the filter removed, the design
    texture as it was. *)
Definition baseScene (this : Renderer) : Scene :=
  {| sceneFilters := false; sceneDesign := design this |}.

End Gpu.

End Renderer.

(* ================================================================== *)
(** * App.jsx: pointer events on the design container *)
(* ================================================================== *)

Module Pointer.
Import Js Interaction.

(** The handlers as the JSX binds them: [onMouseDown] of the design
    indicator is [handleMouseDown]; [onMouseDown] of the resize handle
    stops the propagation and only sets [isResizing]; [onMouseMove] of
    the container is [handleMouseMove]; its [onMouseUp] and
    [onMouseLeave] are both [handleMouseUp].  [DesignLoaded] is the
    [onload] of [handleDesignChange], which resets the placement. *)
Inductive PointerEvent :=
| MouseDown (event : MouseEvent)
| HandleMouseDown
| MouseMove (event : MouseEvent)
| MouseUp
| MouseLeave
| DesignLoaded.

(** [(e) => { e.stopPropagation(); setIsResizing(true); }]. *)
Definition handleResizeHandleMouseDown (st : State) : State :=
  {| designPosition := designPosition st; designSize := designSize st;
     isDragging := isDragging st; isResizing := true;
     dragOffset := dragOffset st |}.

(** [setDesignPosition({ x: 50, y: 50 })] and
    [setDesignSize({ width: 200, height: 200 })] in [handleDesignChange]. *)
Definition handleDesignChange (st : State) : State :=
  {| designPosition := {| x := 50; y := 50 |};
     designSize := {| width := 200; height := 200 |};
     isDragging := isDragging st; isResizing := isResizing st;
     dragOffset := dragOffset st |}.

Definition dispatch (container : Container) (st : State) (e : PointerEvent)
    : State :=
  match e with
  | MouseDown event => handleMouseDown st container event
  | HandleMouseDown => handleResizeHandleMouseDown st
  | MouseMove event => handleMouseMove st container event
  | MouseUp | MouseLeave => handleMouseUp st
  | DesignLoaded => handleDesignChange st
  end.

(** The state after a sequence of events, the container staying as it
    is. *)
Definition run (container : Container) (st : State) (events : list PointerEvent)
    : State :=
  fold_left (dispatch container) events st.

(** The placement lies inside the container and no side is below 50. *)
Definition inside (container : Container) (st : State) : Prop :=
  0 <= x (designPosition st) /\ 0 <= y (designPosition st)
  /\ 50 <= width (designSize st) /\ 50 <= height (designSize st)
  /\ x (designPosition st) + width (designSize st) <= offsetWidth container
  /\ y (designPosition st) + height (designSize st) <= offsetHeight container.

End Pointer.

(* ================================================================== *)
(** * App.jsx and pixiRenderer.js: sizes and rectangles *)
(* ================================================================== *)

Module Layout.
Import Js.

(** [Math.round]: the nearest integer, a half going up. *)
Definition Math_round (v : Q) : Z := Qfloor (v + 0.5).

(** [{ width, height }] in whole pixels: the size of a loaded image
    ([mockupImage]) and the container's size. *)
Record Dimensions := { width : Z; height : Z }.

(** The [useMemo] of [containerDimensions]: the mock-up's size scaled
    down to fit 800 x 600, rounded; 800 x 600 while no mock-up is
    loaded. *)
Definition containerDimensions (mockupImage : option Dimensions) : Dimensions :=
  match mockupImage with
  | None => {| width := 800; height := 600 |}
  | Some mockupImage =>
      let maxWidth := 800 in
      let maxHeight := 600 in
      let aspectRatio := inject_Z (width mockupImage) / inject_Z (height mockupImage) in
      let containerWidth := Math_min maxWidth (inject_Z (width mockupImage)) in
      let containerHeight := containerWidth / aspectRatio in
      if Qlt_le_dec maxHeight containerHeight then
        let containerHeight := maxHeight in
        let containerWidth := containerHeight * aspectRatio in
        {| width := Math_round containerWidth; height := Math_round containerHeight |}
      else
        {| width := Math_round containerWidth; height := Math_round containerHeight |}
  end.

(** The rectangle of a [ctx.drawImage(image, drawX, drawY, drawWidth,
    drawHeight)]. *)
Record DrawRect := { drawX : Q; drawY : Q; drawWidth : Q; drawHeight : Q }.

(** The rectangle [updateOverlayCanvas] computes for the WebGL canvas
    and [renderFallbackCanvas] (in the same words) for the mock-up
    image: the image fitted into the canvas, centred on the other
    axis. *)
Definition fitRect (canvasWidth canvasHeight imageWidth imageHeight : Q) : DrawRect :=
  let canvasAspect := canvasWidth / canvasHeight in
  let imageAspect := imageWidth / imageHeight in
  if Qlt_le_dec canvasAspect imageAspect then
    let drawWidth := canvasWidth in
    let drawHeight := canvasWidth / imageAspect in
    {| drawX := 0; drawY := (canvasHeight - drawHeight) / 2;
       drawWidth := drawWidth; drawHeight := drawHeight |}
  else
    let drawHeight := canvasHeight in
    let drawWidth := canvasHeight * imageAspect in
    {| drawX := (canvasWidth - drawWidth) / 2; drawY := 0;
       drawWidth := drawWidth; drawHeight := drawHeight |}.




(** [baseSprite.scale], [.anchor] and [.position] as [initialize] sets
    them. *)
Record Sprite := { scale : Q; anchor : Q; positionX : Q; positionY : Q }.

Definition placeSprite (canvasWidth canvasHeight spriteWidth spriteHeight : Q)
    : Sprite :=
  if Qeq_bool canvasWidth spriteWidth && Qeq_bool canvasHeight spriteHeight then
    {| scale := 1; anchor := 0; positionX := 0; positionY := 0 |}
  else
    let scaleX := canvasWidth / spriteWidth in
    let scaleY := canvasHeight / spriteHeight in
    let scale := Math_min scaleX scaleY in
    {| scale := scale; anchor := 0.5;
       positionX := canvasWidth / 2; positionY := canvasHeight / 2 |}.

(** The rectangle a sprite of texture size [spriteWidth] x
    [spriteHeight] covers: its anchor point (a fraction of its size) is
    at its position. *)
Definition spriteBounds (s : Sprite) (spriteWidth spriteHeight : Q) : DrawRect :=
  {| drawX := positionX s - anchor s * (spriteWidth * scale s);
     drawY := positionY s - anchor s * (spriteHeight * scale s);
     drawWidth := spriteWidth * scale s;
     drawHeight := spriteHeight * scale s |}.


(** Two rectangles with equal numbers. *)
Definition sameRect (r s : DrawRect) : Prop :=
  drawX r == drawX s /\ drawY r == drawY s
  /\ drawWidth r == drawWidth s /\ drawHeight r == drawHeight s.

End Layout.

(* ================================================================== *)
(** * lightingMasks: [buildLightingMasks] and [rgbToLab] *)
(* ================================================================== *)

Module LabMasks.
Import Js Canvas LightingMasks.

Record Lab := { L : Q; A : Q; B : Q }.

Section Pow.

(** [Math.pow], whose values on these arguments are not rational, is a
    parameter. *)
Variable Math_pow : Q -> Q -> Q.

(** [rgbToLab(r, g, b)]. *)
Definition rgbToLab (r g b : Z) : Lab :=
  let r := inject_Z r / 255 in
  let g := inject_Z g / 255 in
  let b := inject_Z b / 255 in
  let r := if Qlt_le_dec 0.04045 r then Math_pow ((r + 0.055) / 1.055) 2.4 else r / 12.92 in
  let g := if Qlt_le_dec 0.04045 g then Math_pow ((g + 0.055) / 1.055) 2.4 else g / 12.92 in
  let b := if Qlt_le_dec 0.04045 b then Math_pow ((b + 0.055) / 1.055) 2.4 else b / 12.92 in
  let x := (r * 0.4124 + g * 0.3576 + b * 0.1805) / 0.95047 in
  let y := (r * 0.2126 + g * 0.7152 + b * 0.0722) / 1.00000 in
  let z := (r * 0.0193 + g * 0.1192 + b * 0.9505) / 1.08883 in
  let x := if Qlt_le_dec 0.008856 x then Math_pow x (1 / 3) else 7.787 * x + 16 / 116 in
  let y := if Qlt_le_dec 0.008856 y then Math_pow y (1 / 3) else 7.787 * y + 16 / 116 in
  let z := if Qlt_le_dec 0.008856 z then Math_pow z (1 / 3) else 7.787 * z + 16 / 116 in
  {| L := 116 * y - 16; A := 500 * (x - y); B := 200 * (y - z) |}.

(** [lab.L / 100]. *)
Definition lightness (r g b : Z) : Q := L (rgbToLab r g b) / 100.

(** The body of the pixel loop of [buildLightingMasks], on
    [(shadowData, highlightData)]; a read past the end of [data] leaves
    both arrays as they are, as in [maskBody]. *)
Definition labMaskBody (data : list Z) (i : nat) (masks : list Z * list Z)
    : list Z * list Z :=
  match data !! i, data !! (i + 1)%nat, data !! (i + 2)%nat, data !! (i + 3)%nat with
  | Some r, Some g, Some b, Some a =>
      let lab := rgbToLab r g b in
      let L := L lab / 100 in
      (storePixel i (shadowValue L) a (fst masks),
       storePixel i (highlightValue L) a (snd masks))
  | _, _, _, _ => masks
  end.

Definition buildLightingMasks (mockupBitmap : ImageBitmap) : Masks :=
  let data := data mockupBitmap in
  let shadowData := newUint8ClampedArray (length data) in
  let highlightData := newUint8ClampedArray (length data) in
  let masks :=
    forStep4 (length data) 0 (length data) (labMaskBody data)
             (shadowData, highlightData) in
  {| shadowMask := {| width := width mockupBitmap;
                      height := height mockupBitmap;
                      data := fst masks |};
     highlightMask := {| width := width mockupBitmap;
                         height := height mockupBitmap;
                         data := snd masks |} |}.

End Pow.

End LabMasks.

(* ================================================================== *)
(** * pixiRenderer.js: [destroy], [renderDesignAtPosition], [captureFrame] *)
(* ================================================================== *)

Module Lifecycle.
Import Canvas Async.

(** The calls into PIXI that [renderDesignAtPosition], [captureFrame]
    and [destroy] make. *)
Inductive PixiCall :=
| TextureFrom (bitmap : ImageBitmap)
| TextureDestroy (texture : ImageBitmap)
| RemoveChild
| SpriteDestroy
| StageRemoveChildren
| AppDestroy
| AppRender
| ExtractBase64.

(** [this.fabricFilter]: the uniforms the methods set. *)
Record Filter := { design : option ImageBitmap; strength : Q }.

(** [this.baseSprite]: whether it has a [parent] (it is on the stage). *)
Record Sprite := { parent : bool }.

(** The fields of the renderer these methods read and write ([app] is
    [false] for [null]), and the PIXI calls made so far. *)
Record Instance := {
  app : bool;
  baseSprite : option Sprite;
  fabricFilter : option Filter;
  designTextures : list ImageBitmap;
  calls : list PixiCall
}.

Definition Method (A : Type) : Type := Instance -> Completion A * Instance.

Definition retM {A : Type} (v : A) : Method A := fun this => (Resolved v, this).

Definition throwM {A : Type} (error : string) : Method A :=
  fun this => (Rejected error, this).

Definition bindM {A B : Type} (m : Method A) (k : A -> Method B) : Method B :=
  fun this =>
    match m this with
    | (Resolved v, this') => k v this'
    | (Rejected e, this') => (Rejected e, this')
    end.

Notation "x <~~ m ;; k" := (bindM m (fun x => k))
  (at level 100, m at next level, right associativity).
Notation "m ;;;; k" := (bindM m (fun _ => k))
  (at level 100, right associativity).

Definition tryCatchM {A : Type} (body : Method A) (handler : string -> Method A)
    : Method A :=
  fun this =>
    match body this with
    | (Resolved v, this') => (Resolved v, this')
    | (Rejected e, this') => handler e this'
    end.

Definition getThis : Method Instance := fun this => (Resolved this, this).

Definition setApp (a : bool) : Method unit :=
  fun this => (Resolved tt,
               {| app := a; baseSprite := baseSprite this;
                  fabricFilter := fabricFilter this;
                  designTextures := designTextures this; calls := calls this |}).

Definition setBaseSprite (s : option Sprite) : Method unit :=
  fun this => (Resolved tt,
               {| app := app this; baseSprite := s;
                  fabricFilter := fabricFilter this;
                  designTextures := designTextures this; calls := calls this |}).

Definition setFabricFilter (f : option Filter) : Method unit :=
  fun this => (Resolved tt,
               {| app := app this; baseSprite := baseSprite this;
                  fabricFilter := f;
                  designTextures := designTextures this; calls := calls this |}).

Definition setDesignTextures (ts : list ImageBitmap) : Method unit :=
  fun this => (Resolved tt,
               {| app := app this; baseSprite := baseSprite this;
                  fabricFilter := fabricFilter this;
                  designTextures := ts; calls := calls this |}).

Section Pixi.

(** What a PIXI call answers after the calls made before it: it returns
    or throws; and the data URL an extraction returns. *)
Variable pixi : list PixiCall -> PixiCall -> Completion unit.
Variable extracted : list PixiCall -> string.

Definition call (c : PixiCall) : Method unit :=
  fun this => (pixi (calls this) c,
               {| app := app this; baseSprite := baseSprite this;
                  fabricFilter := fabricFilter this;
                  designTextures := designTextures this;
                  calls := calls this ++ [c] |}).

(** A call on [this.app], which may be [null]. *)
Definition appCall (c : PixiCall) : Method unit :=
  this <~~ getThis ;;
  if app this then call c
  else throwM "TypeError: Cannot read properties of null".

(** [array.forEach(f)]. *)
Fixpoint forEach {A : Type} (l : list A) (f : A -> Method unit) : Method unit :=
  match l with
  | [] => retM tt
  | v :: rest => f v ;;;; forEach rest f
  end.

(** [setDisplacementStrength(strength)]. *)
Definition setDisplacementStrength (s : Q) : Method unit :=
  this <~~ getThis ;;
  match fabricFilter this with
  | Some f => setFabricFilter (Some {| design := design f; strength := s |})
  | None => retM tt
  end.

(** [renderDesignAtPosition(designBitmap)]; [None] is a missing
    bitmap.  The wait for the texture to become valid is left out. *)
Definition renderDesignAtPosition (designBitmap : option ImageBitmap) : Method unit :=
  tryCatchM
    (this <~~ getThis ;;
     match fabricFilter this, designBitmap with
     | Some _, Some bitmap =>
         call (TextureFrom bitmap) ;;;;
         this <~~ getThis ;;
         match fabricFilter this with
         | Some f =>
             setFabricFilter (Some {| design := Some bitmap; strength := strength f |}) ;;;;
             appCall AppRender
         | None => throwM "TypeError: Cannot set properties of null"
         end
     | _, _ => retM tt
     end)
    (fun error => retM tt).

(** [captureFrame()]: the error is logged and thrown again. *)
Definition captureFrame : Method string :=
  tryCatchM (appCall AppRender ;;;;
             this <~~ getThis ;;
             appCall ExtractBase64 ;;;;
             retM (extracted (calls this)))
            (fun error => throwM error).

(** [destroy()].  [this.designTextures] is an array, which is truthy
    also when empty, of textures, which have a [destroy] method. *)
Definition destroy : Method unit :=
  tryCatchM
    (this <~~ getThis ;;
     forEach (designTextures this) (fun texture => call (TextureDestroy texture)) ;;;;
     setDesignTextures [] ;;;;
     this <~~ getThis ;;
     match fabricFilter this with
     | Some _ => setFabricFilter None
     | None => retM tt
     end ;;;;
     this <~~ getThis ;;
     match baseSprite this with
     | Some sprite =>
         (if parent sprite then call RemoveChild else retM tt) ;;;;
         call SpriteDestroy ;;;;
         setBaseSprite None
     | None => retM tt
     end ;;;;
     this <~~ getThis ;;
     (if app this
      then call StageRemoveChildren ;;;; call AppDestroy ;;;; setApp false
      else retM tt))
    (fun error => retM tt).

End Pixi.

(** Nothing is left to release. *)
Definition released (this : Instance) : Prop :=
  app this = false /\ baseSprite this = None /\ fabricFilter this = None
  /\ designTextures this = [].

End Lifecycle.

(* ================================================================== *)
(** * pixiRenderer.js: [convertSvgToBitmap] *)
(* ================================================================== *)

Module Svg.
Import Canvas Async.

(** A promise made with [new Promise((resolve, reject) => ...)]: it is
    settled by a call of [resolve] or [reject], or stays pending when
    neither is ever called. *)
Inductive Settlement (A : Type) : Type :=
| Settled (completion : Completion A)
| Pending.

Arguments Settled {A} completion.
Arguments Pending {A}.

Section Browser.

(** The browser: [FileReader.readAsText] ([onload] with the text, a
    JavaScript string given by its UTF-16 code units, or [onerror]);
    the base64 text of a string of code units below 256; loading an
    image from a URL ([onload] with its [width] and [height], or
    [onerror]); and drawing the loaded image on a canvas of a given size
    followed by [createImageBitmap(canvas)]. *)
Variable readAsText : File.t -> Completion (list Z).
Variable base64 : list Z -> string.
Variable loadImage : string -> Completion (nat * nat).
Variable canvasBitmap : string -> nat -> nat -> Completion ImageBitmap.

(** [btoa(text)] throws on a code unit above 255. *)
Definition btoa (text : list Z) : Completion string :=
  if forallb (fun unit => (unit <=? 255)%Z) text
  then Resolved (base64 text)
  else Rejected "InvalidCharacterError".

(** [n || d] on numbers that are not [NaN]. *)
Definition orDefault (n d : nat) : nat := if (n =? 0)%nat then d else n.

(** [convertSvgToBitmap(svgFile)].  An exception thrown inside the
    [reader.onload] callback is outside the [try] and calls neither
    [resolve] nor [reject]. *)
Definition convertSvgToBitmap (svgFile : File.t) : Settlement ImageBitmap :=
  match readAsText svgFile with
  | Rejected e => Settled (Rejected e)
  | Resolved svgText =>
      match btoa svgText with
      | Rejected _ => Pending
      | Resolved encoded =>
          let src := "data:image/svg+xml;base64," +:+ encoded in
          match loadImage src with
          | Rejected e => Settled (Rejected e)
          | Resolved (width, height) =>
              Settled (tryCatch (canvasBitmap src (orDefault width 200)
                                              (orDefault height 200))
                                (fun error => Rejected error))
          end
      end
  end.

End Browser.

End Svg.

(* ================================================================== *)
(** * pixiRenderer.js: [renderWithCanvas2D] *)
(* ================================================================== *)

Module Canvas2DFallback.
Import Canvas Async.

(** A canvas with its 2D context: the pixels and the two settings
    [renderWithCanvas2D] changes. *)
Record Context := {
  canvasWidth : nat;
  canvasHeight : nat;
  globalCompositeOperation : string;
  globalAlpha : Q;
  pixels : list Z
}.

Section Browser.

(** The browser: what [drawImage(image, 0, 0)] (no size) or
    [drawImage(image, 0, 0, w, h)] leaves on pixels under a composite
    operation and an alpha, and [canvas.toDataURL()]. *)
Variable paint : string -> Q -> ImageBitmap -> option (nat * nat) -> list Z -> list Z.
Variable toDataURL : nat -> nat -> list Z -> string.

(** A new canvas of the given size: transparent, [source-over], alpha 1. *)
Definition createCanvas (w h : nat) : Context :=
  {| canvasWidth := w; canvasHeight := h;
     globalCompositeOperation := "source-over"; globalAlpha := 1;
     pixels := replicate (4 * (w * h)) 0%Z |}.

Definition drawImage (image : ImageBitmap) (size : option (nat * nat)) (ctx : Context)
    : Context :=
  {| canvasWidth := canvasWidth ctx; canvasHeight := canvasHeight ctx;
     globalCompositeOperation := globalCompositeOperation ctx;
     globalAlpha := globalAlpha ctx;
     pixels := paint (globalCompositeOperation ctx) (globalAlpha ctx) image size
                     (pixels ctx) |}.

(** [ctx.clearRect(0, 0, canvas.width, canvas.height)]. *)
Definition clearRect (ctx : Context) : Context :=
  {| canvasWidth := canvasWidth ctx; canvasHeight := canvasHeight ctx;
     globalCompositeOperation := globalCompositeOperation ctx;
     globalAlpha := globalAlpha ctx;
     pixels := replicate (4 * (canvasWidth ctx * canvasHeight ctx)) 0%Z |}.

Definition setGlobalCompositeOperation (op : string) (ctx : Context) : Context :=
  {| canvasWidth := canvasWidth ctx; canvasHeight := canvasHeight ctx;
     globalCompositeOperation := op; globalAlpha := globalAlpha ctx;
     pixels := pixels ctx |}.

Definition setGlobalAlpha (alpha : Q) (ctx : Context) : Context :=
  {| canvasWidth := canvasWidth ctx; canvasHeight := canvasHeight ctx;
     globalCompositeOperation := globalCompositeOperation ctx; globalAlpha := alpha;
     pixels := pixels ctx |}.

Definition canvasToDataURL (ctx : Context) : string :=
  toDataURL (canvasWidth ctx) (canvasHeight ctx) (pixels ctx).

(** The loop over [designBitmaps], from index [i] on. *)
Fixpoint processDesignBitmaps (mockupBitmap : ImageBitmap) (i : nat)
    (designBitmaps : list ImageBitmap) (ctx : Context)
    (results : list Renderer.Result) : list Renderer.Result :=
  match designBitmaps with
  | [] => results
  | designBitmap :: rest =>
      let ctx := clearRect ctx in
      let ctx := drawImage mockupBitmap None ctx in
      let ctx := setGlobalCompositeOperation "multiply" ctx in
      let ctx := setGlobalAlpha 0.7 ctx in
      let ctx := drawImage designBitmap
                   (Some (canvasWidth ctx, canvasHeight ctx)) ctx in
      let ctx := setGlobalCompositeOperation "source-over" ctx in
      let ctx := setGlobalAlpha 1 ctx in
      let resultDataUrl := canvasToDataURL ctx in
      processDesignBitmaps mockupBitmap (S i) rest ctx
        (results ++ [{| Renderer.name := "Design " +:+ Renderer.showNat (i + 1);
                        Renderer.image := resultDataUrl |}])
  end.

(** [MockupRenderer.renderWithCanvas2D(mockupBitmap, designBitmaps,
    strength)]. *)
Definition renderWithCanvas2D (mockupBitmap : ImageBitmap)
    (designBitmaps : list ImageBitmap) (strength : Q) : list Renderer.Result :=
  let ctx := createCanvas (width mockupBitmap) (height mockupBitmap) in
  let ctx := drawImage mockupBitmap None ctx in
  let originalDataUrl := canvasToDataURL ctx in
  processDesignBitmaps mockupBitmap 0 designBitmaps ctx
    [{| Renderer.name := "Original Mockup"; Renderer.image := originalDataUrl |}].

(** The mock-up drawn alone on a transparent canvas of its size. *)
Definition mockupAlone (mockupBitmap : ImageBitmap) : list Z :=
  paint "source-over" 1 mockupBitmap None
        (replicate (4 * (width mockupBitmap * height mockupBitmap)) 0%Z).

(** The entry of the design at index [i]: the design multiplied at alpha
    0.7, stretched over the whole canvas, onto the mock-up alone. *)
Definition fallbackResult (mockupBitmap : ImageBitmap) (i : nat)
    (designBitmap : ImageBitmap) : Renderer.Result :=
  {| Renderer.name := "Design " +:+ Renderer.showNat (i + 1);
     Renderer.image :=
       toDataURL (width mockupBitmap) (height mockupBitmap)
         (paint "multiply" 0.7 designBitmap
                (Some (width mockupBitmap, height mockupBitmap))
                (mockupAlone mockupBitmap)) |}.

Fixpoint fallbackResults (mockupBitmap : ImageBitmap) (i : nat)
    (designBitmaps : list ImageBitmap) : list Renderer.Result :=
  match designBitmaps with
  | [] => []
  | designBitmap :: rest =>
      fallbackResult mockupBitmap i designBitmap
      :: fallbackResults mockupBitmap (S i) rest
  end.

End Browser.

End Canvas2DFallback.

(* ================================================================== *)
(** * Invariants of the loops and concrete inputs *)
(* ================================================================== *)

(** ** Placements and pointer events *)

Section InteractionScenarios.
Import Js Interaction.

(** A container of 100 x 100 (a 100 x 100 mock-up) holding the default
    200 x 200 placement: a press inside the placement starts a drag. *)
Definition smallContainer : Container :=
  {| left := 0; top := 0; offsetWidth := 100; offsetHeight := 100 |}.

Definition pressInside : MouseEvent := {| clientX := 60; clientY := 60 |}.

Definition draggingInSmall : State :=
  handleMouseDown initialState smallContainer pressInside.

(** An 800 x 600 container, the default placement, a press inside it and
    a move far outside the container. *)
Definition largeContainer : Container :=
  {| left := 10; top := 20; offsetWidth := 800; offsetHeight := 600 |}.

Definition draggingInLarge : State :=
  handleMouseDown initialState largeContainer {| clientX := 100; clientY := 100 |}.

Definition farAway : MouseEvent := {| clientX := 100000; clientY := -5000 |}.

(** A 50 x 50 placement at (700, 0), as left by a resize to the minimum
    and a drag to the right edge of an 800-wide container, once the
    container is 740 wide (a narrower mock-up was loaded): the resize
    handle region [[730, 750]] still meets the container. *)
Definition narrowContainer : Container :=
  {| left := 0; top := 0; offsetWidth := 740; offsetHeight := 555 |}.

Definition nearRightEdge : State :=
  {| designPosition := {| x := 700; y := 0 |};
     designSize := {| width := 50; height := 50 |};
     isDragging := false; isResizing := false;
     dragOffset := {| x := 0; y := 0 |} |}.

Definition resizingNearEdge : State :=
  handleMouseDown nearRightEdge narrowContainer {| clientX := 735; clientY := 40 |}.

Definition resizingInLarge : State :=
  handleMouseDown initialState largeContainer {| clientX := 250; clientY := 260 |}.

End InteractionScenarios.

(** ** What the pixel loops have done after [i / 4] pixels *)

Section PixelLoopInvariants.
Import Js Canvas LightingMasks DepthMap.



Definition minMaxInvariant (data : list Z) (i : nat) (mm : Z * Z) : Prop :=
  exists k, i = (4 * k)%nat
    /\ (forall p d, (p < k)%nat -> data !! (4 * p)%nat = Some d ->
          (fst mm <= d <= snd mm)%Z)
    /\ (fst mm = 255%Z \/ exists p, (p < k)%nat /\ data !! (4 * p)%nat = Some (fst mm))
    /\ (snd mm = 0%Z \/ exists p, (p < k)%nat /\ data !! (4 * p)%nat = Some (snd mm)).

Definition normalizeInvariant (raw : list Z) (min range : Z) (i : nat)
    (data : list Z) : Prop :=
  exists k, i = (4 * k)%nat
    /\ length data = length raw
    /\ (forall p d c, (p < k)%nat -> raw !! (4 * p)%nat = Some d ->
          (c < 3)%nat -> (4 * p + c < length raw)%nat ->
          data !! (4 * p + c)%nat = Some (toUint8Clamped (normalized d min range)))
    /\ (forall j, (4 * k <= j)%nat -> data !! j = raw !! j)
    /\ (forall q, data !! (4 * q + 3)%nat = raw !! (4 * q + 3)%nat).

End PixelLoopInvariants.

(** ** Small images and a uniform canvas *)

Section SampleImages.
Import Canvas.

(** A 2 x 1 photo: a dark opaque pixel and a bright half-transparent one. *)
Definition twoPixels : ImageBitmap :=
  {| width := 2; height := 1;
     data := [10; 20; 30; 255;  250; 240; 200; 128]%Z |}.

(** A black and a white opaque pixel: the extreme brightnesses 0 and 1. *)
Definition blackAndWhite : ImageBitmap :=
  {| width := 2; height := 1;
     data := [0; 0; 0; 255;  255; 255; 255; 77]%Z |}.


Definition grayBitmap : ImageBitmap :=
  {| width := 1; height := 1; data := [128; 128; 128; 128]%Z |}.

End SampleImages.

(** ** Browsers and networks for the depth provider *)

Section SampleBrowsers.
Import Canvas Async DepthProvider.

(** A browser for the examples: blobs are byte counts, every file is a
    2 x 3 image, and the fallback canvas is filled with opaque gray. *)
Definition decodeAny (blob : nat) : Completion ImageBitmap :=
  Resolved {| width := 2; height := 3; data := replicate (4 * 6) 200%Z |}.

Definition grayGradients (w h : nat) : ImageBitmap :=
  {| width := w; height := h; data := replicate (4 * (w * h)) 136%Z |}.

Definition readFile (blob : nat) : Completion string :=
  Resolved "data:image/png;base64,AAAA".

(** The network is down. *)
Definition offline (resource : Value) (body : option Value)
    : Completion (Response nat) :=
  Rejected "TypeError: Failed to fetch".

(** The provider answers with [{ image: { url } }] and serves the depth
    image. *)
Definition online (resource : Value) (body : option Value)
    : Completion (Response nat) :=
  match body with
  | Some _ =>
      Resolved {| ok := true; status := 200; text := Resolved ""%string;
                  json := Resolved
                    (VObject [("image"%string,
                               VObject [("url"%string, VString "https://fal.media/d.png")])]);
                  blob := Rejected "not a blob" |}
  | None =>
      Resolved {| ok := true; status := 200; text := Resolved ""%string;
                  json := Rejected "SyntaxError"; blob := Resolved 7%nat |}
  end.

(** The provider answers 503. *)
Definition unavailable (resource : Value) (body : option Value)
    : Completion (Response nat) :=
  Resolved {| ok := false; status := 503; text := Resolved "busy"%string;
              json := Rejected "SyntaxError"; blob := Rejected "no body" |}.

End SampleBrowsers.

(** ** A browser, a GPU and design files for a batch *)

Section SampleBatch.
Import Canvas Async Renderer.

(** A browser and a GPU for the examples: a file decodes to a 1 x 1
    bitmap of its first four bytes unless it is empty; SVG files
    rasterise to a 200 x 200 canvas; every render succeeds; the captured
    frame names the filter switch and the red byte of the design. *)
Definition decodeBytes (file : File.t) : Completion ImageBitmap :=
  if (File.size file =? 0)%Z
  then Rejected "InvalidStateError: The source image could not be decoded."
  else Resolved {| width := 1; height := 1; data := take 4 (File.bytes file) |}.

Definition rasterise (file : File.t) : Completion ImageBitmap :=
  if (File.size file =? 0)%Z then Rejected "error"
  else Resolved {| width := 200; height := 200; data := take 4 (File.bytes file) |}.

Definition renderOk (sc : Scene) : Completion unit := Resolved tt.

Definition frame (sc : Scene) : Completion string :=
  Resolved ((if sceneFilters sc then "filtered:" else "plain:")
            +:+ match sceneDesign sc with
                | Some bitmap => showZ (default 0%Z (data bitmap !! 0%nat))
                | None => "white"
                end).

(** The renderer after [initialize]: filter attached, default design. *)
Definition initialized : Renderer :=
  {| filters := true; design := None; results := [] |}.

Definition logoPng : File.t :=
  {| File.name := "logo.png"; File.type := "image/png"; File.size := 4;
     File.bytes := [17; 34; 51; 255]%Z |}.

Definition corruptPng : File.t :=
  {| File.name := "broken.png"; File.type := "image/png"; File.size := 0;
     File.bytes := [] |}.

Definition badgeSvg : File.t :=
  {| File.name := "badge.svg"; File.type := "image/svg+xml"; File.size := 4;
     File.bytes := [60; 115; 118; 103]%Z |}.

End SampleBatch.

(** ** A pointer session *)

Section PointerScenarios.
Import Js Interaction Pointer.

(** A session in the 800 x 600 container: drag far to the bottom right,
    release, grab the resize handle, pull it far to the top left, leave
    the container. *)
Definition session : list PointerEvent :=
  [ DesignLoaded;
    MouseDown {| clientX := 100; clientY := 100 |};
    MouseMove {| clientX := 5000; clientY := 7000 |};
    MouseUp;
    HandleMouseDown;
    MouseMove {| clientX := -300; clientY := -300 |};
    MouseLeave ].

End PointerScenarios.

(** ** Mock-ups of several sizes *)

Section LayoutScenarios.
Import Js Layout.

Definition tallMockup : Dimensions := {| width := 1000; height := 3000 |}.

End LayoutScenarios.

(** ** Flat textures for the shader *)

Section SampleTextures.
Import Shader.

(** A texture of one colour. *)
Definition flat (red green blue alpha : Q) : sampler2D :=
  fun _ => {| rgb := {| r := red; g := green; b := blue |}; a := alpha |}.

(** The filter as [initialize] leaves it (strength 0.1, shadow power
    0.3, highlight power 0.2, the white 1 x 1 design), over an orange
    sprite with a depth of 0.75 and mid-gray lighting masks. *)
Definition afterInitialize : Uniforms :=
  {| uSampler := flat 0.9 0.5 0.1 1;
     uDisp := flat 0.75 0.75 0.75 1;
     uShadow := flat 0 0 0 1;
     uHighlight := flat 0 0 0 1;
     uDesign := flat 1 1 1 1;
     uStrength := 0.1; uShadowPower := 0.3; uHighlightPower := 0.2 |}.

(** The same with a half-transparent blue design and no displacement
    strength. *)
Definition blueDesign : Uniforms :=
  {| uSampler := flat 0.9 0.5 0.1 1;
     uDisp := flat 0.75 0.75 0.75 1;
     uShadow := flat 0 0 0 1;
     uHighlight := flat 0 0 0 1;
     uDesign := flat 0.1 0.2 0.8 0.5;
     uStrength := 0; uShadowPower := 0.3; uHighlightPower := 0.2 |}.

(** The filter with the white design and no displacement strength. *)
Definition whiteNoWarp : Uniforms :=
  {| uSampler := flat 0.9 0.5 0.1 1;
     uDisp := flat 0.75 0.75 0.75 1;
     uShadow := flat 0 0 0 1;
     uHighlight := flat 0 0 0 1;
     uDesign := flat 1 1 1 1;
     uStrength := 0; uShadowPower := 0.3; uHighlightPower := 0.2 |}.

Definition centre : vec2 := {| vx := 0.5; vy := 0.5 |}.

End SampleTextures.

(** ** The pixel loop of [buildLightingMasks] *)

Section LabInvariants.
Import Js Canvas LightingMasks LabMasks.

(** The pixel [p] of [mask] holds [value] of the source pixel's
    lightness in its three colour bytes and the source alpha. *)
Definition labPixelDone (Math_pow : Q -> Q -> Q) (data mask : list Z)
    (value : Q -> Q) (p : nat) : Prop :=
  forall r g b a,
    data !! (4 * p)%nat = Some r -> data !! (4 * p + 1)%nat = Some g ->
    data !! (4 * p + 2)%nat = Some b -> data !! (4 * p + 3)%nat = Some a ->
    (forall c, (c < 3)%nat ->
       mask !! (4 * p + c)%nat = Some (toUint8Clamped (value (lightness Math_pow r g b))))
    /\ mask !! (4 * p + 3)%nat = Some a.

Definition labMasksInvariant (Math_pow : Q -> Q -> Q) (data : list Z) (i : nat)
    (masks : list Z * list Z) : Prop :=
  exists k, i = (4 * k)%nat
    /\ length (fst masks) = length data /\ length (snd masks) = length data
    /\ forall p, (p < k)%nat ->
         labPixelDone Math_pow data (fst masks) shadowValue p
         /\ labPixelDone Math_pow data (snd masks) highlightValue p.

(** A power function for the examples: squares for the exponent 2.4,
    the identity for the exponent 1/3. *)
Definition roughPow (base exponent : Q) : Q :=
  if Qeq_bool exponent 2.4 then base * base else base.

(** A dark pixel, a mid-gray one and a white one. *)
Definition darkToWhite : ImageBitmap :=
  {| width := 3; height := 1;
     data := [8; 3; 10; 255;  128; 128; 128; 200;  255; 255; 255; 90]%Z |}.

End LabInvariants.

(** ** A lost GPU context and a renderer used before *)

Section SampleGpu.
Import Canvas Async Renderer.

(** A GPU whose context is lost: every render throws. *)
Definition contextLost (sc : Scene) : Completion unit :=
  Rejected "WebGL: CONTEXT_LOST_WEBGL".


End SampleGpu.

(** ** PIXI for the life cycle of the renderer *)

Section LifecycleScenarios.
Import Canvas Async Lifecycle.

(** PIXI in working order, and PIXI whose sprite cannot be destroyed. *)
Definition pixiOk (history : list PixiCall) (c : PixiCall) : Completion unit :=
  Resolved tt.

Definition spriteStuck (history : list PixiCall) (c : PixiCall) : Completion unit :=
  match c with
  | SpriteDestroy => Rejected "TypeError: Cannot read properties of null"
  | _ => Resolved tt
  end.

(** An extraction that names the number of calls made before it. *)
Definition callCount (history : list PixiCall) : string :=
  "data:image/png;base64," +:+ Renderer.showNat (length history).

(** The renderer after [initialize]. *)
Definition running : Instance :=
  {| app := true; baseSprite := Some {| parent := true |};
     fabricFilter := Some {| design := None; strength := 0.1 |};
     designTextures := []; calls := [] |}.

End LifecycleScenarios.

(** ** A browser and SVG files *)

Section SvgScenarios.
Import Canvas Async Svg.

(** A browser for the examples: the text of a file is its bytes, an
    image loads without an intrinsic size, and the canvas bitmap is
    transparent. *)
Definition textOfBytes (file : File.t) : Completion (list Z) :=
  Resolved (File.bytes file).

Definition noBase64 (text : list Z) : string := "PHN2Zy8+".

Definition noIntrinsicSize (src : string) : Completion (nat * nat) :=
  Resolved (0%nat, 0%nat).

Definition blankBitmap (src : string) (w h : nat) : Completion ImageBitmap :=
  Resolved {| width := w; height := h; data := replicate (4 * (w * h)) 0%Z |}.

(** An SVG file whose text holds the euro sign (code unit 8364). *)
Definition priceTag : File.t :=
  {| File.name := "price.svg"; File.type := "image/svg+xml"; File.size := 5;
     File.bytes := [60; 8364; 47; 62]%Z |}.

Definition plainSvg : File.t :=
  {| File.name := "plain.svg"; File.type := "image/svg+xml"; File.size := 6;
     File.bytes := [60; 115; 118; 103; 47; 62]%Z |}.

End SvgScenarios.

(** ** A canvas for the fallback renderer *)

Section Canvas2DScenarios.
Import Canvas Async Canvas2DFallback.

(** A browser for the examples: painting appends the first byte of the
    image to the pixels when multiplying and replaces them by it
    otherwise; the data URL shows the pixels' sum. *)
Definition paintFirstByte (op : string) (alpha : Q) (image : ImageBitmap)
    (size : option (nat * nat)) (pixels : list Z) : list Z :=
  if String.eqb op "multiply"
  then pixels ++ [default 0%Z (data image !! 0%nat)]
  else [default 0%Z (data image !! 0%nat)].

Definition sumUrl (w h : nat) (pixels : list Z) : string :=
  showZ (fold_right Z.add 0%Z pixels).

End Canvas2DScenarios.

(* ================================================================== *)
(** * Properties *)
(* ================================================================== *)

(** ** Drag and resize clamps (App.jsx, [handleMouseMove]) *)

Section InteractionProperties.
Import Js Interaction.

Lemma Math_max_lower (lo v : Q) : lo <= Math_max lo v.
Proof. unfold Math_max. apply Q.le_max_l. Qed.

Lemma Math_min_upper (v hi : Q) : Math_min v hi <= hi.
Proof. unfold Math_min. apply Q.le_min_r. Qed.

(** [max(lo, min(v, hi))] lies in a non-empty interval [[lo, hi]]. *)
Lemma max_min_in_interval (lo v hi : Q) :
  lo <= hi -> lo <= Math_max lo (Math_min v hi) <= hi.
Proof.
  intros Hne. split; [apply Math_max_lower|].
  unfold Math_max. apply Q.max_lub; [exact Hne | apply Math_min_upper].
Qed.

(** [max(lo, min(v, hi))] is [lo] itself when the interval is empty. *)
Lemma max_min_empty_interval (lo v hi : Q) :
  hi < lo -> Math_max lo (Math_min v hi) = lo.
Proof.
  intros Hlt. unfold Math_max, Qmax, GenericMinMax.gmax.
  destruct (Qcompare lo (Math_min v hi)) eqn:Hc; try reflexivity.
  apply Qlt_alt in Hc. pose proof (Math_min_upper v hi). lra.
Qed.

(** [min(max(lo, v), hi)] never exceeds [hi], and is at least [lo] when
    the interval [[lo, hi]] is not empty. *)
Lemma min_max_upper_last (lo v hi : Q) :
  Math_min (Math_max lo v) hi <= hi /\
  (lo <= hi -> lo <= Math_min (Math_max lo v) hi).
Proof.
  split; [apply Math_min_upper|].
  intros Hne. unfold Math_min. apply Q.min_glb; [apply Math_max_lower | exact Hne].
Qed.

Lemma mode_Dragging (st : State) : mode st = Dragging -> isDragging st = true.
Proof. unfold mode. destruct (isDragging st), (isResizing st); congruence. Qed.

Lemma mode_Resizing (st : State) :
  mode st = Resizing -> isDragging st = false /\ isResizing st = true.
Proof. unfold mode. destruct (isDragging st), (isResizing st); intuition congruence. Qed.

(** What a pointer move does to the placement while dragging. *)
Lemma handleMouseMove_dragging (st : State) (c : Container) (e : MouseEvent) :
  mode st = Dragging ->
  designPosition (handleMouseMove st c e) =
    {| x := Math_max 0 (Math_min (clientX e - left c - x (dragOffset st))
                                 (offsetWidth c - width (designSize st)));
       y := Math_max 0 (Math_min (clientY e - top c - y (dragOffset st))
                                 (offsetHeight c - height (designSize st))) |}
  /\ designSize (handleMouseMove st c e) = designSize st.
Proof.
  intros Hm. apply mode_Dragging in Hm.
  unfold handleMouseMove. rewrite Hm. cbn. split; reflexivity.
Qed.

(** What a pointer move does to the placement while resizing. *)
Lemma handleMouseMove_resizing (st : State) (c : Container) (e : MouseEvent) :
  mode st = Resizing ->
  designSize (handleMouseMove st c e) =
    {| width := Math_min (Math_max 50 (clientX e - left c - x (designPosition st)))
                         (offsetWidth c - x (designPosition st));
       height := Math_min (Math_max 50 (clientY e - top c - y (designPosition st)))
                          (offsetHeight c - y (designPosition st)) |}
  /\ designPosition (handleMouseMove st c e) = designPosition st.
Proof.
  intros Hm. apply mode_Resizing in Hm. destruct Hm as [Hd Hr].
  unfold handleMouseMove. rewrite Hd, Hr. cbn. split; reflexivity.
Qed.

(** C6, as stated, fails: from the default placement in a 100 x 100
    container a drag puts the origin at 0, which is outside
    [[0, containerSize - placementSize] = [0, -100]]. *)
Lemma drag_origin_leaves_interval :
  mode draggingInSmall = Dragging /\
  ~ (0 <= x (designPosition (handleMouseMove draggingInSmall smallContainer pressInside))
       <= offsetWidth smallContainer - width (designSize draggingInSmall)).
Proof.
  split; [reflexivity|].
  intros [_ Hhi]. vm_compute in Hhi. apply Hhi. reflexivity.
Qed.

(** C6, amended: while dragging, the new origin is
    [max(0, min(p - offset, containerSize - placementSize))] on each axis
    and the size is unchanged; on an axis where the placement is not
    larger than the container the origin stays within
    [[0, containerSize - placementSize]], for every pointer position. *)
Theorem drag_origin_clamped (st : State) (c : Container) (e : MouseEvent) :
  mode st = Dragging ->
  let st' := handleMouseMove st c e in
  x (designPosition st') =
    Math_max 0 (Math_min (clientX e - left c - x (dragOffset st))
                         (offsetWidth c - width (designSize st))) /\
  y (designPosition st') =
    Math_max 0 (Math_min (clientY e - top c - y (dragOffset st))
                         (offsetHeight c - height (designSize st))) /\
  designSize st' = designSize st /\
  (width (designSize st) <= offsetWidth c ->
   0 <= x (designPosition st') <= offsetWidth c - width (designSize st)) /\
  (height (designSize st) <= offsetHeight c ->
   0 <= y (designPosition st') <= offsetHeight c - height (designSize st)).
Proof.
  intros Hm st'. subst st'.
  destruct (handleMouseMove_dragging st c e Hm) as [Hpos Hsize].
  rewrite Hpos. cbn [x y]. repeat split; try reflexivity; try exact Hsize.
  - apply Math_max_lower.
  - apply max_min_in_interval. lra.
  - apply Math_max_lower.
  - apply max_min_in_interval. lra.
Qed.

Lemma drag_origin_clamped_witness :
  0 <= x (designPosition (handleMouseMove draggingInLarge largeContainer farAway)) <= 600 /\
  0 <= y (designPosition (handleMouseMove draggingInLarge largeContainer farAway)) <= 400.
Proof.
  pose proof (drag_origin_clamped draggingInLarge largeContainer farAway eq_refl)
    as (_ & _ & _ & Hx & Hy).
  split.
  - assert (Hw : width (designSize draggingInLarge) <= offsetWidth largeContainer)
      by (vm_compute; discriminate).
    specialize (Hx Hw). vm_compute in Hx |- *. exact Hx.
  - assert (Hh : height (designSize draggingInLarge) <= offsetHeight largeContainer)
      by (vm_compute; discriminate).
    specialize (Hy Hh). vm_compute in Hy |- *. exact Hy.
Defined.

(** C10: the drag clamp is [max(0, min(p - offset, containerSize -
    placementSize))], the lower bound applied last; on an axis where the
    placement is larger than the container the new origin is exactly 0,
    hence never negative, for every pointer position. *)
Theorem drag_origin_zero_when_oversized (st : State) (c : Container) (e : MouseEvent) :
  mode st = Dragging ->
  let st' := handleMouseMove st c e in
  x (designPosition st') =
    Math_max 0 (Math_min (clientX e - left c - x (dragOffset st))
                         (offsetWidth c - width (designSize st))) /\
  y (designPosition st') =
    Math_max 0 (Math_min (clientY e - top c - y (dragOffset st))
                         (offsetHeight c - height (designSize st))) /\
  (offsetWidth c < width (designSize st) -> x (designPosition st') = 0) /\
  (offsetHeight c < height (designSize st) -> y (designPosition st') = 0) /\
  0 <= x (designPosition st') /\ 0 <= y (designPosition st').
Proof.
  intros Hm st'. subst st'.
  destruct (handleMouseMove_dragging st c e Hm) as [Hpos _].
  rewrite Hpos. cbn [x y]. repeat split; try reflexivity.
  - intros Hlt. apply max_min_empty_interval. lra.
  - intros Hlt. apply max_min_empty_interval. lra.
  - apply Math_max_lower.
  - apply Math_max_lower.
Qed.

Lemma drag_origin_zero_when_oversized_witness :
  x (designPosition (handleMouseMove draggingInSmall smallContainer farAway)) = 0 /\
  y (designPosition (handleMouseMove draggingInSmall smallContainer farAway)) = 0.
Proof.
  pose proof (drag_origin_zero_when_oversized draggingInSmall smallContainer farAway eq_refl)
    as (_ & _ & Hx & Hy & _).
  split; [apply Hx | apply Hy]; vm_compute; reflexivity.
Defined.

(** C7, as stated, fails: the upper bound is applied after the lower one,
    so 40 units from the container's right edge the new width is 40. *)
Lemma resize_below_minimum :
  mode resizingNearEdge = Resizing /\
  width (designSize (handleMouseMove resizingNearEdge narrowContainer
                       {| clientX := 745; clientY := 50 |})) == 40 /\
  ~ (50 <= width (designSize (handleMouseMove resizingNearEdge narrowContainer
                                {| clientX := 745; clientY := 50 |}))).
Proof.
  split; [reflexivity|]. split; [reflexivity|].
  intros H. vm_compute in H. apply H. reflexivity.
Qed.

(** C7, amended: while resizing, the new size is
    [min(max(50, p - origin), containerSize - origin)] on each axis and
    the origin is unchanged; the placement never extends beyond the
    container from its origin, for every pointer position; and the size is
    at least 50 on an axis where the origin is at least 50 units inside
    the container. *)
Theorem resize_size_clamped (st : State) (c : Container) (e : MouseEvent) :
  mode st = Resizing ->
  let st' := handleMouseMove st c e in
  width (designSize st') =
    Math_min (Math_max 50 (clientX e - left c - x (designPosition st)))
             (offsetWidth c - x (designPosition st)) /\
  height (designSize st') =
    Math_min (Math_max 50 (clientY e - top c - y (designPosition st)))
             (offsetHeight c - y (designPosition st)) /\
  designPosition st' = designPosition st /\
  x (designPosition st') + width (designSize st') <= offsetWidth c /\
  y (designPosition st') + height (designSize st') <= offsetHeight c /\
  (50 <= offsetWidth c - x (designPosition st) -> 50 <= width (designSize st')) /\
  (50 <= offsetHeight c - y (designPosition st) -> 50 <= height (designSize st')).
Proof.
  intros Hm st'. subst st'.
  destruct (handleMouseMove_resizing st c e Hm) as [Hsize Hpos].
  rewrite Hsize, Hpos. cbn [width height].
  pose proof (min_max_upper_last 50 (clientX e - left c - x (designPosition st))
                (offsetWidth c - x (designPosition st))) as [Hw1 Hw2].
  pose proof (min_max_upper_last 50 (clientY e - top c - y (designPosition st))
                (offsetHeight c - y (designPosition st))) as [Hh1 Hh2].
  repeat split; try reflexivity; try assumption; lra.
Qed.

Lemma resize_size_clamped_witness :
  50 <= width (designSize (handleMouseMove resizingInLarge largeContainer farAway)) /\
  x (designPosition (handleMouseMove resizingInLarge largeContainer farAway))
    + width (designSize (handleMouseMove resizingInLarge largeContainer farAway)) <= 800.
Proof.
  pose proof (resize_size_clamped resizingInLarge largeContainer farAway eq_refl)
    as (_ & _ & _ & Hfit & _ & Hmin & _).
  split; [apply Hmin; vm_compute; discriminate | exact Hfit].
Defined.

End InteractionProperties.

(** ** The pixel loop and the byte conversion *)

Section LoopAndBytes.
Import Js Canvas.

(** Loop rule: an invariant kept by every iteration holds when the loop
    ends, and with [4 * fuel >= len - i] the loop does end ([i' >= len]). *)
Lemma forStep4_invariant {S : Type} (P : nat -> S -> Prop)
    (body : nat -> S -> S) (len : nat) :
  (forall i s, (i < len)%nat -> P i s -> P (i + 4)%nat (body i s)) ->
  forall fuel i s, (len <= i + 4 * fuel)%nat -> P i s ->
  exists i', (len <= i')%nat /\ P i' (forStep4 fuel i len body s).
Proof.
  intros Hstep. induction fuel as [|fuel IH]; intros i s Hfuel HP; cbn.
  - exists i. split; [lia | exact HP].
  - destruct (decide (i < len)%nat) as [Hlt|Hge].
    + apply IH; [lia | apply Hstep; assumption].
    + exists i. split; [lia | exact HP].
Qed.

Lemma roundHalfEven_bounds (v : Q) :
  (Qfloor v <= roundHalfEven v <= Qfloor v + 1)%Z.
Proof.
  unfold roundHalfEven.
  destruct (Qcompare (v - inject_Z (Qfloor v)) (1 # 2)); [destruct (Z.even _)| |]; lia.
Qed.

Lemma toUint8Clamped_isByte (v : Q) : isByte (toUint8Clamped v).
Proof. unfold isByte, toUint8Clamped. lia. Qed.

(** A number that is not positive is stored as 0. *)
Lemma toUint8Clamped_nonpos (v : Q) : v <= 0 -> toUint8Clamped v = 0%Z.
Proof.
  intros Hv. unfold toUint8Clamped.
  assert (Hf : (Qfloor v <= 0)%Z) by (apply (Qfloor_resp_le v 0) in Hv; exact Hv).
  destruct (Z.eq_dec (Qfloor v) 0%Z) as [H0|Hneg].
  - unfold roundHalfEven. rewrite H0.
    pose proof (Qfloor_le v) as Hle. rewrite H0 in Hle.
    assert (Hlt : v - inject_Z 0 < 1 # 2).
    { unfold inject_Z in *. lra. }
    destruct (Qcompare (v - inject_Z 0) (1 # 2)) eqn:Hc; [|reflexivity|].
    + apply Qeq_alt in Hc. lra.
    + apply Qgt_alt in Hc. lra.
  - pose proof (roundHalfEven_bounds v). lia.
Qed.

(** A number of at most 127.5 is stored as at most 128. *)
Lemma toUint8Clamped_half (v : Q) : v <= 127.5 -> (toUint8Clamped v <= 128)%Z.
Proof.
  intros Hv. unfold toUint8Clamped.
  assert (Hf : (Qfloor v <= 127)%Z).
  { apply (Qfloor_resp_le v 127.5) in Hv. vm_compute (Qfloor 127.5) in Hv. exact Hv. }
  pose proof (roundHalfEven_bounds v). lia.
Qed.

End LoopAndBytes.

(** ** Lighting masks ([buildLightingMasksSimple]) *)

Section LightingMaskProperties.
Import Js Canvas LightingMasks.

Lemma storePixel_length (i : nat) (v : Q) (a : Z) (m : list Z) :
  length (storePixel i v a m) = length m.
Proof. unfold storePixel. rewrite !length_insert. reflexivity. Qed.

Lemma storePixel_lookup_other (i : nat) (v : Q) (a : Z) (m : list Z) (j : nat) :
  (j < i \/ i + 4 <= j)%nat -> storePixel i v a m !! j = m !! j.
Proof.
  intros Hj. unfold storePixel.
  rewrite !list_lookup_insert_ne by lia. reflexivity.
Qed.

Lemma storePixel_lookup_rgb (i : nat) (v : Q) (a : Z) (m : list Z) (c : nat) :
  (c < 3)%nat -> (i + 3 < length m)%nat ->
  storePixel i v a m !! (i + c)%nat = Some (toUint8Clamped v).
Proof.
  intros Hc Hlen. unfold storePixel.
  destruct c as [|[|[|c]]]; [| | |lia].
  - replace (i + 0)%nat with i by lia.
    rewrite !list_lookup_insert_ne by lia.
    apply list_lookup_insert_eq. lia.
  - rewrite !list_lookup_insert_ne by lia.
    apply list_lookup_insert_eq. rewrite length_insert. lia.
  - rewrite list_lookup_insert_ne by lia.
    apply list_lookup_insert_eq. rewrite !length_insert. lia.
Qed.

Lemma storePixel_lookup_alpha (i : nat) (v : Q) (a : Z) (m : list Z) :
  (i + 3 < length m)%nat -> storePixel i v a m !! (i + 3)%nat = Some a.
Proof.
  intros Hlen. unfold storePixel.
  apply list_lookup_insert_eq. rewrite !length_insert. lia.
Qed.






Lemma shadowValue_spec (L : Q) :
  (L < 0.5 -> shadowValue L == Math_min 1 (0.5 - L) * 255) /\
  (0.5 <= L -> shadowValue L == 0) /\
  0 <= shadowValue L.
Proof.
  unfold shadowValue, Math_max, Math_min.
  destruct (Q.max_spec 0 (Qmin 1 (0.5 - L))) as [[H1 H2]|[H1 H2]];
  destruct (Q.min_spec 1 (0.5 - L)) as [[H3 H4]|[H3 H4]];
  rewrite ?H2, ?H4 in *; repeat split; intros; lra.
Qed.

Lemma highlightValue_spec (L : Q) :
  (0.5 < L -> highlightValue L == Math_min 1 (L - 0.5) * 255) /\
  (L <= 0.5 -> highlightValue L == 0) /\
  0 <= highlightValue L.
Proof.
  unfold highlightValue, Math_max, Math_min.
  destruct (Q.max_spec 0 (Qmin 1 (L - 0.5))) as [[H1 H2]|[H1 H2]];
  destruct (Q.min_spec 1 (L - 0.5)) as [[H3 H4]|[H3 H4]];
  rewrite ?H2, ?H4 in *; repeat split; intros; lra.
Qed.


(** Shadow and highlight are never both positive, as numbers and as
    stored bytes. *)
Lemma shadow_highlight_exclusive (L : Q) :
  ~ (0 < shadowValue L /\ 0 < highlightValue L) /\
  ~ (0 < toUint8Clamped (shadowValue L) /\ 0 < toUint8Clamped (highlightValue L))%Z.
Proof.
  destruct (shadowValue_spec L) as (_ & Hs2 & _).
  destruct (highlightValue_spec L) as (_ & Hh2 & _).
  destruct (Qlt_le_dec L 0.5) as [Hlt|Hge].
  - assert (Hh : highlightValue L == 0) by (apply Hh2; lra).
    split; intros [_ Hpos].
    + lra.
    + rewrite toUint8Clamped_nonpos in Hpos by lra. lia.
  - assert (Hs : shadowValue L == 0) by (apply Hs2; lra).
    split; intros [Hpos _].
    + lra.
    + rewrite toUint8Clamped_nonpos in Hpos by lra. lia.
Qed.





(** The bound 128 is reached: a black pixel has shadow byte 128, a white
    pixel highlight byte 128 (127.5 rounds to the even neighbour). *)
Example half_intensity_reached :
  data (shadowMask (buildLightingMasksSimple blackAndWhite)) !! 0%nat = Some 128%Z /\
  data (highlightMask (buildLightingMasksSimple blackAndWhite)) !! 4%nat = Some 128%Z.
Proof. split; vm_compute; reflexivity. Qed.

End LightingMaskProperties.

(** ** The fragment shader *)

Section ShaderProperties.
Import Shader.

Lemma clamp_unit (v : Q) : 0 <= clamp v 0 1 <= 1.
Proof.
  unfold clamp. split.
  - apply Q.min_glb; [apply Q.le_max_r | lra].
  - apply Q.le_min_r.
Qed.

Lemma channel_map3 (c : Channel) (f : Q -> Q) (v : vec3) :
  channel c (map3 f v) = f (channel c v).
Proof. destruct c; reflexivity. Qed.

Lemma channel_zip3 (c : Channel) (f : Q -> Q -> Q) (v w : vec3) :
  channel c (zip3 f v w) = f (channel c v) (channel c w).
Proof. destruct c; reflexivity. Qed.

(** C1: for the fragment at [vUV], with [B] the base colour and [D] the
    depth sampled there, the design is sampled at [vUV + (D - 0.5) *
    strength * 0.2] clamped into [[0,1]] on both axes; the composite is
    [mix(B, B * design.rgb, design.a * 0.8)] exactly when
    [design.a > 0.1] and [B] otherwise; the output colour is that
    composite times [1 - shadow * shadowPower * 0.6], plus
    [highlight * highlightPower * 0.4], clamped to [[0,1]]. *)
Theorem fragment_shader_pixel (u : Uniforms) (vUV : vec2) (c : Channel) :
  let B := rgb (texture2D (uSampler u) vUV) in
  let D := r (rgb (texture2D (uDisp u) vUV)) in
  let offset := (D - 0.5) * uStrength u * 0.2 in
  let coord := {| vx := Qmin (Qmax (vx vUV + offset) 0) 1;
                  vy := Qmin (Qmax (vy vUV + offset) 0) 1 |} in
  let design := texture2D (uDesign u) coord in
  let shadow := r (rgb (texture2D (uShadow u) vUV)) in
  let highlight := r (rgb (texture2D (uHighlight u) vUV)) in
  warp u vUV = coord /\
  (0 <= vx coord <= 1 /\ 0 <= vy coord <= 1) /\
  (0.1 < a design ->
     channel c (blended u vUV) =
       channel c B * (1 - a design * 0.8)
       + (channel c B * channel c (rgb design)) * (a design * 0.8)) /\
  (~ 0.1 < a design -> channel c (blended u vUV) = channel c B) /\
  channel c (rgb (main u vUV)) =
    Qmin (Qmax (channel c (blended u vUV) * (1 - shadow * uShadowPower u * 0.6)
                + highlight * uHighlightPower u * 0.4) 0) 1 /\
  0 <= channel c (rgb (main u vUV)) <= 1 /\
  a (main u vUV) = 1.
Proof.
  intros B D offset coord design shadow highlight.
  assert (Hwarp : warp u vUV = coord) by reflexivity.
  split; [exact Hwarp|].
  split; [split; apply clamp_unit|].
  assert (Hblend : blended u vUV =
            if Qlt_le_dec 0.1 (a design)
            then mix3 B (mul3 B (rgb design)) (a design * 0.8) else B).
  { unfold blended. rewrite Hwarp. reflexivity. }
  split; [|split].
  - intros Hgt. rewrite Hblend.
    destruct (Qlt_le_dec 0.1 (a design)) as [_|Hle]; [|lra].
    unfold mix3, mul3. rewrite !channel_zip3. reflexivity.
  - intros Hngt. rewrite Hblend.
    destruct (Qlt_le_dec 0.1 (a design)) as [Hgt|_]; [contradiction|reflexivity].
  - assert (Hout : channel c (rgb (main u vUV)) =
              clamp (channel c (blended u vUV) * (1 - shadow * uShadowPower u * 0.6)
                     + highlight * uHighlightPower u * 0.4) 0 1).
    { unfold main. cbn [rgb]. unfold clamp3, offset3, scale3.
      rewrite !channel_map3. reflexivity. }
    split; [exact Hout|]. split; [rewrite Hout; apply clamp_unit | reflexivity].
Qed.

(** With no displacement strength the design is sampled where the
    fragment is (inside the unit square), and under a white opaque
    design the composite is the base colour: only the lighting terms
    change it. *)
Lemma no_warp_white_design (u : Uniforms) (vUV : vec2) (c : Channel) :
  uStrength u == 0 ->
  0 <= vx vUV <= 1 -> 0 <= vy vUV <= 1 ->
  texture2D (uDesign u) (warp u vUV)
    = {| rgb := {| r := 1; g := 1; b := 1 |}; a := 1 |} ->
  vx (warp u vUV) == vx vUV /\ vy (warp u vUV) == vy vUV /\
  channel c (blended u vUV) == channel c (rgb (texture2D (uSampler u) vUV)).
Proof.
  intros Hs Hx Hy Hwhite.
  assert (Hclamp : forall v k, k == 0 -> 0 <= v <= 1 -> clamp (v + k) 0 1 == v).
  { intros v k Hk Hv. unfold clamp.
    destruct (Q.min_spec (Qmax (v + k) 0) 1) as [[H1 H2]|[H1 H2]];
    destruct (Q.max_spec (v + k) 0) as [[H3 H4]|[H3 H4]];
    rewrite H2; rewrite ?H4 in *; lra. }
  assert (Hk : (r (rgb (texture2D (uDisp u) vUV)) - 0.5) * uStrength u * 0.2 == 0).
  { rewrite Hs. ring. }
  split; [apply Hclamp; assumption|]. split; [apply Hclamp; assumption|].
  unfold blended. rewrite Hwhite. cbn [a rgb].
  destruct (Qlt_le_dec 0.1 1) as [_|Hle]; [|lra].
  unfold mix3, mul3. rewrite !channel_zip3.
  destruct c; cbn [channel r g b]; unfold mix; ring.
Qed.

End ShaderProperties.

(** ** Depth-map normalisation ([processDepthMap]) *)

Section DepthMapProperties.
Import Js Canvas DepthMap.

Lemma roundHalfEven_comp (v w : Q) : v == w -> roundHalfEven v = roundHalfEven w.
Proof.
  intros Heq. unfold roundHalfEven.
  rewrite (Qfloor_comp v w Heq).
  assert (Hc : Qcompare (v - inject_Z (Qfloor w)) (1 # 2)
               = Qcompare (w - inject_Z (Qfloor w)) (1 # 2)).
  { apply Qcompare_comp; [rewrite Heq|]; reflexivity. }
  rewrite Hc. reflexivity.
Qed.

Lemma toUint8Clamped_comp (v w : Q) : v == w -> toUint8Clamped v = toUint8Clamped w.
Proof. intros Heq. unfold toUint8Clamped. rewrite (roundHalfEven_comp v w Heq). reflexivity. Qed.

(** The minimum is rescaled to 0 and the maximum to 255. *)
Lemma normalized_min (min range : Z) : toUint8Clamped (normalized min min range) = 0%Z.
Proof.
  rewrite (toUint8Clamped_comp _ 0); [reflexivity|].
  unfold normalized. rewrite Z.sub_diag. change (inject_Z 0) with 0.
  unfold Qdiv. ring.
Qed.

Lemma normalized_max (min max : Z) :
  (min < max)%Z -> toUint8Clamped (normalized max min (max - min)) = 255%Z.
Proof.
  intros Hlt. rewrite (toUint8Clamped_comp _ 255); [reflexivity|].
  unfold normalized.
  assert (Hnz : ~ inject_Z (max - min) == 0).
  { intros H. assert (Hpos : inject_Z 0 < inject_Z (max - min)).
    { rewrite <- (Zlt_Qlt 0 (max - min)). lia. }
    change (inject_Z 0) with 0 in Hpos. lra. }
  field. exact Hnz.
Qed.

Lemma minMaxBody_invariant (data : list Z) (i : nat) (mm : Z * Z) :
  (i < length data)%nat ->
  minMaxInvariant data i mm -> minMaxInvariant data (i + 4) (minMaxBody data i mm).
Proof.
  intros Hi (k & -> & Hbnd & Hmin & Hmax).
  exists (Datatypes.S k). split; [lia|].
  unfold minMaxBody.
  destruct (data !! (4 * k)%nat) as [gray|] eqn:Eg.
  2:{ apply lookup_ge_None in Eg. lia. }
  cbn [fst snd]. split; [|split].
  - intros p d Hp Hd. destruct (decide (p = k)) as [->|Hne].
    + rewrite Eg in Hd. inversion Hd; subst d. lia.
    + specialize (Hbnd p d ltac:(lia) Hd). lia.
  - destruct (Z.le_gt_cases gray (fst mm)) as [Hle|Hgt].
    + right. exists k. split; [lia|]. rewrite Z.min_r by lia. exact Eg.
    + rewrite Z.min_l by lia.
      destruct Hmin as [H255|(p & Hp & Hd)]; [left; exact H255|].
      right. exists p. split; [lia | exact Hd].
  - destruct (Z.le_gt_cases (snd mm) gray) as [Hle|Hgt].
    + right. exists k. split; [lia|]. rewrite Z.max_r by lia. exact Eg.
    + rewrite Z.max_l by lia.
      destruct Hmax as [H0|(p & Hp & Hd)]; [left; exact H0|].
      right. exists p. split; [lia | exact Hd].
Qed.

(** On a non-empty buffer of bytes the scan returns the least and the
    greatest value of the gray (red) channel. *)
Lemma minMax_spec (data : list Z) :
  Forall isByte data -> data <> [] ->
  (exists p, data !! (4 * p)%nat = Some (fst (minMax data))) /\
  (exists p, data !! (4 * p)%nat = Some (snd (minMax data))) /\
  (forall p d, data !! (4 * p)%nat = Some d ->
     (fst (minMax data) <= d <= snd (minMax data))%Z).
Proof.
  intros Hbytes Hne. unfold minMax.
  destruct (forStep4_invariant (minMaxInvariant data) (minMaxBody data) (length data)
              (minMaxBody_invariant data) (length data) 0%nat (255, 0)%Z)
    as (i' & Hend & k & -> & Hbnd & Hmin & Hmax).
  - lia.
  - exists 0%nat. cbn [fst snd]. split; [reflexivity|].
    split; [intros p d Hp; lia|]. split; left; reflexivity.
  - set (mm := forStep4 _ _ _ _ _) in *.
    assert (Hall : forall p d, data !! (4 * p)%nat = Some d ->
                     (fst mm <= d <= snd mm)%Z).
    { intros p d Hd. apply (Hbnd p d); [|exact Hd].
      apply lookup_lt_Some in Hd. lia. }
    destruct data as [|d0 rest]; [contradiction|].
    assert (H0 : (d0 :: rest) !! (4 * 0)%nat = Some d0) by reflexivity.
    assert (Hd0 : isByte d0) by (inversion Hbytes; assumption).
    pose proof (Hall 0%nat d0 H0) as Hin. unfold isByte in Hd0.
    split; [|split; [|exact Hall]].
    + destruct Hmin as [H255|(p & _ & Hp)]; [|exists p; exact Hp].
      exists 0%nat. rewrite H0. f_equal. lia.
    + destruct Hmax as [Hz|(p & _ & Hp)]; [|exists p; exact Hp].
      exists 0%nat. rewrite H0. f_equal. lia.
Qed.

Lemma normalizeBody_invariant (raw : list Z) (min range : Z) (i : nat) (data : list Z) :
  (i < length raw)%nat ->
  normalizeInvariant raw min range i data ->
  normalizeInvariant raw min range (i + 4) (normalizeBody min range i data).
Proof.
  intros Hi (k & -> & Hlen & Hdone & Hrest & Halpha).
  exists (Datatypes.S k). split; [lia|].
  unfold normalizeBody.
  destruct (data !! (4 * k)%nat) as [d|] eqn:Ed.
  2:{ apply lookup_ge_None in Ed. lia. }
  assert (Hraw : raw !! (4 * k)%nat = Some d) by (rewrite <- Hrest by lia; exact Ed).
  cbn zeta. set (v := toUint8Clamped (normalized d min range)).
  split; [rewrite !length_insert; exact Hlen|].
  split; [|split].
  - intros p d' c Hp Hd' Hc Hin. destruct (decide (p = k)) as [->|Hne].
    + rewrite Hraw in Hd'. inversion Hd'; subst d'. fold v.
      destruct c as [|[|[|c]]]; [| | |lia].
      * replace (4 * k + 0)%nat with (4 * k)%nat by lia.
        apply list_lookup_insert_eq. rewrite !length_insert. lia.
      * rewrite list_lookup_insert_ne by lia.
        apply list_lookup_insert_eq. rewrite !length_insert. lia.
      * rewrite !list_lookup_insert_ne by lia.
        apply list_lookup_insert_eq. lia.
    + rewrite !list_lookup_insert_ne by lia.
      apply (Hdone p d' c); try assumption. lia.
  - intros j Hj. rewrite !list_lookup_insert_ne by lia. apply Hrest. lia.
  - intros q. rewrite !list_lookup_insert_ne by lia. apply Halpha.
Qed.

(** The rescaling loop, run over the whole buffer. *)
Lemma normalize_loop_spec (raw : list Z) (min range : Z) :
  let out := forStep4 (length raw) 0 (length raw) (normalizeBody min range) raw in
  length out = length raw
  /\ (forall p d c, raw !! (4 * p)%nat = Some d ->
        (c < 3)%nat -> (4 * p + c < length raw)%nat ->
        out !! (4 * p + c)%nat = Some (toUint8Clamped (normalized d min range)))
  /\ (forall q, out !! (4 * q + 3)%nat = raw !! (4 * q + 3)%nat).
Proof.
  cbn zeta.
  destruct (forStep4_invariant (normalizeInvariant raw min range)
              (normalizeBody min range) (length raw)
              (normalizeBody_invariant raw min range) (length raw) 0%nat raw)
    as (i' & Hend & k & -> & Hlen & Hdone & _ & Halpha).
  - lia.
  - exists 0%nat. split; [reflexivity|]. split; [reflexivity|].
    split; [intros p d c Hp; lia|]. split; reflexivity.
  - split; [exact Hlen|]. split; [|exact Halpha].
    intros p d c Hd Hc Hin. apply (Hdone p d c); try assumption. lia.
Qed.

(** What [normalize] does to a non-empty buffer of bytes whose gray
    channel has minimum [min] and maximum [max]. *)
Lemma normalize_spec (raw : list Z) :
  Forall isByte raw -> raw <> [] ->
  length (normalize raw) = length raw /\
  exists min max : Z,
    (exists p, raw !! (4 * p)%nat = Some min) /\
    (exists p, raw !! (4 * p)%nat = Some max) /\
    (forall p d, raw !! (4 * p)%nat = Some d -> (min <= d <= max)%Z) /\
    ((min < max)%Z ->
       (forall p d c, raw !! (4 * p)%nat = Some d ->
          (c < 3)%nat -> (4 * p + c < length raw)%nat ->
          normalize raw !! (4 * p + c)%nat
          = Some (toUint8Clamped (inject_Z (d - min) / inject_Z (max - min) * 255))) /\
       (forall q, normalize raw !! (4 * q + 3)%nat = raw !! (4 * q + 3)%nat) /\
       (forall p, raw !! (4 * p)%nat = Some min ->
          normalize raw !! (4 * p)%nat = Some 0%Z) /\
       (forall p, raw !! (4 * p)%nat = Some max ->
          normalize raw !! (4 * p)%nat = Some 255%Z) /\
       (exists p0 p1, normalize raw !! (4 * p0)%nat = Some 0%Z
                      /\ normalize raw !! (4 * p1)%nat = Some 255%Z)) /\
    (min = max -> normalize raw = raw).
Proof.
  intros Hbytes Hne.
  destruct (minMax_spec raw Hbytes Hne) as (Hmin & Hmax & Hbnd).
  unfold normalize.
  destruct (minMax raw) as [mn mx]. cbn [fst snd] in *.
  destruct (normalize_loop_spec raw mn (mx - mn)) as (Hlen & Hrgb & Halpha).
  split.
  { destruct (0 <? mx - mn)%Z; [exact Hlen | reflexivity]. }
  exists mn, mx.
  split; [exact Hmin|]. split; [exact Hmax|]. split; [exact Hbnd|].
  split.
  - intros Hlt. assert (Hpos : (0 <? mx - mn)%Z = true) by (apply Z.ltb_lt; lia).
    rewrite Hpos.
    assert (Hred : forall p d, raw !! (4 * p)%nat = Some d ->
              forStep4 (length raw) 0 (length raw) (normalizeBody mn (mx - mn)) raw
                !! (4 * p)%nat
              = Some (toUint8Clamped (normalized d mn (mx - mn)))).
    { intros p d Hd. replace (4 * p)%nat with (4 * p + 0)%nat at 1 by lia.
      apply Hrgb; [exact Hd | lia |].
      apply lookup_lt_Some in Hd. lia. }
    split; [exact Hrgb|]. split; [exact Halpha|].
    assert (H0 : forall p, raw !! (4 * p)%nat = Some mn ->
              forStep4 (length raw) 0 (length raw) (normalizeBody mn (mx - mn)) raw
                !! (4 * p)%nat = Some 0%Z).
    { intros p Hp. rewrite (Hred p mn Hp). f_equal. apply normalized_min. }
    assert (H255 : forall p, raw !! (4 * p)%nat = Some mx ->
              forStep4 (length raw) 0 (length raw) (normalizeBody mn (mx - mn)) raw
                !! (4 * p)%nat = Some 255%Z).
    { intros p Hp. rewrite (Hred p mx Hp). f_equal. apply normalized_max. exact Hlt. }
    split; [exact H0|]. split; [exact H255|].
    destruct Hmin as [p0 Hp0]. destruct Hmax as [p1 Hp1].
    exists p0, p1. split; [apply H0, Hp0 | apply H255, Hp1].
  - intros Heq. assert (Hz : (0 <? mx - mn)%Z = false) by (apply Z.ltb_ge; lia).
    rewrite Hz. reflexivity.
Qed.





(** The normalisation on small buffers: a non-uniform one is stretched to
    the full range, alpha untouched; a uniform one is left as it is,
    whatever its other channels hold. *)
Example normalize_stretches :
  normalize [100; 7; 7; 255;  150; 8; 8; 200;  200; 9; 9; 0]%Z
  = [0; 0; 0; 255;  128; 128; 128; 200;  255; 255; 255; 0]%Z.
Proof. vm_compute. reflexivity. Qed.

Example normalize_uniform_gray_channel :
  normalize [60; 10; 200; 255;  60; 90; 0; 255]%Z
  = [60; 10; 200; 255;  60; 90; 0; 255]%Z.
Proof. vm_compute. reflexivity. Qed.

(** The exact rescaling is what the engine computes in double precision:
    for bytes [min <= d <= max], [min < max], both store the same byte. *)
Lemma agree_on_bytes :
  forallb (fun range =>
             (range =? 0)%Z
             || forallb (fun k => (range <? k)%Z || Float64.agree range k)
                        (Float64.upTo 256))
          (Float64.upTo 256) = true.
Proof. vm_compute. reflexivity. Qed.

Lemma upTo_In (n : nat) (z : Z) : (0 <= z < Z.of_nat n)%Z -> In z (Float64.upTo n).
Proof.
  intros Hz. unfold Float64.upTo. apply in_map_iff.
  exists (Z.to_nat z). split; [lia|]. apply in_seq. lia.
Qed.

Lemma normalized_double_exact (d min max : Z) :
  isByte min -> isByte max -> (min <= d <= max)%Z -> (min < max)%Z ->
  Float64.toUint8Clamped (Float64.normalized d min (max - min))
  = toUint8Clamped (normalized d min (max - min)).
Proof.
  intros [Hmin _] [_ Hmax] Hd Hlt.
  pose proof agree_on_bytes as H.
  rewrite forallb_forall in H.
  assert (Hrange : In (max - min)%Z (Float64.upTo 256)) by (apply upTo_In; lia).
  assert (Hk : In (d - min)%Z (Float64.upTo 256)) by (apply upTo_In; lia).
  specialize (H (max - min)%Z Hrange).
  apply orb_true_iff in H. destruct H as [H|H]; [apply Z.eqb_eq in H; lia|].
  rewrite forallb_forall in H.
  specialize (H (d - min)%Z Hk).
  apply orb_true_iff in H. destruct H as [H|H]; [apply Z.ltb_lt in H; lia|].
  unfold Float64.agree in H. apply Z.eqb_eq in H.
  unfold Float64.normalized, normalized in *.
  rewrite Z.sub_0_r in H. exact H.
Qed.

End DepthMapProperties.

(** ** The depth provider ([getDepthMap]) and its caller *)

Section DepthProviderProperties.
Import Canvas Async DepthProvider.

Variable Blob : Type.
Variable fileToBase64 : Blob -> Completion string.
Variable fetch : Value -> option Value -> Completion (Response Blob).
Variable createImageBitmap : Blob -> Completion ImageBitmap.
Variable fallbackGradients : nat -> nat -> ImageBitmap.

Local Abbreviation getDepthMapFAL' := (getDepthMapFAL Blob fileToBase64 fetch createImageBitmap).
Local Abbreviation createFallbackDepthMap' :=
  (createFallbackDepthMap Blob createImageBitmap fallbackGradients).
Local Abbreviation getDepthMap' :=
  (getDepthMap Blob fileToBase64 fetch createImageBitmap fallbackGradients).
Local Abbreviation initializeMockupProcessing' :=
  (initializeMockupProcessing Blob fileToBase64 fetch createImageBitmap fallbackGradients).

(** The remote provider is tried first; whatever makes it fail, the
    local generator is used next. *)
Lemma getDepthMap_order (file : Blob) :
  match getDepthMapFAL' file with
  | Resolved bitmap => getDepthMap' file = Resolved bitmap
  | Rejected _ => getDepthMap' file = createFallbackDepthMap' file
  end.
Proof. unfold getDepthMap, tryCatch. destruct (getDepthMapFAL' file); reflexivity. Qed.

(** The local generator decodes the file for its size: it resolves
    exactly when the file decodes, with the gradients of that size. *)
Lemma createFallbackDepthMap_outcome (file : Blob) :
  match createImageBitmap file with
  | Resolved img =>
      createFallbackDepthMap' file = Resolved (fallbackGradients (width img) (height img))
  | Rejected e => createFallbackDepthMap' file = Rejected e
  end.
Proof. unfold createFallbackDepthMap, bind. destruct (createImageBitmap file); reflexivity. Qed.

(** A file the browser can decode always gets a depth map. *)
Lemma getDepthMap_resolves_when_decodable (file : Blob) (img : ImageBitmap) :
  createImageBitmap file = Resolved img ->
  exists bitmap, getDepthMap' file = Resolved bitmap.
Proof.
  intros Hdec. pose proof (getDepthMap_order file) as Hord.
  destruct (getDepthMapFAL' file) as [bitmap|e].
  - exists bitmap. exact Hord.
  - pose proof (createFallbackDepthMap_outcome file) as Hfb.
    rewrite Hdec in Hfb. rewrite Hord, Hfb. eexists. reflexivity.
Qed.

Lemma bitmap_has_no_such_property (bitmap : ImageBitmap) (key : string) :
  key <> "width"%string -> key <> "height"%string ->
  getProperty (VBitmap bitmap) key = Resolved VUndefined.
Proof.
  intros Hw Hh. unfold getProperty.
  apply String.eqb_neq in Hw, Hh. rewrite Hw, Hh. reflexivity.
Qed.

(** C8, on the code: [getDepthMap] resolves to the bitmap itself.  It has
    no [method], [depthMap] or [bitmap] property, so the caller's
    [const { depthMap, method } = await getDepthMap(file)] binds both to
    [undefined] and always ends in an error; and [getDepthMap] itself is
    rejected when the remote provider fails on a file that
    [createImageBitmap] cannot decode. *)
Theorem getDepthMap_resolves_to_bare_bitmap (file : Blob) :
  match getDepthMap Blob fileToBase64 fetch createImageBitmap fallbackGradients file with
  | Resolved bitmap =>
      getProperty (VBitmap bitmap) "method" = Resolved VUndefined /\
      getProperty (VBitmap bitmap) "depthMap" = Resolved VUndefined /\
      getProperty (VBitmap bitmap) "bitmap" = Resolved VUndefined
  | Rejected e =>
      createImageBitmap file = Rejected e /\
      exists e', getDepthMapFAL Blob fileToBase64 fetch createImageBitmap file = Rejected e'
  end /\
  exists e,
    initializeMockupProcessing Blob fileToBase64 fetch createImageBitmap
      fallbackGradients file = Rejected e.
Proof.
  pose proof (getDepthMap_order file) as Hord.
  pose proof (createFallbackDepthMap_outcome file) as Hfb.
  unfold initializeMockupProcessing.
  destruct (getDepthMapFAL' file) as [bitmap|e'].
  - rewrite Hord. split.
    + repeat split; apply bitmap_has_no_such_property; discriminate.
    + eexists. reflexivity.
  - rewrite Hord. destruct (createImageBitmap file) as [img|e]; rewrite Hfb.
    + split.
      * repeat split; apply bitmap_has_no_such_property; discriminate.
      * eexists. reflexivity.
    + split.
      * split; [reflexivity | exists e'; reflexivity].
      * exists e. reflexivity.
Qed.

End DepthProviderProperties.

Section DepthProviderExamples.
Import Canvas Async DepthProvider.

Example getDepthMap_online :
  getDepthMap nat readFile online decodeAny grayGradients 1%nat
  = Resolved {| width := 2; height := 3; data := replicate 24 200%Z |}.
Proof. reflexivity. Qed.

Example getDepthMap_offline :
  getDepthMap nat readFile offline decodeAny grayGradients 1%nat
  = Resolved (grayGradients 2 3).
Proof. reflexivity. Qed.

Example getDepthMapFAL_unavailable :
  getDepthMapFAL nat readFile unavailable decodeAny 1%nat
  = Rejected "FAL depth estimation failed: 503 - busy".
Proof. reflexivity. Qed.

Example initializeMockupProcessing_fails :
  initializeMockupProcessing nat readFile online decodeAny grayGradients 1%nat
  = Rejected "TypeError: Cannot read properties of undefined".
Proof. reflexivity. Qed.

End DepthProviderExamples.

(** ** Batch rendering ([generateResults]) *)

Section RendererProperties.
Import Canvas Async Renderer.

Variable createImageBitmap : File.t -> Completion ImageBitmap.
Variable convertSvgToBitmap : File.t -> Completion ImageBitmap.
Variable render : Scene -> Completion unit.
Variable extractBase64 : Scene -> Completion string.

Local Abbreviation renderAndCapture := (Renderer.renderAndCapture render extractBase64).
Local Abbreviation designOutcome :=
  (Renderer.designOutcome createImageBitmap convertSvgToBitmap render extractBase64).
Local Abbreviation designResult :=
  (Renderer.designResult createImageBitmap convertSvgToBitmap render extractBase64).
Local Abbreviation designResults :=
  (Renderer.designResults createImageBitmap convertSvgToBitmap render extractBase64).
Local Abbreviation processDesign' :=
  (processDesign createImageBitmap convertSvgToBitmap render extractBase64).
Local Abbreviation processDesigns' :=
  (processDesigns createImageBitmap convertSvgToBitmap render extractBase64).
Local Abbreviation generateResults' :=
  (generateResults createImageBitmap convertSvgToBitmap render extractBase64).

(** One pass of the loop body with its [catch]: it never throws, appends
    exactly the entry of the design and leaves the filter switch as it
    was. *)
Lemma design_step (i : nat) (designFile : File.t) (this : Renderer) :
  exists this',
    tryCatchA (processDesign' i designFile) (designFailed i designFile) this
      = (Resolved tt, this')
    /\ filters this' = filters this
    /\ results this' = results this ++ [designResult (filters this) i designFile].
Proof.
  unfold tryCatchA, processDesign, designFailed, Renderer.designResult,
    Renderer.designOutcome, Renderer.renderAndCapture, decodeDesign, captureFrame, appRender, tryCatchA, bindA,
    await, setDesign, push, scene, designName, failedName, bind.
  destruct (if String.prefix "image/svg" (File.type designFile)
            then convertSvgToBitmap designFile
            else createImageBitmap designFile) as [bitmap|e]; cbn.
  - destruct (render {| sceneFilters := filters this; sceneDesign := Some bitmap |})
      as [[]|e]; cbn.
    + destruct (extractBase64 {| sceneFilters := filters this; sceneDesign := Some bitmap |})
        as [img|e]; cbn; eexists; (split; [reflexivity|]); split; reflexivity.
    + eexists; (split; [reflexivity|]); split; reflexivity.
  - eexists; (split; [reflexivity|]); split; reflexivity.
Qed.



Lemma processDesigns_spec (designFiles : list File.t) :
  forall (i : nat) (this : Renderer),
  exists this',
    processDesigns' i designFiles this = (Resolved tt, this')
    /\ filters this' = filters this
    /\ results this'
       = results this ++ designResults (filters this) i designFiles.
Proof.
  induction designFiles as [|designFile rest IH]; intros i this; cbn [processDesigns Renderer.designResults].
  - exists this. rewrite app_nil_r. repeat split.
  - destruct (design_step i designFile this) as (this1 & Hstep & Hf1 & Hr1).
    destruct (IH (S i) this1) as (this2 & Hrest & Hf2 & Hr2).
    exists this2. unfold bindA at 1. rewrite Hstep, Hrest.
    split; [reflexivity|]. split; [congruence|].
    rewrite Hr2, Hr1, Hf1, <- app_assoc. reflexivity.
Qed.

(** When the unfiltered capture succeeds, [generateResults] resolves with
    the "Original Mockup" entry followed by one entry per design file,
    in input order. *)
Lemma generateResults_spec (designFiles : list File.t) (this : Renderer)
    (originalImage : string) :
  renderAndCapture (baseScene this) = Resolved originalImage ->
  fst (generateResults' designFiles this)
  = Resolved ({| name := "Original Mockup"; image := originalImage |}
              :: designResults (filters this) 0 designFiles).
Proof.
  intros Hbase. unfold Renderer.renderAndCapture, baseScene, bind in Hbase.
  destruct (render {| sceneFilters := false; sceneDesign := design this |})
    as [[]|e] eqn:Hrender; [|discriminate].
  unfold generateResults, tryCatchA at 1, bindA at 1, setResults.
  unfold bindA at 1, getFilters. unfold bindA at 1, setFilters.
  unfold bindA at 1, appRender at 1, scene. cbn [filters design results].
  rewrite Hrender.
  unfold bindA at 1, captureFrame, tryCatchA at 1, bindA at 1, appRender, scene.
  cbn [filters design results]. rewrite Hrender, Hbase.
  unfold bindA at 1, push. cbn [filters design results].
  unfold bindA at 1, setFilters. cbn [filters design results].
  unfold bindA at 1.
  destruct (processDesigns_spec designFiles 0
              {| filters := filters this; design := design this;
                 results := [] ++ [{| name := "Original Mockup"; image := originalImage |}] |})
    as (this' & Hloop & _ & Hres).
  rewrite Hloop. unfold getResults. cbn [fst]. rewrite Hres. reflexivity.
Qed.



(** C5, amended: on the empty list, when the unfiltered capture
    succeeds, [generateResults] resolves with exactly one result, named
    "Original Mockup", whose image is the frame captured first with the
    filter removed. *)
Theorem generateResults_empty (this : Renderer) (originalImage : string) :
  renderAndCapture {| sceneFilters := false; sceneDesign := design this |}
    = Resolved originalImage ->
  fst (generateResults createImageBitmap convertSvgToBitmap render extractBase64 [] this)
  = Resolved [{| name := "Original Mockup"; image := originalImage |}].
Proof. intros Hbase. apply (generateResults_spec [] this originalImage Hbase). Qed.


End RendererProperties.

Section RendererExamples.
Import Canvas Async Renderer.

(** C5, as stated, fails: the single result of the empty batch is named
    "Original Mockup", not "Original". *)
Lemma generateResults_empty_not_Original :
  fst (generateResults decodeBytes rasterise renderOk frame [] initialized)
    = Resolved [{| name := "Original Mockup"; image := "plain:white" |}]
  /\ ~ (exists image,
          fst (generateResults decodeBytes rasterise renderOk frame [] initialized)
          = Resolved [{| name := "Original"; image := image |}]).
Proof.
  split; [reflexivity|].
  intros [image H]. vm_compute in H. discriminate H.
Qed.

Lemma generateResults_empty_witness :
  fst (generateResults decodeBytes rasterise renderOk frame [] initialized)
  = Resolved [{| name := "Original Mockup"; image := "plain:white" |}].
Proof.
  apply (generateResults_empty decodeBytes rasterise renderOk frame initialized
           "plain:white").
  reflexivity.
Defined.


(** C4, on the code: with the second of three design files corrupt the
    batch returns four results, the third one the substitute entry and
    the others captures in input order; but the substitute image, which
    the source calls a "1x1 transparent PNG", decodes to one pixel of
    colour (0, 0, 255) and alpha 127, not to a transparent one. *)
Theorem failed_design_placeholder :
  fst (generateResults decodeBytes rasterise renderOk frame
         [logoPng; corruptPng; badgeSvg] initialized)
  = Resolved [ {| name := "Original Mockup"; image := "plain:white" |};
               {| name := "Design 1: logo.png"; image := "filtered:17" |};
               {| name := "Design 2: broken.png (Failed)"; image := placeholderImage |};
               {| name := "Design 3: badge.svg"; image := "filtered:60" |} ]
  /\ Png.decodeDataUrl placeholderImage
     = Some {| width := 1; height := 1; data := [0; 0; 255; 127]%Z |}.
Proof. split; vm_compute; reflexivity. Qed.

(** The decoder on other images: a fully transparent 1 x 1 PNG, and a
    3 x 5 PNG that uses the five scanline filters and back references. *)
Example decode_transparent_pixel :
  Png.decodeDataUrl "data:image/png;base64,iVBORw0KGgoAAAANSUhEUgAAAAEAAAABCAYAAAAfFcSJAAAAC0lEQVR4AWNgAAIAAAUAAU4LqGYAAAAASUVORK5CYII="
  = Some {| width := 1; height := 1; data := [0; 0; 0; 0]%Z |}.
Proof. vm_compute. reflexivity. Qed.

Example decode_filtered_rows :
  Png.decodeDataUrl "data:image/png;base64,iVBORw0KGgoAAAANSUhEUgAAAAMAAAAFCAYAAACAcVaiAAAAQUlEQVR4AWP4z8DwH4SBsIERxOAWkdP89vpRBBMTEzMrAxCcSDVqYGZkZGL68/3zu7nnXzKx/P/39w9I5tfvP38BFYMbBQ3J9XcAAAAASUVORK5CYII="
  = Some {| width := 3; height := 5;
            data := [255; 0; 0; 255;  255; 0; 0; 255;  0; 255; 0; 128;
                     255; 0; 0; 255;  10; 20; 30; 40;  0; 255; 0; 128;
                     1; 2; 3; 4;  10; 20; 30; 40;  200; 100; 50; 0;
                     1; 2; 3; 4;  1; 2; 3; 4;  1; 2; 3; 4;
                     0; 0; 0; 0;  0; 0; 0; 0;  250; 251; 252; 253]%Z |}.
Proof. vm_compute. reflexivity. Qed.

Example decode_stored_block :
  Png.decodeDataUrl "data:image/png;base64,iVBORw0KGgoAAAANSUhEUgAAAAIAAAABCAYAAAD0In+KAAAAFElEQVR4AQEJAPb/AAkIBwYFBAMCAPkALfQSQuAAAAAASUVORK5CYII="
  = Some {| width := 2; height := 1; data := [9; 8; 7; 6; 5; 4; 3; 2]%Z |}.
Proof. vm_compute. reflexivity. Qed.

End RendererExamples.

(** ** Pointer sessions ([handleMouseDown], [handleMouseMove], [handleMouseUp]) *)

Section PointerProperties.
Import Js Interaction Pointer.

Lemma Math_max_spec' (a b : Q) : a <= Math_max a b /\ b <= Math_max a b
  /\ (Math_max a b == a \/ Math_max a b == b).
Proof.
  unfold Math_max. destruct (Q.max_spec a b) as [[H1 H2]|[H1 H2]]; rewrite H2;
  (split; [lra|]); (split; [lra|]); [right|left]; reflexivity.
Qed.

Lemma Math_min_spec' (a b : Q) : Math_min a b <= a /\ Math_min a b <= b
  /\ (Math_min a b == a \/ Math_min a b == b).
Proof.
  unfold Math_min. destruct (Q.min_spec a b) as [[H1 H2]|[H1 H2]]; rewrite H2;
  (split; [lra|]); (split; [lra|]); [left|right]; reflexivity.
Qed.

Lemma handleMouseDown_placement (st : State) (c : Container) (e : MouseEvent) :
  designPosition (handleMouseDown st c e) = designPosition st
  /\ designSize (handleMouseDown st c e) = designSize st.
Proof.
  unfold handleMouseDown.
  repeat match goal with |- context [if ?b then _ else _] => destruct b end;
  split; reflexivity.
Qed.

Lemma inside_dispatch (c : Container) (st : State) (e : PointerEvent) :
  (e = DesignLoaded -> 250 <= offsetWidth c /\ 250 <= offsetHeight c) ->
  inside c st -> inside c (dispatch c st e).
Proof.
  intros Hbig (Hx & Hy & Hsw & Hsh & Hxw & Hyh).
  destruct e as [event| |event| | |]; cbn [dispatch].
  - unfold inside. destruct (handleMouseDown_placement st c event) as [-> ->].
    repeat split; assumption.
  - unfold inside; cbn. repeat split; assumption.
  - unfold handleMouseMove.
    destruct (negb (isDragging st) && negb (isResizing st));
      [unfold inside; repeat split; assumption|].
    destruct (isDragging st).
    + unfold inside; cbn [designPosition designSize x y width height].
      set (px := clientX event - left c - x (dragOffset st)).
      set (py := clientY event - top c - y (dragOffset st)).
      destruct (Math_min_spec' px (offsetWidth c - width (designSize st)))
        as (_ & Hm2 & _).
      destruct (Math_min_spec' py (offsetHeight c - height (designSize st)))
        as (_ & Hn2 & _).
      destruct (Math_max_spec' 0 (Math_min px (offsetWidth c - width (designSize st))))
        as (Hm3 & _ & [Hm4|Hm4]);
      destruct (Math_max_spec' 0 (Math_min py (offsetHeight c - height (designSize st))))
        as (Hn3 & _ & [Hn4|Hn4]);
      repeat split; try assumption; rewrite ?Hm4, ?Hn4; lra.
    + destruct (isResizing st); [|unfold inside; repeat split; assumption].
      unfold inside; cbn [designPosition designSize x y width height].
      set (px := clientX event - left c - x (designPosition st)).
      set (py := clientY event - top c - y (designPosition st)).
      destruct (Math_max_spec' 50 px) as (Hm1 & _ & _).
      destruct (Math_max_spec' 50 py) as (Hn1 & _ & _).
      destruct (Math_min_spec' (Math_max 50 px) (offsetWidth c - x (designPosition st)))
        as (_ & Hm2 & [Hm3|Hm3]);
      destruct (Math_min_spec' (Math_max 50 py) (offsetHeight c - y (designPosition st)))
        as (_ & Hn2 & [Hn3|Hn3]);
      repeat split; try assumption; rewrite ?Hm3, ?Hn3; lra.
  - unfold inside; cbn. repeat split; assumption.
  - unfold inside; cbn. repeat split; assumption.
  - destruct (Hbig eq_refl) as [Hw Hh].
    unfold inside; cbn. repeat split; lra.
Qed.

(** Whatever the pointer does, a placement that lies inside the
    container with sides of at least 50 stays so; loading a design, which
    resets the placement to 200 x 200 at (50, 50), keeps it so in a
    container of at least 250 x 250. *)
Theorem placement_stays_inside (c : Container) (events : list PointerEvent)
    (st : State) :
  (In DesignLoaded events -> 250 <= offsetWidth c /\ 250 <= offsetHeight c) ->
  inside c st -> inside c (run c st events).
Proof.
  revert st. unfold run.
  induction events as [|e events IH]; intros st Hbig Hin; cbn [fold_left].
  - exact Hin.
  - apply IH.
    + intros H. apply Hbig. right. exact H.
    + apply inside_dispatch; [|exact Hin].
      intros ->. apply Hbig. left. reflexivity.
Qed.

Lemma placement_stays_inside_witness :
  inside largeContainer (run largeContainer initialState session).
Proof.
  apply (placement_stays_inside largeContainer session initialState).
  - intros _. cbn. split; lra.
  - unfold inside; cbn. repeat split; lra.
Defined.

(** A drag follows the pointer: after a press that starts a drag, a move
    puts the origin where it was plus the pointer's displacement,
    clamped to the container; the container's own position on the page
    plays no part, and the size is not touched. *)
Theorem drag_follows_pointer (c : Container) (st : State)
    (press move : MouseEvent) :
  mode st = Idle ->
  mode (handleMouseDown st c press) = Dragging ->
  let st' := handleMouseMove (handleMouseDown st c press) c move in
  let dx := clientX move - clientX press in
  let dy := clientY move - clientY press in
  x (designPosition st')
    == Math_max 0 (Math_min (x (designPosition st) + dx)
                            (offsetWidth c - width (designSize st)))
  /\ y (designPosition st')
    == Math_max 0 (Math_min (y (designPosition st) + dy)
                            (offsetHeight c - height (designSize st)))
  /\ designSize st' = designSize st
  /\ (0 <= x (designPosition st) + dx <= offsetWidth c - width (designSize st) ->
      x (designPosition st') == x (designPosition st) + dx)
  /\ (0 <= y (designPosition st) + dy <= offsetHeight c - height (designSize st) ->
      y (designPosition st') == y (designPosition st) + dy).
Proof.
  intros Hidle Hdrag st' dx dy.
  unfold mode in Hidle.
  destruct (isDragging st) eqn:Hd; [discriminate|].
  destruct (isResizing st) eqn:Hr; [discriminate|].
  subst st'. unfold handleMouseDown in *.
  destruct (inRange _ _ _ && inRange _ _ _).
  { unfold mode in Hdrag. cbn in Hdrag. rewrite Hd in Hdrag. discriminate. }
  destruct (inRange _ _ _ && inRange _ _ _).
  2:{ unfold mode in Hdrag. rewrite Hd, Hr in Hdrag. discriminate. }
  unfold handleMouseMove.
  cbn [isDragging isResizing designPosition designSize dragOffset x y negb andb].
  assert (Hx : clientX move - left c - (clientX press - left c - x (designPosition st))
               == x (designPosition st) + dx) by (unfold dx; ring).
  assert (Hy : clientY move - top c - (clientY press - top c - y (designPosition st))
               == y (designPosition st) + dy) by (unfold dy; ring).
  unfold Math_max, Math_min. rewrite Hx, Hy.
  split; [reflexivity|]. split; [reflexivity|]. split; [reflexivity|].
  split.
  - intros [H0 H1]. rewrite (Q.min_l _ _ H1). apply Q.max_r. exact H0.
  - intros [H0 H1]. rewrite (Q.min_l _ _ H1). apply Q.max_r. exact H0.
Qed.

Lemma drag_follows_pointer_witness :
  x (designPosition
       (handleMouseMove (handleMouseDown initialState largeContainer
                           {| clientX := 100; clientY := 100 |})
          largeContainer {| clientX := 130; clientY := 90 |})) == 50 + (130 - 100).
Proof.
  destruct (drag_follows_pointer largeContainer initialState
              {| clientX := 100; clientY := 100 |} {| clientX := 130; clientY := 90 |}
              eq_refl eq_refl) as (_ & _ & _ & Hx & _).
  apply Hx. cbn. split; lra.
Defined.

(** Once the button is released (or the pointer has left the container),
    moves are ignored: the placement no longer follows the pointer. *)
Theorem moves_after_release_ignored (c : Container) (st : State)
    (moves : list MouseEvent) :
  run c (handleMouseUp st) (map MouseMove moves) = handleMouseUp st.
Proof.
  unfold run. induction moves as [|m moves IH]; [reflexivity|].
  cbn [map fold_left dispatch].
  replace (handleMouseMove (handleMouseUp st) c m) with (handleMouseUp st)
    by reflexivity.
  exact IH.
Qed.

End PointerProperties.

(** ** Container, overlay and sprite geometry *)

Section LayoutProperties.
Import Js Layout.





Lemma Qdiv_lt_cross (a b c d : Q) :
  0 < b -> 0 < d -> (a / b < c / d <-> a * d < c * b).
Proof.
  intros Hb Hd.
  assert (E1 : a / b == a * d / (b * d)) by (field; split; lra).
  assert (E2 : c / d == c * b / (b * d)) by (field; split; lra).
  assert (Hbd : 0 < b * d) by nra.
  rewrite E1, E2. split; intros H.
  - apply (Qmult_lt_r _ _ (/ (b * d))); [apply Qinv_lt_0_compat; exact Hbd|exact H].
  - apply (Qmult_lt_r _ _ (/ (b * d))) in H; [exact H|apply Qinv_lt_0_compat; exact Hbd].
Qed.





(** A tall mock-up is shrunk to the height limit; a very elongated one
    gets a container without width. *)
Example containerDimensions_tall :
  containerDimensions (Some tallMockup) = {| width := 200; height := 600 |}
  /\ containerDimensions (Some {| width := 1; height := 10000 |})
     = {| width := 0; height := 600 |}.
Proof. split; reflexivity. Qed.

(** The fitted rectangle, for a canvas and an image that have a size:
    it lies inside the canvas, has the image's aspect ratio, is centred,
    and spans the canvas on one axis at least. *)
Theorem fitRect_letterbox (canvasWidth canvasHeight imageWidth imageHeight : Q) :
  0 < canvasWidth -> 0 < canvasHeight -> 0 < imageWidth -> 0 < imageHeight ->
  let rect := fitRect canvasWidth canvasHeight imageWidth imageHeight in
  (0 <= drawX rect /\ 0 <= drawY rect
   /\ 0 < drawWidth rect /\ 0 < drawHeight rect
   /\ drawX rect + drawWidth rect <= canvasWidth
   /\ drawY rect + drawHeight rect <= canvasHeight)
  /\ drawWidth rect * imageHeight == drawHeight rect * imageWidth
  /\ (drawX rect == canvasWidth - (drawX rect + drawWidth rect)
      /\ drawY rect == canvasHeight - (drawY rect + drawHeight rect))
  /\ ((drawWidth rect == canvasWidth /\ drawX rect == 0)
      \/ (drawHeight rect == canvasHeight /\ drawY rect == 0)).
Proof.
  intros Hcw Hch Hiw Hih. unfold fitRect. cbn zeta.
  destruct (Qlt_le_dec (canvasWidth / canvasHeight) (imageWidth / imageHeight))
    as [Hwide|Htall]; cbn [drawX drawY drawWidth drawHeight].
  - apply (Qdiv_lt_cross _ _ _ _ Hch Hih) in Hwide.
    assert (E : canvasWidth / (imageWidth / imageHeight)
                == canvasWidth * imageHeight / imageWidth) by (field; split; lra).
    assert (Eh : canvasWidth * imageHeight / imageWidth * imageWidth
                 == canvasWidth * imageHeight) by (field; lra).
    set (dh := canvasWidth / (imageWidth / imageHeight)) in *.
    assert (Hdh : 0 < dh /\ dh < canvasHeight).
    { rewrite E. split.
      - apply Qlt_shift_div_l; [assumption|]. nra.
      - apply Qlt_shift_div_r; [assumption|]. lra. }
    assert (E2 : (canvasHeight - dh) / 2 == (canvasHeight - dh) * (1 # 2)) by field.
    rewrite E2.
    split; [repeat split; lra|].
    split; [rewrite E, Eh; reflexivity|].
    split; [split; lra|]. left. split; reflexivity.
  - assert (Hle : imageWidth * canvasHeight <= canvasWidth * imageHeight).
    { destruct (Qlt_le_dec (canvasWidth * imageHeight) (imageWidth * canvasHeight))
        as [Hc|Hc]; [|exact Hc].
      apply (Qdiv_lt_cross _ _ _ _ Hch Hih) in Hc. lra. }
    assert (E : canvasHeight * (imageWidth / imageHeight)
                == canvasHeight * imageWidth / imageHeight) by (field; lra).
    assert (Eh : canvasHeight * imageWidth / imageHeight * imageHeight
                 == canvasHeight * imageWidth) by (field; lra).
    set (dw := canvasHeight * (imageWidth / imageHeight)) in *.
    assert (Hdw : 0 < dw /\ dw <= canvasWidth).
    { rewrite E. split.
      - apply Qlt_shift_div_l; [assumption|]. nra.
      - apply Qle_shift_div_r; [assumption|]. lra. }
    assert (E2 : (canvasWidth - dw) / 2 == (canvasWidth - dw) * (1 # 2)) by field.
    rewrite E2.
    split; [repeat split; lra|].
    split; [rewrite E, Eh; ring|].
    split; [split; lra|]. right. split; reflexivity.
Qed.

Lemma fitRect_letterbox_witness :
  drawWidth (fitRect 800 600 1600 900) * 900
  == drawHeight (fitRect 800 600 1600 900) * 1600.
Proof.
  destruct (fitRect_letterbox 800 600 1600 900) as (_ & Haspect & _);
    [reflexivity | reflexivity | reflexivity | reflexivity | exact Haspect].
Defined.

(** [initialize] places the sprite exactly where the overlay draws an
    image of the same size: scaled by one factor to fit the canvas and
    centred; when the canvas has the texture's size, both branches cover
    the canvas. *)
Theorem placeSprite_fits (canvasWidth canvasHeight spriteWidth spriteHeight : Q) :
  0 < canvasWidth -> 0 < canvasHeight -> 0 < spriteWidth -> 0 < spriteHeight ->
  sameRect (spriteBounds (placeSprite canvasWidth canvasHeight spriteWidth spriteHeight)
                         spriteWidth spriteHeight)
           (fitRect canvasWidth canvasHeight spriteWidth spriteHeight).
Proof.
  intros Hcw Hch Hsw Hsh. unfold placeSprite, fitRect, sameRect, spriteBounds. cbn zeta.
  destruct (Qeq_bool canvasWidth spriteWidth && Qeq_bool canvasHeight spriteHeight)
    eqn:Heq.
  - apply andb_true_iff in Heq. destruct Heq as [Ew Eh].
    apply Qeq_bool_iff in Ew, Eh.
    destruct (Qlt_le_dec (canvasWidth / canvasHeight) (spriteWidth / spriteHeight))
      as [Hwide|Htall]; cbn [drawX drawY drawWidth drawHeight scale anchor positionX positionY].
    + apply (Qdiv_lt_cross _ _ _ _ Hch Hsh) in Hwide. rewrite Ew, Eh in Hwide. lra.
    + rewrite Ew, Eh. repeat split; field; lra.
  - clear Heq.
    destruct (Qlt_le_dec (canvasWidth / canvasHeight) (spriteWidth / spriteHeight))
      as [Hwide|Htall]; cbn [drawX drawY drawWidth drawHeight scale anchor positionX positionY].
    + apply (Qdiv_lt_cross _ _ _ _ Hch Hsh) in Hwide.
      assert (Hmin : Math_min (canvasWidth / spriteWidth) (canvasHeight / spriteHeight)
                     == canvasWidth / spriteWidth).
      { unfold Math_min. apply Q.min_l. apply Qlt_le_weak.
        apply (Qdiv_lt_cross _ _ _ _ Hsw Hsh). lra. }
      rewrite Hmin. repeat split; field; lra.
    + assert (Hle : spriteWidth * canvasHeight <= canvasWidth * spriteHeight).
      { destruct (Qlt_le_dec (canvasWidth * spriteHeight) (spriteWidth * canvasHeight))
          as [Hc|Hc]; [|exact Hc].
        apply (Qdiv_lt_cross _ _ _ _ Hch Hsh) in Hc. lra. }
      assert (Hmin : Math_min (canvasWidth / spriteWidth) (canvasHeight / spriteHeight)
                     == canvasHeight / spriteHeight).
      { unfold Math_min. apply Q.min_r.
        destruct (Qlt_le_dec (canvasWidth / spriteWidth) (canvasHeight / spriteHeight))
          as [Hc|Hc]; [|exact Hc].
        apply (Qdiv_lt_cross _ _ _ _ Hsw Hsh) in Hc. lra. }
      rewrite Hmin. repeat split; field; lra.
Qed.

Lemma placeSprite_fits_witness :
  sameRect (spriteBounds (placeSprite 512 512 1600 900) 1600 900)
           (fitRect 512 512 1600 900).
Proof. apply (placeSprite_fits 512 512 1600 900); reflexivity. Defined.






End LayoutProperties.

(** ** What the shader can do to a pixel *)

Section ShaderBounds.
Import Shader.

Lemma clamp_id (v : Q) : 0 <= v <= 1 -> clamp v 0 1 == v.
Proof.
  intros [H0 H1]. unfold clamp. rewrite (Q.max_l _ _ H0). apply Q.min_l. exact H1.
Qed.

(** The design can only darken the sprite, and by no more than four
    fifths: for a base colour that is not negative, a design colour in
    [[0,1]] and a design alpha of at most 1, the composite lies between
    a fifth of the base colour and the base colour. *)
Theorem design_only_darkens (u : Uniforms) (vUV : vec2) (c : Channel) :
  let B := channel c (rgb (texture2D (uSampler u) vUV)) in
  let design := texture2D (uDesign u) (warp u vUV) in
  0 <= B -> 0 <= channel c (rgb design) <= 1 -> a design <= 1 ->
  0.2 * B <= channel c (blended u vUV) <= B.
Proof.
  intros B design HB [Hd0 Hd1] Ha. unfold blended. fold design.
  destruct (Qlt_le_dec 0.1 (a design)) as [Hgt|Hle].
  - unfold mix3, mul3. rewrite !channel_zip3. fold B. unfold mix.
    set (d := channel c (rgb design)) in *. set (t := a design) in *.
    assert (E : B * (1 - t * 0.8) + B * d * (t * 0.8)
                == B - 0.8 * (B * (t * (1 - d)))) by ring.
    rewrite E.
    assert (P1 : 0 <= t * (1 - d)) by (apply Qmult_le_0_compat; lra).
    assert (P2 : t * (1 - d) <= 1).
    { assert (P : 0 <= (1 - t) * (1 - d)) by (apply Qmult_le_0_compat; lra).
      assert (Q1 : 0 <= t * d) by (apply Qmult_le_0_compat; lra).
      nra. }
    set (k := t * (1 - d)) in *.
    assert (P3 : 0 <= B * k) by (apply Qmult_le_0_compat; lra).
    assert (P4 : 0 <= B * (1 - k)) by (apply Qmult_le_0_compat; lra).
    split; nra.
  - fold B. split; lra.
Qed.

Lemma design_only_darkens_witness :
  0.2 * 0.9 <= channel Red (blended blueDesign centre) <= 0.9.
Proof.
  apply (design_only_darkens blueDesign centre Red); cbn; try split; lra.
Defined.

(** The design is sampled close to the fragment: for a depth in
    [[0,1]] and a fragment inside the texture, no further than a tenth
    of the strength away on either axis (0.01 at the default strength
    0.1), whatever the clamp does. *)
Theorem warp_stays_close (u : Uniforms) (vUV : vec2) :
  0 <= r (rgb (texture2D (uDisp u) vUV)) <= 1 ->
  0 <= vx vUV <= 1 -> 0 <= vy vUV <= 1 ->
  Qabs (vx (warp u vUV) - vx vUV) <= 0.1 * Qabs (uStrength u)
  /\ Qabs (vy (warp u vUV) - vy vUV) <= 0.1 * Qabs (uStrength u).
Proof.
  intros [HD0 HD1] Hx Hy. unfold warp, clamp2, offset2. cbn [vx vy].
  set (D := r (rgb (texture2D (uDisp u) vUV))) in *.
  set (k := (D - 0.5) * uStrength u * 0.2).
  assert (Hk : Qabs k <= 0.1 * Qabs (uStrength u)).
  { unfold k.
    assert (E : (D - 0.5) * uStrength u * 0.2 == (0.2 * (D - 0.5)) * uStrength u) by ring.
    rewrite E, Qabs_Qmult.
    apply Qmult_le_compat_r; [|apply Qabs_nonneg].
    apply Qabs_Qle_condition. split; lra. }
  apply Qabs_Qle_condition in Hk. destruct Hk as [Hk0 Hk1].
  assert (Hclamp : forall v, 0 <= v <= 1 ->
            Qabs (clamp (v + k) 0 1 - v) <= 0.1 * Qabs (uStrength u)).
  { intros v [Hv0 Hv1]. unfold clamp. apply Qabs_Qle_condition.
    destruct (Q.max_spec (v + k) 0) as [[M1 M2]|[M1 M2]];
    destruct (Q.min_spec (Qmax (v + k) 0) 1) as [[N1 N2]|[N1 N2]];
    rewrite N2; rewrite ?M2 in *; split; lra. }
  split; apply Hclamp; assumption.
Qed.

Lemma warp_stays_close_witness :
  Qabs (vx (warp afterInitialize centre) - 0.5) <= 0.1 * Qabs 0.1.
Proof.
  destruct (warp_stays_close afterInitialize centre) as [Hx _];
    [cbn; split; lra | cbn; split; lra | cbn; split; lra | exact Hx].
Defined.

(** With no displacement strength, the white opaque design and a base
    colour in [[0,1]], the filter changes the sprite by the lighting
    terms only; where both masks are 0 (or both powers are) it returns
    the sprite's colour. *)
Theorem white_design_keeps_base (u : Uniforms) (vUV : vec2) (c : Channel) :
  let B := channel c (rgb (texture2D (uSampler u) vUV)) in
  let shadow := r (rgb (texture2D (uShadow u) vUV)) in
  let highlight := r (rgb (texture2D (uHighlight u) vUV)) in
  uStrength u == 0 ->
  0 <= vx vUV <= 1 -> 0 <= vy vUV <= 1 ->
  texture2D (uDesign u) (warp u vUV)
    = {| rgb := {| r := 1; g := 1; b := 1 |}; a := 1 |} ->
  0 <= B <= 1 ->
  channel c (rgb (main u vUV))
    == clamp (B * (1 - shadow * uShadowPower u * 0.6)
              + highlight * uHighlightPower u * 0.4) 0 1
  /\ (shadow * uShadowPower u == 0 -> highlight * uHighlightPower u == 0 ->
      channel c (rgb (main u vUV)) == B).
Proof.
  intros B shadow highlight Hs Hx Hy Hwhite HB.
  destruct (no_warp_white_design u vUV c Hs Hx Hy Hwhite) as (_ & _ & Hblend).
  fold B in Hblend.
  assert (Hout : channel c (rgb (main u vUV)) =
            clamp (channel c (blended u vUV) * (1 - shadow * uShadowPower u * 0.6)
                   + highlight * uHighlightPower u * 0.4) 0 1).
  { unfold main. cbn [rgb]. unfold clamp3, offset3, scale3.
    rewrite !channel_map3. reflexivity. }
  assert (Hclamp : forall v w, v == w -> clamp v 0 1 == clamp w 0 1).
  { intros v w E. unfold clamp. rewrite E. reflexivity. }
  split.
  - rewrite Hout. apply Hclamp. rewrite Hblend. reflexivity.
  - intros Hsh Hhl. rewrite Hout.
    transitivity (clamp B 0 1); [|apply clamp_id; exact HB].
    apply Hclamp. rewrite Hblend.
    assert (E1 : shadow * uShadowPower u * 0.6 == 0) by (rewrite Hsh; ring).
    assert (E2 : highlight * uHighlightPower u * 0.4 == 0) by (rewrite Hhl; ring).
    rewrite E1, E2. ring.
Qed.

Lemma white_design_keeps_base_witness :
  channel Green (rgb (main whiteNoWarp centre)) == 0.5.
Proof.
  destruct (white_design_keeps_base whiteNoWarp centre Green) as [_ Hsame];
    [reflexivity | cbn; split; lra | cbn; split; lra | reflexivity | cbn; split; lra |].
  apply Hsame; reflexivity.
Defined.

(** With the powers [initialize] sets (0.3 and 0.2) and lighting masks
    at no more than half intensity (samples of at most 128/255, as
    [buildLightingMasksSimple] writes them), the lighting changes a
    composite in [[0,1]] only a little: it comes out no more than 9.04 %
    darker and no more than 0.0402 brighter. *)
Theorem lighting_changes_little (u : Uniforms) (vUV : vec2) (c : Channel) :
  let composite := channel c (blended u vUV) in
  let shadow := r (rgb (texture2D (uShadow u) vUV)) in
  let highlight := r (rgb (texture2D (uHighlight u) vUV)) in
  uShadowPower u == 0.3 -> uHighlightPower u == 0.2 ->
  0 <= shadow <= 128 # 255 -> 0 <= highlight <= 128 # 255 ->
  0 <= composite <= 1 ->
  composite * (1 - 0.0904) <= channel c (rgb (main u vUV)) <= composite + 0.0402.
Proof.
  intros composite shadow highlight Hsp Hhp [Hs0 Hs1] [Hh0 Hh1] [Hc0 Hc1].
  assert (Hout : channel c (rgb (main u vUV)) =
            clamp (composite * (1 - shadow * uShadowPower u * 0.6)
                   + highlight * uHighlightPower u * 0.4) 0 1).
  { unfold main. cbn [rgb]. unfold clamp3, offset3, scale3.
    rewrite !channel_map3. reflexivity. }
  rewrite Hout. clear Hout.
  set (v := composite * (1 - shadow * uShadowPower u * 0.6)
            + highlight * uHighlightPower u * 0.4).
  assert (Ev : v == composite - 0.18 * (composite * shadow) + 0.08 * highlight).
  { unfold v. rewrite Hsp, Hhp. ring. }
  assert (P1 : 0 <= composite * shadow) by (apply Qmult_le_0_compat; assumption).
  assert (P2 : composite * shadow <= composite * (128 # 255)).
  { rewrite (Qmult_comm composite shadow), (Qmult_comm composite (128 # 255)).
    apply Qmult_le_compat_r; assumption. }
  assert (Hlo : composite * (1 - 0.0904) <= v) by (rewrite Ev; lra).
  assert (Hhi : v <= composite + 0.0402) by (rewrite Ev; lra).
  unfold clamp.
  destruct (Q.max_spec v 0) as [[M1 M2]|[M1 M2]];
  destruct (Q.min_spec (Qmax v 0) 1) as [[N1 N2]|[N1 N2]];
  rewrite N2; rewrite ?M2 in *; split; lra.
Qed.

Lemma lighting_changes_little_witness :
  0.5 * (1 - 0.0904) <= channel Green (rgb (main afterInitialize centre)) <= 0.5 + 0.0402.
Proof.
  apply (lighting_changes_little afterInitialize centre Green);
    [reflexivity | reflexivity | | |]; split; apply Qle_bool_iff; reflexivity.
Defined.

End ShaderBounds.

(** ** The normalisation as a map on gray levels *)

Section NormalisationProperties.
Import Js Canvas DepthMap.

(** The store conversion is within a half of the number stored. *)
Lemma roundHalfEven_near (v : Q) :
  v - 0.5 <= inject_Z (roundHalfEven v) <= v + 0.5.
Proof.
  unfold roundHalfEven.
  pose proof (Qfloor_le v) as H1. pose proof (Qlt_floor v) as H2.
  rewrite inject_Z_plus in H2. change (inject_Z 1) with 1 in H2.
  destruct (Qcompare (v - inject_Z (Qfloor v)) (1 # 2)) eqn:Hc.
  - apply Qeq_alt in Hc. destruct (Z.even (Qfloor v)).
    + split; lra.
    + rewrite inject_Z_plus. change (inject_Z 1) with 1. split; lra.
  - apply Qlt_alt in Hc. split; lra.
  - apply Qgt_alt in Hc. rewrite inject_Z_plus. change (inject_Z 1) with 1. split; lra.
Qed.

Lemma toUint8Clamped_near (v : Q) :
  0 <= v <= 255 -> v - 0.5 <= inject_Z (toUint8Clamped v) <= v + 0.5.
Proof.
  intros [H0 H1]. pose proof (roundHalfEven_near v) as [Hlo Hhi].
  assert (Hz : (0 <= roundHalfEven v <= 255)%Z).
  { split.
    - assert (H : inject_Z (-1) < inject_Z (roundHalfEven v)).
      { change (inject_Z (-1)) with (-1). lra. }
      rewrite <- Zlt_Qlt in H. lia.
    - assert (H : inject_Z (roundHalfEven v) < inject_Z 256).
      { change (inject_Z 256) with 256. lra. }
      rewrite <- Zlt_Qlt in H. lia. }
  unfold toUint8Clamped. rewrite Z.min_r by lia. rewrite Z.max_r by lia.
  split; assumption.
Qed.

(** A byte is stored as itself. *)
Lemma toUint8Clamped_inject_Z (d : Z) : isByte d -> toUint8Clamped (inject_Z d) = d.
Proof.
  intros [H0 H1]. unfold toUint8Clamped, roundHalfEven.
  rewrite Qfloor_Z.
  assert (Hc : Qcompare (inject_Z d - inject_Z d) (1 # 2) = Lt).
  { apply -> Qlt_alt. lra. }
  rewrite Hc. lia.
Qed.

Lemma index_mod4 (j : nat) :
  exists p c, j = (4 * p + c)%nat /\ (c < 4)%nat.
Proof.
  exists (j / 4)%nat, (j mod 4)%nat. split.
  - apply Nat.div_mod_eq.
  - apply Nat.mod_upper_bound. lia.
Qed.

Lemma normalize_bytes (raw : list Z) :
  Forall isByte raw -> Forall isByte (normalize raw).
Proof.
  intros Hbytes. destruct raw as [|d0 rest] eqn:Eraw; [constructor|]. rewrite <- Eraw in *.
  assert (Hne : raw <> []) by (rewrite Eraw; discriminate).
  destruct (normalize_spec raw Hbytes Hne)
    as (Hlen & mn & mx & [p0 Hp0] & _ & Hbnd & Hlt & Heq).
  destruct (Z.eq_dec mn mx) as [E|E]; [rewrite (Heq E); exact Hbytes|].
  assert (Hlt' : (mn < mx)%Z).
  { pose proof (Hbnd p0 mn Hp0). lia. }
  destruct (Hlt Hlt') as (Hrgb & Halpha & _).
  apply Forall_lookup. intros j v Hj.
  destruct (index_mod4 j) as (p & c & -> & Hc).
  assert (Hjlt : (4 * p + c < length raw)%nat).
  { rewrite <- Hlen. eapply lookup_lt_Some. exact Hj. }
  destruct (decide (c = 3%nat)) as [->|Hc3].
  - rewrite Halpha in Hj. eapply (proj1 (Forall_lookup _ _) Hbytes). exact Hj.
  - destruct (lookup_lt_is_Some_2 raw (4 * p)%nat ltac:(lia)) as [d Hd].
    rewrite (Hrgb p d c Hd ltac:(lia) Hjlt) in Hj. inversion Hj.
    apply toUint8Clamped_isByte.
Qed.

(** Normalising a second time changes nothing: the first pass has
    stretched the gray channel to the whole range 0..255 and made the
    three colour bytes of every pixel equal. *)
Theorem normalize_idempotent (raw : list Z) :
  Forall isByte raw -> normalize (normalize raw) = normalize raw.
Proof.
  intros Hbytes. destruct raw as [|d0 rest] eqn:Eraw; [reflexivity|]. rewrite <- Eraw in *.
  assert (Hne : raw <> []) by (rewrite Eraw; discriminate).
  destruct (normalize_spec raw Hbytes Hne)
    as (Hlen & mn & mx & [p0 Hp0] & _ & Hbnd & Hlt & Heq).
  destruct (Z.eq_dec mn mx) as [E|E]; [rewrite !(Heq E); reflexivity|].
  assert (Hlt' : (mn < mx)%Z).
  { pose proof (Hbnd p0 mn Hp0). lia. }
  destruct (Hlt Hlt') as (Hrgb & Halpha & _ & _ & (q0 & q1 & Hq0 & Hq1)).
  set (out := normalize raw) in *.
  pose proof (normalize_bytes raw Hbytes) as Hob. fold out in Hob.
  assert (Hone : out <> []).
  { intros E0. rewrite E0 in Hlen. destruct raw; [contradiction|discriminate]. }
  destruct (normalize_spec out Hob Hone)
    as (Hlen2 & mn2 & mx2 & [r0 Hr0] & [r1 Hr1] & Hbnd2 & Hlt2 & _).
  assert (Hmn2 : mn2 = 0%Z).
  { pose proof (Hbnd2 q0 0%Z Hq0).
    pose proof (proj1 (Forall_lookup _ _) Hob _ _ Hr0) as [? ?]. lia. }
  assert (Hmx2 : mx2 = 255%Z).
  { pose proof (Hbnd2 q1 255%Z Hq1).
    pose proof (proj1 (Forall_lookup _ _) Hob _ _ Hr1) as [? ?]. lia. }
  subst mn2 mx2.
  destruct (Hlt2 ltac:(lia)) as (Hrgb2 & Halpha2 & _).
  apply list_eq. intros j.
  destruct (decide (j < length out)%nat) as [Hj|Hj].
  2:{ rewrite (lookup_ge_None_2 out j) by lia.
      apply lookup_ge_None_2. lia. }
  destruct (index_mod4 j) as (p & c & -> & Hc).
  destruct (decide (c = 3%nat)) as [->|Hc3]; [apply Halpha2|].
  destruct (lookup_lt_is_Some_2 raw (4 * p)%nat ltac:(lia)) as [d Hd].
  set (v := toUint8Clamped (inject_Z (d - mn) / inject_Z (mx - mn) * 255)).
  assert (Hv0 : out !! (4 * p)%nat = Some v).
  { replace (4 * p)%nat with (4 * p + 0)%nat by lia.
    apply (Hrgb p d 0%nat); [exact Hd | lia | lia]. }
  assert (Hvc : out !! (4 * p + c)%nat = Some v).
  { apply (Hrgb p d c); [exact Hd | lia | lia]. }
  rewrite (Hrgb2 p v c Hv0 ltac:(lia) Hj), Hvc. f_equal.
  rewrite <- (toUint8Clamped_inject_Z v) at 2 by apply toUint8Clamped_isByte.
  apply toUint8Clamped_comp.
  rewrite Z.sub_0_r. change (inject_Z (255 - 0)) with 255. field.
Qed.

Lemma normalize_idempotent_witness :
  normalize (normalize (data twoPixels)) = normalize (data twoPixels).
Proof.
  apply (normalize_idempotent (data twoPixels)).
  unfold twoPixels, isByte. cbn [data]. repeat constructor; lia.
Defined.

(** The normalisation keeps the order of the gray levels and never
    merges two of them: a pixel darker than another one stays strictly
    darker. *)
Theorem normalize_keeps_order (raw : list Z) (p q : nat) (d1 d2 : Z) :
  Forall isByte raw ->
  raw !! (4 * p)%nat = Some d1 -> raw !! (4 * q)%nat = Some d2 ->
  (d1 < d2)%Z ->
  exists v1 v2,
    normalize raw !! (4 * p)%nat = Some v1
    /\ normalize raw !! (4 * q)%nat = Some v2
    /\ (v1 < v2)%Z.
Proof.
  intros Hbytes Hp Hq Hd.
  assert (Hne : raw <> []) by (intros E; rewrite E in Hp; discriminate).
  destruct (normalize_spec raw Hbytes Hne)
    as (Hlen & mn & mx & [p0 Hp0] & [p1 Hp1] & Hbnd & Hlt & _).
  pose proof (Hbnd p d1 Hp) as B1. pose proof (Hbnd q d2 Hq) as B2.
  pose proof (proj1 (Forall_lookup _ _) Hbytes _ _ Hp0) as [Bmn _].
  pose proof (proj1 (Forall_lookup _ _) Hbytes _ _ Hp1) as [_ Bmx].
  destruct (Hlt ltac:(lia)) as (Hrgb & _).
  eexists. eexists.
  split.
  { replace (4 * p)%nat with (4 * p + 0)%nat at 1 by lia.
    apply (Hrgb p d1 0%nat Hp); [lia|]. apply lookup_lt_Some in Hp. lia. }
  split.
  { replace (4 * q)%nat with (4 * q + 0)%nat at 1 by lia.
    apply (Hrgb q d2 0%nat Hq); [lia|]. apply lookup_lt_Some in Hq. lia. }
  set (R := inject_Z (mx - mn)).
  assert (HR : 0 < R /\ R <= 255).
  { unfold R. split.
    - change 0 with (inject_Z 0). rewrite <- Zlt_Qlt. lia.
    - change 255 with (inject_Z 255). rewrite <- Zle_Qle. lia. }
  set (x1 := inject_Z (d1 - mn) / R * 255).
  set (x2 := inject_Z (d2 - mn) / R * 255).
  assert (Hk1 : 0 <= inject_Z (d1 - mn) <= R).
  { unfold R. split.
    - change 0 with (inject_Z 0). rewrite <- Zle_Qle. lia.
    - rewrite <- Zle_Qle. lia. }
  assert (Hk2 : 0 <= inject_Z (d2 - mn) <= R).
  { unfold R. split.
    - change 0 with (inject_Z 0). rewrite <- Zle_Qle. lia.
    - rewrite <- Zle_Qle. lia. }
  assert (Hk12 : inject_Z (d1 - mn) + 1 <= inject_Z (d2 - mn)).
  { change 1 with (inject_Z 1). rewrite <- inject_Z_plus, <- Zle_Qle. lia. }
  set (k1 := inject_Z (d1 - mn)) in *. set (k2 := inject_Z (d2 - mn)) in *.
  assert (E1 : x1 * R == k1 * 255) by (unfold x1; field; lra).
  assert (E2 : x2 * R == k2 * 255) by (unfold x2; field; lra).
  assert (Hx1 : 0 <= x1 <= 255).
  { unfold x1. split.
    - apply Qmult_le_0_compat; [apply Qle_shift_div_l; lra|lra].
    - assert (H : k1 / R <= 1) by (apply Qle_shift_div_r; lra). lra. }
  assert (Hx2 : 0 <= x2 <= 255).
  { unfold x2. split.
    - apply Qmult_le_0_compat; [apply Qle_shift_div_l; lra|lra].
    - assert (H : k2 / R <= 1) by (apply Qle_shift_div_r; lra). lra. }
  pose proof (toUint8Clamped_near x1 Hx1) as [_ N1].
  pose proof (toUint8Clamped_near x2 Hx2) as [N2 _].
  destruct (Z_lt_le_dec (toUint8Clamped x1) (toUint8Clamped x2)) as [Hok|Hbad];
    [exact Hok|exfalso].
  assert (Hq' : inject_Z (toUint8Clamped x2) <= inject_Z (toUint8Clamped x1))
    by (rewrite <- Zle_Qle; exact Hbad).
  assert (Hdiff : x2 - x1 <= 1) by lra.
  assert (Hprod : (x2 - x1) * R <= R).
  { assert (P : 0 <= (1 - (x2 - x1)) * R) by (apply Qmult_le_0_compat; lra). nra. }
  assert (Hrange : (k2 - k1) * 255 <= R) by nra.
  (* so the range is 255 and the two levels are neighbours *)
  assert (HR255 : R == 255) by nra.
  assert (Ex1 : x1 == k1) by (unfold x1; rewrite HR255; field).
  assert (Ex2 : x2 == k2) by (unfold x2; rewrite HR255; field).
  assert (B1' : isByte (d1 - mn)) by (unfold isByte; lia).
  assert (B2' : isByte (d2 - mn)) by (unfold isByte; lia).
  rewrite (toUint8Clamped_comp _ _ Ex1), (toUint8Clamped_comp _ _ Ex2) in Hbad.
  unfold k1, k2 in Hbad.
  rewrite (toUint8Clamped_inject_Z _ B1'), (toUint8Clamped_inject_Z _ B2') in Hbad.
  lia.
Qed.

Lemma normalize_keeps_order_witness :
  exists v1 v2,
    normalize (data twoPixels) !! 0%nat = Some v1
    /\ normalize (data twoPixels) !! 4%nat = Some v2
    /\ (v1 < v2)%Z.
Proof.
  apply (normalize_keeps_order (data twoPixels) 0 1 10 250).
  - unfold twoPixels, isByte. cbn [data]. repeat constructor; lia.
  - reflexivity.
  - reflexivity.
  - lia.
Defined.

Lemma normalized_double_exact_witness :
  Float64.toUint8Clamped (Float64.normalized 100 50 (200 - 50))
  = toUint8Clamped (normalized 100 50 (200 - 50)).
Proof.
  apply (normalized_double_exact 100 50 200); unfold isByte; lia.
Defined.

End NormalisationProperties.

Section DepthProviderWitnesses.
Import Canvas Async DepthProvider.

Lemma getDepthMap_resolves_when_decodable_witness :
  exists bitmap, getDepthMap nat readFile offline decodeAny grayGradients 1%nat
                 = Resolved bitmap.
Proof.
  apply (getDepthMap_resolves_when_decodable nat readFile offline decodeAny
           grayGradients 1%nat {| width := 2; height := 3; data := replicate 24 200%Z |}).
  reflexivity.
Defined.

End DepthProviderWitnesses.

(** ** Lighting masks from the LAB lightness ([buildLightingMasks]) *)

Section LabLoop.
Import Js Canvas LightingMasks LabMasks.

Variable Math_pow : Q -> Q -> Q.

Lemma labPixelDone_storePixel_earlier (data mask : list Z) (value : Q -> Q)
    (k p : nat) (v : Q) (a : Z) :
  (p < k)%nat -> labPixelDone Math_pow data mask value p ->
  labPixelDone Math_pow data (storePixel (4 * k) v a mask) value p.
Proof.
  intros Hp Hdone r g b a' Hr Hg Hb Ha.
  destruct (Hdone r g b a' Hr Hg Hb Ha) as [Hrgb Halpha].
  split.
  - intros c Hc. rewrite storePixel_lookup_other by lia. apply Hrgb, Hc.
  - rewrite storePixel_lookup_other by lia. exact Halpha.
Qed.

Lemma labMaskBody_invariant (data : list Z) (i : nat) (masks : list Z * list Z) :
  (i < length data)%nat ->
  labMasksInvariant Math_pow data i masks ->
  labMasksInvariant Math_pow data (i + 4) (labMaskBody Math_pow data i masks).
Proof.
  intros Hi (k & -> & Hls & Hlh & Hdone).
  exists (Datatypes.S k). split; [lia|].
  unfold labMaskBody.
  destruct (data !! (4 * k)%nat) as [r|] eqn:Er;
    [destruct (data !! (4 * k + 1)%nat) as [g|] eqn:Eg;
     [destruct (data !! (4 * k + 2)%nat) as [b|] eqn:Eb;
      [destruct (data !! (4 * k + 3)%nat) as [a|] eqn:Ea|]|]|].
  - cbn [fst snd]. rewrite !storePixel_length.
    split; [exact Hls|]. split; [exact Hlh|].
    assert (Hlen : (4 * k + 3 < length data)%nat) by (eapply lookup_lt_Some; exact Ea).
    intros p Hp. destruct (decide (p = k)) as [->|Hne].
    + split; intros r' g' b' a' Hr' Hg' Hb' Ha';
        rewrite Er in Hr'; rewrite Eg in Hg'; rewrite Eb in Hb'; rewrite Ea in Ha';
        inversion Hr'; inversion Hg'; inversion Hb'; inversion Ha'; subst r' g' b' a';
        (split; [intros c Hc; apply storePixel_lookup_rgb; [exact Hc | lia]
                | apply storePixel_lookup_alpha; lia]).
    + destruct (Hdone p ltac:(lia)) as [Hs Hh].
      split; apply labPixelDone_storePixel_earlier; try lia; assumption.
  - split; [exact Hls|]. split; [exact Hlh|].
    intros p Hp. destruct (decide (p = k)) as [->|Hne]; [|apply Hdone; lia].
    split; intros r' g' b' a' _ _ _ Ha'; congruence.
  - split; [exact Hls|]. split; [exact Hlh|].
    intros p Hp. destruct (decide (p = k)) as [->|Hne]; [|apply Hdone; lia].
    split; intros r' g' b' a' _ _ Hb' _; congruence.
  - split; [exact Hls|]. split; [exact Hlh|].
    intros p Hp. destruct (decide (p = k)) as [->|Hne]; [|apply Hdone; lia].
    split; intros r' g' b' a' _ Hg' _ _; congruence.
  - split; [exact Hls|]. split; [exact Hlh|].
    intros p Hp. destruct (decide (p = k)) as [->|Hne]; [|apply Hdone; lia].
    split; intros r' g' b' a' Hr' _ _ _; congruence.
Qed.

Lemma buildLightingMasks_pixels (mockupBitmap : ImageBitmap) (p : nat) :
  let masks := buildLightingMasks Math_pow mockupBitmap in
  labPixelDone Math_pow (data mockupBitmap) (data (shadowMask masks)) shadowValue p
  /\ labPixelDone Math_pow (data mockupBitmap) (data (highlightMask masks)) highlightValue p.
Proof.
  cbn zeta. unfold buildLightingMasks. cbn [shadowMask highlightMask data].
  set (d := data mockupBitmap).
  destruct (forStep4_invariant (labMasksInvariant Math_pow d) (labMaskBody Math_pow d)
              (length d) (labMaskBody_invariant d) (length d) 0%nat
              (newUint8ClampedArray (length d), newUint8ClampedArray (length d)))
    as (i' & Hend & k & -> & Hls & Hlh & Hdone).
  - lia.
  - exists 0%nat. cbn [fst snd]. unfold newUint8ClampedArray.
    rewrite !length_replicate. split; [reflexivity|]. split; [reflexivity|].
    split; [reflexivity|]. intros p' Hp'. lia.
  - assert (Hp : forall a, d !! (4 * p + 3)%nat = Some a -> (p < k)%nat).
    { intros a Ha. apply lookup_lt_Some in Ha. lia. }
    split.
    + intros r g b a Hr Hg Hb Ha. apply (Hdone p (Hp a Ha)); assumption.
    + intros r g b a Hr Hg Hb Ha. apply (Hdone p (Hp a Ha)); assumption.
Qed.

(** On the linear segments of the conversion (all three channels at
    most 10) [Math.pow] is not used and the lightness is
    [9.03292 * y], with [y] the linear luminance. *)
Lemma lightness_dark (r g b : Z) :
  (0 <= r <= 10)%Z -> (0 <= g <= 10)%Z -> (0 <= b <= 10)%Z ->
  lightness Math_pow r g b
  == 9.03292 * ((inject_Z r * 0.2126 + inject_Z g * 0.7152 + inject_Z b * 0.0722)
                / 255 / 12.92).
Proof.
  intros Hr Hg Hb.
  assert (Hq : forall n, (0 <= n <= 10)%Z -> 0 <= inject_Z n <= 10).
  { intros n [H0 H1]. split.
    - change 0 with (inject_Z 0). rewrite <- Zle_Qle. exact H0.
    - change 10 with (inject_Z 10). rewrite <- Zle_Qle. exact H1. }
  apply Hq in Hr, Hg, Hb.
  set (R := inject_Z r) in *. set (G := inject_Z g) in *. set (Bl := inject_Z b) in *.
  unfold lightness, rgbToLab. cbn zeta. fold R G Bl.
  assert (Hlin : forall v, 0 <= v <= 10 -> v / 255 <= 0.04045).
  { intros v Hv. apply Qle_shift_div_r; lra. }
  destruct (Qlt_le_dec 0.04045 (R / 255)) as [H|_]; [pose proof (Hlin R Hr); lra|].
  destruct (Qlt_le_dec 0.04045 (G / 255)) as [H|_]; [pose proof (Hlin G Hg); lra|].
  destruct (Qlt_le_dec 0.04045 (Bl / 255)) as [H|_]; [pose proof (Hlin Bl Hb); lra|].
  cbn [L].
  set (y := (R / 255 / 12.92 * 0.2126 + G / 255 / 12.92 * 0.7152
             + Bl / 255 / 12.92 * 0.0722) / 1.00000).
  assert (Ey : y == (R * 0.2126 + G * 0.7152 + Bl * 0.0722) / 255 / 12.92)
    by (unfold y; field).
  assert (Hy : y <= 0.008856).
  { rewrite Ey. apply Qle_shift_div_r; [lra|]. apply Qle_shift_div_r; lra. }
  destruct (Qlt_le_dec 0.008856 y) as [H|_]; [lra|].
  rewrite <- Ey. field.
Qed.

End LabLoop.

Section LabProperties.
Import Js Canvas LightingMasks LabMasks.

(** [buildLightingMasks], whatever [Math.pow] returns: for a pixel
    (r, g, b, a) with lightness [l = rgbToLab(r, g, b).L / 100], the
    shadow mask holds [clamp(0.5 - l, 0, 1) * 255] and the highlight
    mask [clamp(l - 0.5, 0, 1) * 255] as bytes in the three colour
    channels and the source alpha in the fourth; the two are never both
    positive. *)
Theorem lab_masks_pixel (Math_pow : Q -> Q -> Q) (mockupBitmap : ImageBitmap)
    (p : nat) (r g b a : Z) :
  data mockupBitmap !! (4 * p)%nat = Some r ->
  data mockupBitmap !! (4 * p + 1)%nat = Some g ->
  data mockupBitmap !! (4 * p + 2)%nat = Some b ->
  data mockupBitmap !! (4 * p + 3)%nat = Some a ->
  let l := lightness Math_pow r g b in
  let masks := buildLightingMasks Math_pow mockupBitmap in
  let shadow := toUint8Clamped (Math_max 0 (Math_min 1 (0.5 - l)) * 255) in
  let highlight := toUint8Clamped (Math_max 0 (Math_min 1 (l - 0.5)) * 255) in
  (forall c, (c < 3)%nat ->
     data (shadowMask masks) !! (4 * p + c)%nat = Some shadow /\
     data (highlightMask masks) !! (4 * p + c)%nat = Some highlight) /\
  data (shadowMask masks) !! (4 * p + 3)%nat = Some a /\
  data (highlightMask masks) !! (4 * p + 3)%nat = Some a /\
  isByte shadow /\ isByte highlight /\
  ~ (0 < shadow /\ 0 < highlight)%Z.
Proof.
  intros Er Eg Eb Ea l masks shadow highlight.
  destruct (buildLightingMasks_pixels Math_pow mockupBitmap p) as (Hs & Hh).
  destruct (Hs r g b a Er Eg Eb Ea) as [Hs_rgb Hs_a].
  destruct (Hh r g b a Er Eg Eb Ea) as [Hh_rgb Hh_a].
  destruct (shadow_highlight_exclusive l) as [_ Hexb].
  split; [intros c Hc; split; [apply Hs_rgb | apply Hh_rgb]; exact Hc|].
  split; [exact Hs_a|]. split; [exact Hh_a|].
  split; [apply toUint8Clamped_isByte|]. split; [apply toUint8Clamped_isByte|].
  exact Hexb.
Qed.

Lemma lab_masks_pixel_witness :
  data (shadowMask (buildLightingMasks roughPow darkToWhite)) !! 7%nat = Some 200%Z
  /\ data (highlightMask (buildLightingMasks roughPow darkToWhite)) !! 11%nat = Some 90%Z.
Proof.
  pose proof (lab_masks_pixel roughPow darkToWhite 1 128 128 128 200
                eq_refl eq_refl eq_refl eq_refl) as (_ & Ha1 & _).
  pose proof (lab_masks_pixel roughPow darkToWhite 2 255 255 255 90
                eq_refl eq_refl eq_refl eq_refl) as (_ & _ & Ha2 & _).
  split; [exact Ha1 | exact Ha2].
Defined.

(** Deep shadows do not depend on [Math.pow]: a pixel whose three
    channels are at most 10 lies on the linear segments of the
    conversion, gets a shadow byte between 121 and 128 (128 for black)
    and the highlight byte 0. *)
Theorem lab_masks_dark_pixel (Math_pow : Q -> Q -> Q) (mockupBitmap : ImageBitmap)
    (p : nat) (r g b a : Z) :
  data mockupBitmap !! (4 * p)%nat = Some r ->
  data mockupBitmap !! (4 * p + 1)%nat = Some g ->
  data mockupBitmap !! (4 * p + 2)%nat = Some b ->
  data mockupBitmap !! (4 * p + 3)%nat = Some a ->
  (0 <= r <= 10)%Z -> (0 <= g <= 10)%Z -> (0 <= b <= 10)%Z ->
  let masks := buildLightingMasks Math_pow mockupBitmap in
  exists shadow,
    (121 <= shadow <= 128)%Z
    /\ (r = 0%Z -> g = 0%Z -> b = 0%Z -> shadow = 128%Z)
    /\ forall c, (c < 3)%nat ->
         data (shadowMask masks) !! (4 * p + c)%nat = Some shadow
         /\ data (highlightMask masks) !! (4 * p + c)%nat = Some 0%Z.
Proof.
  intros Er Eg Eb Ea Hr Hg Hb masks. subst masks.
  destruct (buildLightingMasks_pixels Math_pow mockupBitmap p) as (Hs & Hh).
  destruct (Hs r g b a Er Eg Eb Ea) as [Hs_rgb _].
  destruct (Hh r g b a Er Eg Eb Ea) as [Hh_rgb _].
  pose proof (lightness_dark Math_pow r g b Hr Hg Hb) as El.
  set (l := lightness Math_pow r g b) in *. clearbody l.
  assert (Hq : forall n, (0 <= n <= 10)%Z -> 0 <= inject_Z n <= 10).
  { intros n [H0 H1]. split.
    - change 0 with (inject_Z 0). rewrite <- Zle_Qle. exact H0.
    - change 10 with (inject_Z 10). rewrite <- Zle_Qle. exact H1. }
  pose proof (Hq r Hr) as Qr. pose proof (Hq g Hg) as Qg. pose proof (Hq b Hb) as Qb.
  assert (Hl : 0 <= l /\ l <= 0.02742).
  { rewrite El. split.
    - apply Qmult_le_0_compat; [lra|].
      apply Qle_shift_div_l; [lra|]. apply Qle_shift_div_l; lra.
    - assert (H : (inject_Z r * 0.2126 + inject_Z g * 0.7152 + inject_Z b * 0.0722)
                  / 255 / 12.92 <= 0.0030353).
      { apply Qle_shift_div_r; [lra|]. apply Qle_shift_div_r; lra. }
      lra. }
  destruct Hl as [Hl0 Hl1].
  destruct (shadowValue_spec l) as (Hs1 & _ & _).
  destruct (highlightValue_spec l) as (_ & Hh2 & _).
  assert (Hsv : shadowValue l == (0.5 - l) * 255).
  { assert (Hlt : l < 0.5) by (clear El; lra).
    rewrite (Hs1 Hlt). unfold Math_min.
    assert (Hm : 0.5 - l <= 1) by (clear El; lra).
    rewrite (Q.min_r _ _ Hm). reflexivity. }
  assert (Hhv : highlightValue l == 0) by (apply Hh2; clear El; lra).
  exists (toUint8Clamped (shadowValue l)).
  split; [|split].
  - assert (Hrange : 0 <= shadowValue l <= 255) by (rewrite Hsv; clear El; split; lra).
    pose proof (toUint8Clamped_near _ Hrange) as [N1 N2].
    split.
    + assert (H : inject_Z 120 < inject_Z (toUint8Clamped (shadowValue l))).
      { change (inject_Z 120) with 120. clear El. lra. }
      rewrite <- Zlt_Qlt in H. lia.
    + apply toUint8Clamped_half. clear El. lra.
  - intros -> -> ->.
    rewrite (toUint8Clamped_comp _ 127.5); [reflexivity|].
    rewrite Hsv, El. change (inject_Z 0) with 0. field.
  - intros c Hc. split; [apply Hs_rgb, Hc|].
    rewrite (Hh_rgb c Hc). f_equal. apply toUint8Clamped_nonpos. clear El. lra.
Qed.

Lemma lab_masks_dark_pixel_witness :
  exists shadow,
    (121 <= shadow <= 128)%Z
    /\ data (shadowMask (buildLightingMasks roughPow darkToWhite)) !! 0%nat = Some shadow.
Proof.
  destruct (lab_masks_dark_pixel roughPow darkToWhite 0 8 3 10 255
              eq_refl eq_refl eq_refl eq_refl) as (shadow & Hrange & _ & Hrgb);
    [lia | lia | lia |].
  exists shadow. split; [exact Hrange|]. apply (Hrgb 0%nat). lia.
Defined.

End LabProperties.

(** ** The masks as functions of the brightness *)

Section MaskMonotonicity.
Import Js Canvas LightingMasks.







End MaskMonotonicity.

(** ** The renderer after a batch ([generateResults]) *)

Section BatchStateProperties.
Import Canvas Async Renderer.

Variable createImageBitmap : File.t -> Completion ImageBitmap.
Variable convertSvgToBitmap : File.t -> Completion ImageBitmap.
Variable render : Scene -> Completion unit.
Variable extractBase64 : Scene -> Completion string.

Local Abbreviation renderAndCapture := (Renderer.renderAndCapture render extractBase64).
Local Abbreviation designResults :=
  (Renderer.designResults createImageBitmap convertSvgToBitmap render extractBase64).
(** When the first, unfiltered render or capture throws, the batch is
    rejected with that error; the renderer is left with no results and
    with the filter taken off the sprite: it is not put back. *)
Theorem generateResults_base_failure (designFiles : list File.t) (this : Renderer)
    (error : string) :
  renderAndCapture (baseScene this) = Rejected error ->
  generateResults createImageBitmap convertSvgToBitmap render extractBase64
    designFiles this
  = (Rejected error, {| filters := false; design := design this; results := [] |}).
Proof.
  intros Hbase. unfold Renderer.renderAndCapture, baseScene, bind in Hbase.
  unfold generateResults, tryCatchA at 1, bindA at 1, setResults.
  unfold bindA at 1, getFilters. unfold bindA at 1, setFilters.
  unfold bindA at 1, appRender at 1, scene. cbn [filters design results].
  destruct (render {| sceneFilters := false; sceneDesign := design this |})
    as [[]|e] eqn:Hrender.
  - unfold bindA at 1, captureFrame, tryCatchA at 1, bindA at 1, appRender, scene.
    cbn [filters design results]. rewrite Hrender.
    destruct (extractBase64 {| sceneFilters := false; sceneDesign := design this |})
      as [img|e] eqn:Hextract; [discriminate|].
    inversion Hbase; subst e. reflexivity.
  - inversion Hbase; subst e. reflexivity.
Qed.


End BatchStateProperties.

Section BatchStateExamples.
Import Canvas Async Renderer.

Lemma generateResults_base_failure_witness :
  generateResults decodeBytes rasterise contextLost frame [logoPng] initialized
  = (Rejected "WebGL: CONTEXT_LOST_WEBGL",
     {| filters := false; design := None; results := [] |}).
Proof.
  apply (generateResults_base_failure decodeBytes rasterise contextLost frame
           [logoPng] initialized "WebGL: CONTEXT_LOST_WEBGL").
  reflexivity.
Defined.


End BatchStateExamples.

(** ** The life cycle of the renderer *)

Section LifecycleProperties.
Import Canvas Async Lifecycle.

Variable pixi : list PixiCall -> PixiCall -> Completion unit.
Variable extracted : list PixiCall -> string.

Lemma forEach_ok {A : Type} (l : list A) (f : A -> PixiCall) (this : Instance) :
  (forall history c, pixi history c = Resolved tt) ->
  forEach l (fun v => call pixi (f v)) this
  = (Resolved tt,
     {| app := app this; baseSprite := baseSprite this;
        fabricFilter := fabricFilter this; designTextures := designTextures this;
        calls := calls this ++ map f l |}).
Proof.
  intros Hok. revert this. induction l as [|v rest IH]; intros this; cbn [forEach map].
  - unfold retM. rewrite app_nil_r. destruct this; reflexivity.
  - unfold bindM, call at 1. rewrite Hok, IH. cbn. rewrite <- app_assoc. reflexivity.
Qed.

(** [destroy] never throws, whatever PIXI does.  When no PIXI call
    throws it releases everything, and a second [destroy] makes no
    further PIXI call and changes nothing. *)
Theorem destroy_twice (this : Instance) :
  fst (destroy pixi this) = Resolved tt
  /\ ((forall history c, pixi history c = Resolved tt) ->
      released (snd (destroy pixi this))
      /\ destroy pixi (snd (destroy pixi this))
         = (Resolved tt, snd (destroy pixi this))).
Proof.
  split.
  - unfold destroy, tryCatchM. destruct (bindM _ _ this) as [[[]|e] this']; reflexivity.
  - intros Hok.
    assert (Hrun : exists cs,
              destroy pixi this
              = (Resolved tt, {| app := false; baseSprite := None; fabricFilter := None;
                                 designTextures := []; calls := cs |})).
    { unfold destroy, tryCatchM. unfold bindM at 1, getThis.
      unfold bindM at 1. rewrite (forEach_ok _ TextureDestroy this Hok).
      unfold bindM at 1, setDesignTextures. cbn [app baseSprite fabricFilter designTextures calls].
      unfold bindM at 1. unfold bindM at 1.
      destruct (fabricFilter this) as [f|];
        destruct (baseSprite this) as [[[|]]|]; destruct (app this);
        cbn; unfold bindM, call, setFabricFilter, setBaseSprite, setApp, retM; cbn;
        rewrite ?Hok; cbn; rewrite ?Hok; cbn; rewrite ?Hok; cbn; rewrite ?Hok; cbn;
        eexists; reflexivity. }
    destruct Hrun as [cs Hrun]. rewrite Hrun. cbn [snd].
    split; [repeat split|reflexivity].
Qed.


(** The live preview cannot crash the application:
    [renderDesignAtPosition] never throws, whatever PIXI does; without a
    filter or without a bitmap it makes no PIXI call and leaves the
    renderer as it is. *)
Theorem renderDesignAtPosition_never_throws (designBitmap : option ImageBitmap)
    (this : Instance) :
  fst (renderDesignAtPosition pixi designBitmap this) = Resolved tt
  /\ (fabricFilter this = None \/ designBitmap = None ->
      renderDesignAtPosition pixi designBitmap this = (Resolved tt, this)).
Proof.
  split.
  - unfold renderDesignAtPosition, tryCatchM.
    destruct (bindM _ _ this) as [[[]|e] this']; reflexivity.
  - intros [Hf|Hb]; unfold renderDesignAtPosition, tryCatchM, bindM, getThis.
    + rewrite Hf. reflexivity.
    + rewrite Hb. destruct (fabricFilter this); reflexivity.
Qed.

(** After everything has been released: [renderDesignAtPosition] and
    [setDisplacementStrength] do nothing, while [captureFrame] throws a
    [TypeError], since [this.app] is [null]. *)
Theorem released_renderer_methods (this : Instance)
    (designBitmap : option ImageBitmap) (s : Q) :
  released this ->
  renderDesignAtPosition pixi designBitmap this = (Resolved tt, this)
  /\ setDisplacementStrength s this = (Resolved tt, this)
  /\ captureFrame pixi extracted this
     = (Rejected "TypeError: Cannot read properties of null", this)
  /\ destroy pixi this = (Resolved tt, this).
Proof.
  intros (Happ & Hsprite & Hfilter & Htextures).
  destruct this as [a sp f ts cs]. cbn in Happ, Hsprite, Hfilter, Htextures. subst.
  repeat split; destruct designBitmap; reflexivity.
Qed.

End LifecycleProperties.

Section LifecycleExamples.
Import Canvas Async Lifecycle.

Lemma destroy_twice_witness :
  released (snd (destroy pixiOk running))
  /\ calls (snd (destroy pixiOk (snd (destroy pixiOk running))))
     = [RemoveChild; SpriteDestroy; StageRemoveChildren; AppDestroy].
Proof.
  destruct (destroy_twice pixiOk running) as [_ H].
  destruct (H (fun _ _ => eq_refl)) as [Hreleased Hagain].
  split; [exact Hreleased|]. rewrite Hagain. reflexivity.
Defined.

Lemma released_renderer_methods_witness :
  captureFrame pixiOk callCount (snd (destroy pixiOk running))
  = (Rejected "TypeError: Cannot read properties of null", snd (destroy pixiOk running)).
Proof.
  destruct (released_renderer_methods pixiOk callCount (snd (destroy pixiOk running))
              None 0.5)
    as (_ & _ & Hcapture & _).
  - unfold released. cbn. repeat split.
  - exact Hcapture.
Defined.

(** A capture on the running renderer renders, then extracts. *)
Example captureFrame_running :
  captureFrame pixiOk callCount running
  = (Resolved "data:image/png;base64,1",
     {| app := true; baseSprite := Some {| parent := true |};
        fabricFilter := Some {| design := None; strength := 0.1 |};
        designTextures := []; calls := [AppRender; ExtractBase64] |}).
Proof. reflexivity. Qed.

(** When the sprite cannot be destroyed, [destroy] still returns, and
    the sprite and the application are kept: nothing after the failing
    call is released. *)
Example destroy_stops_at_first_error :
  destroy spriteStuck running
  = (Resolved tt,
     {| app := true; baseSprite := Some {| parent := true |}; fabricFilter := None;
        designTextures := []; calls := [RemoveChild; SpriteDestroy] |}).
Proof. reflexivity. Qed.

End LifecycleExamples.

(** ** Rasterising SVG designs ([convertSvgToBitmap]) *)

Section SvgProperties.
Import Canvas Async Svg.

Variable readAsText : File.t -> Completion (list Z).
Variable base64 : list Z -> string.
Variable loadImage : string -> Completion (nat * nat).
Variable canvasBitmap : string -> nat -> nat -> Completion ImageBitmap.

(** [convertSvgToBitmap] stays pending for ever exactly when the file
    can be read and its text holds a character above U+00FF ([btoa]
    throws in the reader's callback); and a bitmap it resolves with
    comes from a canvas that is never empty: a missing intrinsic width
    or height is replaced by 200. *)
Theorem convertSvgToBitmap_settles (svgFile : File.t) :
  (convertSvgToBitmap readAsText base64 loadImage canvasBitmap svgFile = Pending
   <-> exists svgText,
         readAsText svgFile = Resolved svgText
         /\ Exists (fun unit => (255 < unit)%Z) svgText)
  /\ (forall bitmap,
        convertSvgToBitmap readAsText base64 loadImage canvasBitmap svgFile
          = Settled (Resolved bitmap) ->
        exists src width height,
          canvasBitmap src width height = Resolved bitmap
          /\ (1 <= width)%nat /\ (1 <= height)%nat
          /\ exists w h, loadImage src = Resolved (w, h)
               /\ (w <> 0%nat -> width = w) /\ (h <> 0%nat -> height = h)
               /\ (w = 0%nat -> width = 200%nat) /\ (h = 0%nat -> height = 200%nat)).
Proof.
  assert (Hbtoa : forall text,
            (exists e, btoa base64 text = Rejected e)
            <-> Exists (fun unit => (255 < unit)%Z) text).
  { intros text. unfold btoa.
    destruct (forallb (fun unit => (unit <=? 255)%Z) text) eqn:Hall.
    - split; [intros [e He]; discriminate|].
      intros Hex. rewrite forallb_forall in Hall.
      apply List.Exists_exists in Hex. destruct Hex as (c & Hin & Hc).
      specialize (Hall c Hin). apply Z.leb_le in Hall. lia.
    - split; [|intros _; eexists; reflexivity].
      intros _. apply List.Exists_exists.
      induction text as [|c text IH]; [discriminate|].
      cbn in Hall. apply andb_false_iff in Hall. destruct Hall as [Hc|Hrest].
      + exists c. split; [left; reflexivity|]. apply Z.leb_gt in Hc. exact Hc.
      + destruct (IH Hrest) as (c' & Hin & Hc').
        exists c'. split; [right; exact Hin | exact Hc']. }
  unfold convertSvgToBitmap. split.
  - destruct (readAsText svgFile) as [svgText|e].
    + destruct (btoa base64 svgText) as [encoded|e] eqn:Hb.
      * split.
        -- destruct (loadImage _) as [[w h]|e]; discriminate.
        -- intros (text & Ht & Hex). inversion Ht; subst text.
           apply Hbtoa in Hex. destruct Hex as [e He]. congruence.
      * split; [|reflexivity].
        intros _. exists svgText. split; [reflexivity|].
        apply Hbtoa. exists e. exact Hb.
    + split; [discriminate|]. intros (text & Ht & _). discriminate.
  - intros bitmap Hres.
    destruct (readAsText svgFile) as [svgText|e]; [|discriminate].
    destruct (btoa base64 svgText) as [encoded|e]; [|discriminate].
    destruct (loadImage _) as [[w h]|e] eqn:Hload; [|discriminate].
    inversion Hres as [Hcanvas]. unfold tryCatch in Hcanvas.
    destruct (canvasBitmap _ _ _) as [b|e] eqn:Hb; [|discriminate].
    inversion Hcanvas; subst b.
    eexists. eexists. eexists. split; [exact Hb|].
    unfold orDefault.
    destruct (Nat.eqb_spec w 0) as [Ew|Ew]; destruct (Nat.eqb_spec h 0) as [Eh|Eh];
      (split; [lia|]); (split; [lia|]);
      exists w, h; (split; [exact Hload|]);
      repeat split; intros; first [reflexivity | contradiction | lia].
Qed.

End SvgProperties.

Section SvgExamples.
Import Canvas Async Svg.

(** An SVG with a euro sign in its text never settles; a plain one
    without intrinsic size is rasterised at 200 x 200. *)
Example convertSvgToBitmap_euro_sign :
  convertSvgToBitmap textOfBytes noBase64 noIntrinsicSize blankBitmap priceTag = Pending.
Proof. reflexivity. Qed.

Example convertSvgToBitmap_default_size :
  exists pixels,
    convertSvgToBitmap textOfBytes noBase64 noIntrinsicSize blankBitmap plainSvg
    = Settled (Resolved {| width := 200; height := 200; data := pixels |}).
Proof. eexists. reflexivity. Qed.

End SvgExamples.

(** ** The Canvas2D fallback ([renderWithCanvas2D]) *)

Section Canvas2DProperties.
Import Canvas Async Canvas2DFallback.

Variable paint : string -> Q -> ImageBitmap -> option (nat * nat) -> list Z -> list Z.
Variable toDataURL : nat -> nat -> list Z -> string.

Lemma processDesignBitmaps_spec (mockupBitmap : ImageBitmap)
    (designBitmaps : list ImageBitmap) :
  forall (i : nat) (ctx : Context) (results : list Renderer.Result),
  canvasWidth ctx = width mockupBitmap -> canvasHeight ctx = height mockupBitmap ->
  globalCompositeOperation ctx = "source-over"%string -> globalAlpha ctx = 1 ->
  processDesignBitmaps paint toDataURL mockupBitmap i designBitmaps ctx results
  = results ++ fallbackResults paint toDataURL mockupBitmap i designBitmaps.
Proof.
  induction designBitmaps as [|d rest IH]; intros i ctx results Hw Hh Hop Halpha;
    cbn [processDesignBitmaps fallbackResults].
  - rewrite app_nil_r. reflexivity.
  - rewrite IH.
    + rewrite <- app_assoc. cbn [app]. f_equal. f_equal.
      unfold fallbackResult, canvasToDataURL, mockupAlone.
      cbn [canvasWidth canvasHeight globalCompositeOperation globalAlpha pixels
           setGlobalAlpha setGlobalCompositeOperation drawImage clearRect].
      rewrite Hw, Hh, Hop, Halpha. reflexivity.
    + exact Hw.
    + exact Hh.
    + reflexivity.
    + reflexivity.
Qed.

(** The Canvas2D fallback returns the mock-up alone as "Original
    Mockup", then one entry per design, in order, named "Design 1",
    "Design 2", ...; the image of a design depends on the mock-up and on
    that design only (the canvas is cleared and the blend settings are
    put back after every design), and [strength] plays no part. *)
Theorem renderWithCanvas2D_results (mockupBitmap : ImageBitmap)
    (designBitmaps : list ImageBitmap) (strength : Q) :
  renderWithCanvas2D paint toDataURL mockupBitmap designBitmaps strength
  = {| Renderer.name := "Original Mockup";
       Renderer.image := toDataURL (width mockupBitmap) (height mockupBitmap)
                                   (mockupAlone paint mockupBitmap) |}
    :: fallbackResults paint toDataURL mockupBitmap 0 designBitmaps
  /\ length (renderWithCanvas2D paint toDataURL mockupBitmap designBitmaps strength)
     = S (length designBitmaps)
  /\ forall i designBitmap,
       designBitmaps !! i = Some designBitmap ->
       renderWithCanvas2D paint toDataURL mockupBitmap designBitmaps strength !! S i
       = Some (fallbackResult paint toDataURL mockupBitmap i designBitmap).
Proof.
  assert (Hrun : renderWithCanvas2D paint toDataURL mockupBitmap designBitmaps strength
            = {| Renderer.name := "Original Mockup";
                 Renderer.image := toDataURL (width mockupBitmap) (height mockupBitmap)
                                             (mockupAlone paint mockupBitmap) |}
              :: fallbackResults paint toDataURL mockupBitmap 0 designBitmaps).
  { unfold renderWithCanvas2D. cbn zeta.
    rewrite processDesignBitmaps_spec; reflexivity. }
  assert (Hlen : forall i l, length (fallbackResults paint toDataURL mockupBitmap i l)
                             = length l).
  { intros i l. revert i. induction l as [|d l IH]; intros i; cbn; [reflexivity|].
    rewrite IH. reflexivity. }
  assert (Hlook : forall l i j d, l !! j = Some d ->
            fallbackResults paint toDataURL mockupBitmap i l !! j
            = Some (fallbackResult paint toDataURL mockupBitmap (i + j) d)).
  { induction l as [|d' l IH]; intros i j d Hj; [discriminate|].
    cbn [fallbackResults]. rewrite lookup_cons in Hj. rewrite lookup_cons.
    destruct j as [|j].
    - inversion Hj; subst. rewrite Nat.add_0_r. reflexivity.
    - rewrite (IH (S i) j d Hj). do 2 f_equal. lia. }
  split; [exact Hrun|]. rewrite Hrun. split.
  - cbn [length]. rewrite Hlen. reflexivity.
  - intros i d Hi. rewrite lookup_cons. apply (Hlook designBitmaps 0%nat i d Hi).
Qed.

End Canvas2DProperties.

Section Canvas2DExamples.
Import Canvas Async Canvas2DFallback.

(** The same design twice gives the same image twice: nothing of the
    first pass is left on the canvas. *)
Example renderWithCanvas2D_no_carry_over :
  renderWithCanvas2D paintFirstByte sumUrl grayBitmap [twoPixels; twoPixels] 0.1
  = [ {| Renderer.name := "Original Mockup"; Renderer.image := "128" |};
      {| Renderer.name := "Design 1"; Renderer.image := "138" |};
      {| Renderer.name := "Design 2"; Renderer.image := "138" |} ].
Proof. reflexivity. Qed.

End Canvas2DExamples.
